(** * Rufus experimental features: drive monitor and USB health predictor

    A shallow embedding of [src/realtime_monitor.c] and of the scoring part
    of [src/usb_health_predictor.c], with the properties of the monitoring
    engine stated and proved over it.

    Conventions of the embedding.
    - C [float] values are exact rationals ([Q]); a literal such as [0.1f]
      is the rational [1/10]; comparisons are the exact ones.  The one
      place where single precision is written out is the limit of the
      threshold test, [threshold * multiplier]: there the literals [0.8f]
      and [0.9f] are their binary32 values and the product is rounded to
      binary32 (to nearest, ties to even), as the severity of a value at
      the limit depends on it.  Infinities and NaN are not values of the
      model.
    - [uint32_t] and [uint64_t] values are integers in [Z]; where the source
      increments a counter the wrap-around is written out.
    - A [const char*] argument is an [option string]: [None] is the null
      pointer, [Some s] the characters before the terminator.
    - A fixed-size C array is a list; [a[i]] is a positional read and
      [a[i] = v] a positional update.  Out of range, where C has no defined
      behaviour, a read of a float gives 0 and an update does nothing;
      neither happens on a state of the shape [Monitor.engine_inv].
    - Values the source obtains from the operating system (the tick count,
      the handles returned by [CreateEvent] and [CreateThread]) and the
      values the metric collectors write are explicit arguments.
    - Printing ([uprintf], [SendAlertNotification]) and the log file are
      not part of the state.
    - A call runs to completion before the next one starts: the monitoring
      thread and the callers of the entry points interleave call by call. *)

From Stdlib Require Import ZArith QArith Qminmax Qround Qpower Bool Lia Lqa.
From Stdlib Require Import Strings.String Strings.Ascii.
From stdpp Require Import base list strings.

Local Open Scope Z_scope.

(** ** C primitives shared by both translation units *)

Definition BOOL := bool.
Abbreviation float := Q (only parsing).

(** [MAX_PATH] comes from the Windows SDK headers. *)
Definition MAX_PATH : nat := 260.

Definition uint32_t_wrap (z : Z) : Z := z mod 2 ^ 32.

(** [strncpy(dst, src, n)] into a buffer whose byte [n] is zero: the first
    [n] characters of [src]. *)
Definition strncpy (n : nat) (src : string) : string := substring 0 n src.

(** [strcmp(a, b) == 0] *)
Definition strcmp_eq (a b : string) : bool := String.eqb a b.

(** Exact comparisons on the rational model of [float]. *)
Definition fge (a b : float) : bool := Qle_bool b a.
Definition fgt (a b : float) : bool := negb (Qle_bool a b).
Definition flt (a b : float) : bool := negb (Qle_bool b a).

(** [a[i]] on a float array. *)
Definition rd (a : list float) (i : nat) : float := default 0%Q (a !! i).

(** ** Single precision *)

(** The parameters of binary32, as [float.h] names them: 24 significant
    bits, and [2 ^ (FLT_MIN_EXP - 1)] the smallest normal number. *)
Definition FLT_MANT_DIG : Z := 24.
Definition FLT_MIN_EXP : Z := -125.

(** For [a > 0], the exponent [e] with [2 ^ (e - 1) <= a < 2 ^ e]. *)
Definition magnitude (a : Q) : Z :=
  let e := Z.log2 (Qnum a) - Z.log2 (Z.pos (Qden a)) in
  if Qle_bool (2 ^ e) a then e + 1 else e.

(** The exponent of the last bit of the binary32 numbers around [a]: 24
    bits below the magnitude, but not below that of the subnormal
    numbers, [2 ^ -149]. *)
Definition ulp_exponent (a : Q) : Z :=
  Z.max (magnitude a - FLT_MANT_DIG) (FLT_MIN_EXP - FLT_MANT_DIG).

(** The nearest integer, the even one of two that are equally near. *)
Definition round_half_even (m : Q) : Z :=
  let f := Qfloor m in
  match (m - inject_Z f ?= 1 # 2)%Q with
  | Lt => f
  | Gt => f + 1
  | Eq => if Z.even f then f else f + 1
  end.

(** The nearest multiple of [2 ^ u]. *)
Definition round_on_grid (u : Z) (a : Q) : Q :=
  (inject_Z (round_half_even (a / 2 ^ u)) * 2 ^ u)%Q.

(** The binary32 number nearest to [x], ties to even: what a [float]
    holds after an operation whose exact result is [x], and what a decimal
    literal with the suffix [f] denotes.  The result is not cut off at
    [FLT_MAX]. *)
Definition float_round (x : Q) : float :=
  match Qnum x with
  | Z0 => 0%Q
  | Z.pos _ => round_on_grid (ulp_exponent x) x
  | Z.neg _ => (- round_on_grid (ulp_exponent (- x)) (- x))%Q
  end.

(** [a * b] on two [float] operands. *)
Definition fmul (a b : float) : float := float_round (a * b).

(** The literals [0.8f], [0.9f] and [0.64f]. *)
Definition float_0_8 : float := Eval vm_compute in Qred (float_round (8 # 10)).
Definition float_0_9 : float := Eval vm_compute in Qred (float_round (9 # 10)).
Definition float_0_64 : float :=
  Eval vm_compute in Qred (float_round (64 # 100)).

Module Monitor.

(** ** realtime_monitor.h *)

Definition MONITOR_MAX_DRIVES : Z := 16.
Definition MONITOR_UPDATE_INTERVAL : Z := 1000.
(** [0.8f] and [0.9f], the multipliers of the threshold test. *)
Definition MONITOR_ALERT_THRESHOLD : float := float_0_8.
Definition MONITOR_CRITICAL_THRESHOLD : float := float_0_9.

Inductive monitor_metric_t :=
  | MONITOR_METRIC_TEMPERATURE
  | MONITOR_METRIC_READ_SPEED
  | MONITOR_METRIC_WRITE_SPEED
  | MONITOR_METRIC_ERROR_RATE
  | MONITOR_METRIC_POWER_CONSUMPTION
  | MONITOR_METRIC_VIBRATION
  | MONITOR_METRIC_ELECTROMAGNETIC
  | MONITOR_METRIC_CAPACITY_USAGE
  | MONITOR_METRIC_SECTOR_HEALTH
  | MONITOR_METRIC_MAX.

(** The integer value of an enumerator. *)
Definition metric_index (m : monitor_metric_t) : nat :=
  match m with
  | MONITOR_METRIC_TEMPERATURE => 0
  | MONITOR_METRIC_READ_SPEED => 1
  | MONITOR_METRIC_WRITE_SPEED => 2
  | MONITOR_METRIC_ERROR_RATE => 3
  | MONITOR_METRIC_POWER_CONSUMPTION => 4
  | MONITOR_METRIC_VIBRATION => 5
  | MONITOR_METRIC_ELECTROMAGNETIC => 6
  | MONITOR_METRIC_CAPACITY_USAGE => 7
  | MONITOR_METRIC_SECTOR_HEALTH => 8
  | MONITOR_METRIC_MAX => 9
  end%nat.

(** The cast [(monitor_metric_t)i]; the source only casts [0 <= i < 9]. *)
Definition metric_of_index (i : nat) : monitor_metric_t :=
  match i with
  | 0 => MONITOR_METRIC_TEMPERATURE
  | 1 => MONITOR_METRIC_READ_SPEED
  | 2 => MONITOR_METRIC_WRITE_SPEED
  | 3 => MONITOR_METRIC_ERROR_RATE
  | 4 => MONITOR_METRIC_POWER_CONSUMPTION
  | 5 => MONITOR_METRIC_VIBRATION
  | 6 => MONITOR_METRIC_ELECTROMAGNETIC
  | 7 => MONITOR_METRIC_CAPACITY_USAGE
  | 8 => MONITOR_METRIC_SECTOR_HEALTH
  | _ => MONITOR_METRIC_MAX
  end%nat.

(** Number of metric kinds, the bound of every [for (i = 0; i <
    MONITOR_METRIC_MAX; i++)] loop. *)
Definition METRIC_COUNT : nat := metric_index MONITOR_METRIC_MAX.

Record drive_monitor_data_t := mk_drive {
  drive_path : string;
  drive_name : string;
  is_monitoring : BOOL;
  is_healthy : BOOL;
  current_metrics : list float;
  average_metrics : list float;
  max_metrics : list float;
  min_metrics : list float;
  last_update : Z;
  error_count : Z;
  warning_count : Z;
  data_points : Z
}.

(** [alert_drive_path] is the field [drive_path] of the C struct, and
    [ctx_is_monitoring] below the field [is_monitoring] of the context:
    the projections of all records share one name space. *)
Record monitor_alert_t := mk_alert {
  alert_drive_path : string;
  metric : monitor_metric_t;
  current_value : float;
  threshold_value : float;
  alert_message : string;
  timestamp : Z;
  is_critical : BOOL;
  is_acknowledged : BOOL
}.

Record monitor_context_t := mk_context {
  drives : list drive_monitor_data_t;
  alerts : list monitor_alert_t;
  drive_count : Z;
  alert_count : Z;
  ctx_is_monitoring : BOOL;
  monitor_thread : Z;
  stop_event : Z;
  start_time : Z;
  last_scan_time : Z
}.

Record monitor_config_t := mk_config {
  enable_temperature_monitoring : BOOL;
  enable_speed_monitoring : BOOL;
  enable_error_monitoring : BOOL;
  enable_power_monitoring : BOOL;
  enable_vibration_monitoring : BOOL;
  enable_em_monitoring : BOOL;
  enable_capacity_monitoring : BOOL;
  enable_sector_monitoring : BOOL;
  update_interval : Z;
  warning_threshold : float;
  critical_threshold : float;
  auto_alert : BOOL;
  log_to_file : BOOL;
  log_file_path : string
}.

(** The three file-scope variables of realtime_monitor.c. *)
Record globals := mk_globals {
  g_monitor_context : monitor_context_t;
  g_monitor_config : monitor_config_t;
  g_monitor_initialized : BOOL
}.

(** *** Zero-filled objects ([memset(p, 0, sizeof *p)] and [= { 0 }]) *)

Definition zero_metrics : list float := replicate METRIC_COUNT 0%Q.

Definition zero_drive : drive_monitor_data_t :=
  mk_drive "" "" false false zero_metrics zero_metrics zero_metrics
           zero_metrics 0 0 0 0.

Definition zero_alert : monitor_alert_t :=
  mk_alert "" MONITOR_METRIC_TEMPERATURE 0%Q 0%Q "" 0 false false.

Definition ALERT_CAPACITY : Z := MONITOR_MAX_DRIVES * Z.of_nat METRIC_COUNT.

Definition zero_context : monitor_context_t :=
  mk_context (replicate (Z.to_nat MONITOR_MAX_DRIVES) zero_drive)
             (replicate (Z.to_nat ALERT_CAPACITY) zero_alert)
             0 0 false 0 0 0 0.

Definition zero_config : monitor_config_t :=
  mk_config false false false false false false false false 0 0%Q 0%Q
            false false "".

Definition initial_globals : globals :=
  mk_globals zero_context zero_config false.

(** *** Field updates *)

Definition set_is_monitoring (b : BOOL) (d : drive_monitor_data_t) :=
  mk_drive (drive_path d) (drive_name d) b (is_healthy d)
           (current_metrics d) (average_metrics d) (max_metrics d)
           (min_metrics d) (last_update d) (error_count d)
           (warning_count d) (data_points d).

Definition set_metrics (cur avg mx mn : list float)
    (d : drive_monitor_data_t) :=
  mk_drive (drive_path d) (drive_name d) (is_monitoring d) (is_healthy d)
           cur avg mx mn (last_update d) (error_count d)
           (warning_count d) (data_points d).

Definition set_counters (lu ec wc dp : Z) (d : drive_monitor_data_t) :=
  mk_drive (drive_path d) (drive_name d) (is_monitoring d) (is_healthy d)
           (current_metrics d) (average_metrics d) (max_metrics d)
           (min_metrics d) lu ec wc dp.

Definition set_is_acknowledged (b : BOOL) (a : monitor_alert_t) :=
  mk_alert (alert_drive_path a) (metric a) (current_value a)
           (threshold_value a) (alert_message a) (timestamp a)
           (is_critical a) b.

Definition set_drives (ds : list drive_monitor_data_t) (dc : Z)
    (c : monitor_context_t) :=
  mk_context ds (alerts c) dc (alert_count c) (ctx_is_monitoring c)
             (monitor_thread c) (stop_event c) (start_time c)
             (last_scan_time c).

Definition set_alerts (al : list monitor_alert_t) (ac : Z)
    (c : monitor_context_t) :=
  mk_context (drives c) al (drive_count c) ac (ctx_is_monitoring c)
             (monitor_thread c) (stop_event c) (start_time c)
             (last_scan_time c).

Definition set_thread (running : BOOL) (thread : Z)
    (c : monitor_context_t) :=
  mk_context (drives c) (alerts c) (drive_count c) (alert_count c)
             running thread (stop_event c) (start_time c)
             (last_scan_time c).

Definition with_context (c : monitor_context_t) (g : globals) :=
  mk_globals c (g_monitor_config g) (g_monitor_initialized g).

(** ** realtime_monitor.c *)

Definition default_config : monitor_config_t :=
  mk_config true true true true false false true true
            MONITOR_UPDATE_INTERVAL MONITOR_ALERT_THRESHOLD
            MONITOR_CRITICAL_THRESHOLD true false "rufus_monitor.log".

(** [event] is the handle returned by [CreateEvent] (0 when it fails) and
    [now] the value of [GetTickCount64()]. *)
Definition InitRealTimeMonitor (config : option monitor_config_t)
    (now event : Z) (g : globals) : globals * BOOL :=
  if g_monitor_initialized g then (g, true)
  else
    let cfg := match config with
               | None => default_config
               | Some c => c
               end in
    let ctx := mk_context (drives zero_context) (alerts zero_context)
                          0 0 false 0 event now 0 in
    if event =? 0 then (mk_globals ctx cfg false, false)
    else (mk_globals ctx cfg true, true).

(** The search loop shared by [StopDriveMonitoring],
    [IsDriveBeingMonitored] and [GetDriveHealthStatus]:
    [for (i = 0; i < drive_count; i++) if (strcmp(drives[i].drive_path,
    drive_path) == 0) ...], returning the first hit.  [i] is the current
    index and [n] the number of iterations left.  A read past the end of
    the array (impossible while [drive_count <= MONITOR_MAX_DRIVES]) ends
    the search. *)
Fixpoint find_drive_from (ds : list drive_monitor_data_t) (path : string)
    (i n : nat) : option (nat * drive_monitor_data_t) :=
  match n with
  | O => None
  | S n' =>
      match ds !! i with
      | Some d =>
          if strcmp_eq (drive_path d) path then Some (i, d)
          else find_drive_from ds path (S i) n'
      | None => None
      end
  end.

Definition find_drive (c : monitor_context_t) (path : string)
    : option (nat * drive_monitor_data_t) :=
  find_drive_from (drives c) path 0 (Z.to_nat (drive_count c)).

(** [for (i = 0; i < drive_count; i++) drives[i].is_monitoring = b;] *)
Definition set_all_monitoring (b : BOOL) (c : monitor_context_t)
    : list drive_monitor_data_t :=
  fold_left (fun ds i => alter (set_is_monitoring b) i ds)
            (seq 0 (Z.to_nat (drive_count c))) (drives c).

Definition IsDriveBeingMonitored (drive_path : option string) (g : globals)
    : BOOL :=
  match drive_path with
  | None => false
  | Some p =>
      if negb (g_monitor_initialized g) then false
      else match find_drive (g_monitor_context g) p with
           | Some (_, d) => is_monitoring d
           | None => false
           end
  end.

(** The body of the initialisation loop of [StartDriveMonitoring]. *)
Definition init_metric (d : drive_monitor_data_t) (i : nat) :=
  set_metrics (<[i := 0%Q]> (current_metrics d))
              (<[i := 0%Q]> (average_metrics d))
              (<[i := 0%Q]> (max_metrics d))
              (<[i := 1000%Q]> (min_metrics d)) d.

(** The record [StartDriveMonitoring] writes into the free slot. *)
Definition new_drive_data (p : string) (now : Z) : drive_monitor_data_t :=
  let d := mk_drive (strncpy (MAX_PATH - 1) p) (strncpy (64 - 1) p)
                    true true zero_metrics zero_metrics zero_metrics
                    zero_metrics now 0 0 0 in
  fold_left init_metric (seq 0 METRIC_COUNT) d.

(** [thread] is the handle [CreateThread] returns if it is called (0 when
    it fails). *)
Definition StartDriveMonitoring (drive_path : option string)
    (now thread : Z) (g : globals) : globals * BOOL :=
  if negb (g_monitor_initialized g) then (g, false)
  else
    let c := g_monitor_context g in
    match drive_path with
    | None =>
        (with_context (set_drives (set_all_monitoring true c)
                                  (drive_count c) c) g, true)
    | Some p =>
        if IsDriveBeingMonitored drive_path g then (g, true)
        else if MONITOR_MAX_DRIVES <=? drive_count c then (g, false)
        else
          let drive_index := Z.to_nat (drive_count c) in
          let c1 := set_drives
                      (<[drive_index := new_drive_data p now]> (drives c))
                      (uint32_t_wrap (drive_count c + 1)) c in
          if negb (ctx_is_monitoring c1) then
            if thread =? 0
            then (with_context (set_thread false thread c1) g, false)
            else (with_context (set_thread true thread c1) g, true)
          else (with_context c1 g, true)
    end.

(** [SetEvent], [WaitForSingleObject] and [CloseHandle] act on kernel
    objects only; in the process memory the thread handle becomes null. *)
Definition StopDriveMonitoring (drive_path : option string) (g : globals)
    : globals * BOOL :=
  if negb (g_monitor_initialized g) then (g, false)
  else
    let c := g_monitor_context g in
    match drive_path with
    | None =>
        let c1 := set_drives (set_all_monitoring false c)
                             (drive_count c) c in
        let c2 := if ctx_is_monitoring c1 then set_thread false 0 c1
                  else c1 in
        (with_context c2 g, true)
    | Some p =>
        match find_drive c p with
        | Some (i, _) =>
            (with_context
               (set_drives (alter (set_is_monitoring false) i (drives c))
                           (drive_count c) c) g, true)
        | None => (g, false)
        end
    end.

Definition CleanupRealTimeMonitor (g : globals) : globals :=
  if g_monitor_initialized g then
    let g1 := fst (StopDriveMonitoring None g) in
    mk_globals zero_context (g_monitor_config g1) false
  else g.

(** [data] is the out-parameter: [None] when the call returns FALSE. *)
Definition GetDriveHealthStatus (drive_path : option string) (g : globals)
    : option drive_monitor_data_t :=
  match drive_path with
  | None => None
  | Some p =>
      if negb (g_monitor_initialized g) then None
      else match find_drive (g_monitor_context g) p with
           | Some (_, d) => Some d
           | None => None
           end
  end.

(** The copied alerts and [*alert_count]. *)
Definition GetMonitoringAlerts (g : globals)
    : option (list monitor_alert_t * Z) :=
  if negb (g_monitor_initialized g) then None
  else
    let c := g_monitor_context g in
    Some (take (Z.to_nat (alert_count c)) (alerts c), alert_count c).

Definition AcknowledgeAlert (alert_index : N) (g : globals)
    : globals * BOOL :=
  let c := g_monitor_context g in
  if negb (g_monitor_initialized g) || (alert_count c <=? Z.of_N alert_index)
  then (g, false)
  else
    (with_context
       (set_alerts (alter (set_is_acknowledged true) (N.to_nat alert_index)
                          (alerts c))
                   (alert_count c) c) g, true).

Definition ClearAllAlerts (g : globals) : globals * BOOL :=
  if negb (g_monitor_initialized g) then (g, false)
  else
    (with_context
       (set_alerts (replicate (Z.to_nat ALERT_CAPACITY) zero_alert) 0
                   (g_monitor_context g)) g, true).

Definition GetMetricThreshold (m : monitor_metric_t) : float :=
  match m with
  | MONITOR_METRIC_TEMPERATURE => 60
  | MONITOR_METRIC_READ_SPEED => 5
  | MONITOR_METRIC_WRITE_SPEED => 5
  | MONITOR_METRIC_ERROR_RATE => 5 # 10
  | MONITOR_METRIC_POWER_CONSUMPTION => 5
  | MONITOR_METRIC_VIBRATION => 3
  | MONITOR_METRIC_ELECTROMAGNETIC => float_0_8
  | MONITOR_METRIC_CAPACITY_USAGE => 90
  | MONITOR_METRIC_SECTOR_HEALTH => 80
  | MONITOR_METRIC_MAX => 0
  end%Q.

(** [value >= threshold * g_monitor_config.critical_threshold]: the
    product of two [float] operands is a [float]. *)
Definition IsMetricCritical (g : globals) (m : monitor_metric_t)
    (value : float) : BOOL :=
  let threshold := GetMetricThreshold m in
  fge value (fmul threshold (critical_threshold (g_monitor_config g))).

Definition IsMetricWarning (g : globals) (m : monitor_metric_t)
    (value : float) : BOOL :=
  let threshold := GetMetricThreshold m in
  fge value (fmul threshold (warning_threshold (g_monitor_config g))).

(** [SendAlertNotification] and [uprintf] only print. *)
Definition CreateAlert (drive_path : option string) (m : monitor_metric_t)
    (current_value threshold_value : float) (message : option string)
    (is_critical : BOOL) (now : Z) (g : globals) : globals * BOOL :=
  match drive_path, message with
  | Some p, Some msg =>
      if negb (g_monitor_initialized g) then (g, false)
      else
        let c := g_monitor_context g in
        if ALERT_CAPACITY <=? alert_count c then (g, false)
        else
          let alert := mk_alert (strncpy (MAX_PATH - 1) p) m current_value
                                threshold_value (strncpy (256 - 1) msg) now
                                is_critical false in
          (with_context
             (set_alerts (<[Z.to_nat (alert_count c) := alert]> (alerts c))
                         (uint32_t_wrap (alert_count c + 1)) c) g, true)
  | _, _ => (g, false)
  end.

(** The branch the loop body of [CheckForAlerts] takes for one metric:
    [if (IsMetricCritical(..)) .. else if (IsMetricWarning(..)) ..]. *)
Inductive severity := SeverityNone | SeverityWarning | SeverityCritical.

Definition metric_severity (g : globals) (m : monitor_metric_t)
    (value : float) : severity :=
  if IsMetricCritical g m value then SeverityCritical
  else if IsMetricWarning g m value then SeverityWarning
  else SeverityNone.

(** One iteration of the loop of [CheckForAlerts]; [alert_time i] is the
    tick count read by the [CreateAlert] call for metric [i]. *)
Definition check_metric (alert_time : nat -> Z)
    (st : globals * drive_monitor_data_t) (i : nat)
    : globals * drive_monitor_data_t :=
  let '(g, data) := st in
  let m := metric_of_index i in
  let v := rd (current_metrics data) i in
  match metric_severity g m v with
  | SeverityCritical =>
      (fst (CreateAlert (Some (drive_path data)) m v (GetMetricThreshold m)
                        (Some "Critical threshold exceeded") true
                        (alert_time i) g),
       set_counters (last_update data)
                    (uint32_t_wrap (error_count data + 1))
                    (warning_count data) (data_points data) data)
  | SeverityWarning =>
      (fst (CreateAlert (Some (drive_path data)) m v (GetMetricThreshold m)
                        (Some "Warning threshold exceeded") false
                        (alert_time i) g),
       set_counters (last_update data) (error_count data)
                    (uint32_t_wrap (warning_count data + 1))
                    (data_points data) data)
  | SeverityNone => (g, data)
  end.

Definition CheckForAlerts (data : option drive_monitor_data_t)
    (alert_time : nat -> Z) (g : globals)
    : globals * option drive_monitor_data_t * BOOL :=
  match data with
  | None => (g, None, false)
  | Some d =>
      let '(g', d') :=
        fold_left (check_metric alert_time) (seq 0 METRIC_COUNT) (g, d) in
      (g', Some d', true)
  end.

(** One iteration of the update loop of [UpdateDriveMetrics]. *)
Definition update_metric (new_metrics : list float)
    (data : drive_monitor_data_t) (i : nat) : drive_monitor_data_t :=
  let v := rd new_metrics i in
  let cur := <[i := v]> (current_metrics data) in
  let avg :=
    <[i := ((rd (average_metrics data) i * inject_Z (data_points data) + v)
            / inject_Z (uint32_t_wrap (data_points data + 1)))%Q]>
      (average_metrics data) in
  let mx := if fgt v (rd (max_metrics data) i)
            then <[i := v]> (max_metrics data) else max_metrics data in
  let mn := if flt v (rd (min_metrics data) i)
            then <[i := v]> (min_metrics data) else min_metrics data in
  set_metrics cur avg mx mn data.

(** [new_metrics] is the local array after the collector calls: an enabled
    collector has written its entries, the entries of a disabled one hold
    whatever the stack held.  [data] points to a record that is not part
    of the alert log, so the alerts raised by [CheckForAlerts] do not
    alias it.  [LogMonitoringData] only appends to a file. *)
Definition UpdateDriveMetrics (drive_path : option string)
    (data : option drive_monitor_data_t) (new_metrics : list float)
    (now : Z) (alert_time : nat -> Z) (g : globals)
    : globals * option drive_monitor_data_t * BOOL :=
  match drive_path, data with
  | Some _, Some d =>
      let d1 := fold_left (update_metric new_metrics)
                          (seq 0 METRIC_COUNT) d in
      let d2 := set_counters now (error_count d1) (warning_count d1)
                             (uint32_t_wrap (data_points d1 + 1)) d1 in
      let '(g', d3, _) := CheckForAlerts (Some d2) alert_time g in
      (g', d3, true)
  | _, _ => (g, data, false)
  end.

(** One pass of the update loop of [MonitorThreadProc] over the registry:
    [samples i], [now i] and [alert_time i] are what the collectors and the
    clock deliver while drive [i] is visited. *)
Definition visit_drive (samples : nat -> list float) (now : nat -> Z)
    (alert_time : nat -> nat -> Z) (g : globals) (i : nat) : globals :=
  match drives (g_monitor_context g) !! i with
  | Some d =>
      if is_monitoring d then
        match UpdateDriveMetrics (Some (drive_path d)) (Some d) (samples i)
                                 (now i) (alert_time i) g with
        | (g', Some d', _) =>
            let c' := g_monitor_context g' in
            with_context (set_drives (<[i := d']> (drives c'))
                                     (drive_count c') c') g'
        | (g', None, _) => g'
        end
      else g
  | None => g
  end.

Definition MonitorThreadProc_pass (samples : nat -> list float)
    (now : nat -> Z) (alert_time : nat -> nat -> Z) (g : globals)
    : globals :=
  fold_left (visit_drive samples now alert_time)
            (seq 0 (Z.to_nat (drive_count (g_monitor_context g)))) g.

(** ** Runs of the engine *)

(** What the environment delivers to one call of [UpdateDriveMetrics]. *)
Record sample := mk_sample {
  new_metrics : list float;
  now : Z;
  alert_time : nat -> Z
}.

(** [UpdateDriveMetrics(data->drive_path, data)] as the monitoring thread
    calls it, on the engine state and the visited record. *)
Definition apply_update (st : globals * drive_monitor_data_t) (s : sample)
    : globals * drive_monitor_data_t :=
  let '(g, d) := st in
  match UpdateDriveMetrics (Some (drive_path d)) (Some d) (new_metrics s)
                           (now s) (alert_time s) g with
  | (g', Some d', _) => (g', d')
  | (g', None, _) => (g', d)
  end.

Definition run_updates (samples : list sample) (g : globals)
    (d : drive_monitor_data_t) : globals * drive_monitor_data_t :=
  fold_left apply_update samples (g, d).

(** The values metric [i] received over a run. *)
Definition column (i : nat) (samples : list sample) : list float :=
  map (fun s => rd (new_metrics s) i) samples.

(** The entry points of realtime_monitor.c that write the engine state,
    with the values the environment supplies to each. *)
Inductive call :=
  | Call_InitRealTimeMonitor (config : option monitor_config_t)
                             (now event : Z)
  | Call_CleanupRealTimeMonitor
  | Call_StartDriveMonitoring (drive_path : option string) (now thread : Z)
  | Call_StopDriveMonitoring (drive_path : option string)
  | Call_AcknowledgeAlert (alert_index : N)
  | Call_ClearAllAlerts
  | Call_CreateAlert (drive_path : option string) (m : monitor_metric_t)
                     (current_value threshold_value : float)
                     (message : option string) (is_critical : BOOL)
                     (now : Z)
  | Call_UpdateDriveMetrics (drive_path : option string)
                            (data : option drive_monitor_data_t)
                            (s : sample)
  | Thread_pass (samples : nat -> list float) (now : nat -> Z)
                (alert_time : nat -> nat -> Z).

(** The engine state after a call.  [Call_UpdateDriveMetrics] is a call on
    a record owned by the caller; the thread's own calls are in
    [Thread_pass], which runs only while the loop condition
    [g_monitor_context.is_monitoring] holds. *)
Definition run_call (c : call) (g : globals) : globals :=
  match c with
  | Call_InitRealTimeMonitor config now event =>
      fst (InitRealTimeMonitor config now event g)
  | Call_CleanupRealTimeMonitor => CleanupRealTimeMonitor g
  | Call_StartDriveMonitoring p now thread =>
      fst (StartDriveMonitoring p now thread g)
  | Call_StopDriveMonitoring p => fst (StopDriveMonitoring p g)
  | Call_AcknowledgeAlert i => fst (AcknowledgeAlert i g)
  | Call_ClearAllAlerts => fst (ClearAllAlerts g)
  | Call_CreateAlert p m v t msg crit now =>
      fst (CreateAlert p m v t msg crit now g)
  | Call_UpdateDriveMetrics p data s =>
      fst (fst (UpdateDriveMetrics p data (new_metrics s) (now s)
                                   (alert_time s) g))
  | Thread_pass samples now alert_time =>
      if ctx_is_monitoring (g_monitor_context g)
      then MonitorThreadProc_pass samples now alert_time g
      else g
  end.

Inductive reachable : globals -> Prop :=
  | reachable_initial : reachable initial_globals
  | reachable_call c g : reachable g -> reachable (run_call c g).

(** The state a list of calls leads to from the initial one. *)
Definition run_calls (cs : list call) : globals :=
  fold_left (fun g c => run_call c g) cs initial_globals.

(** ** Reference notions the properties are stated against *)

Definition Qsum (l : list Q) : Q := fold_right Qplus 0%Q l.

(** Arithmetic mean of a list of values. *)
Definition mean (l : list Q) : Q :=
  (Qsum l / inject_Z (Z.of_nat (length l)))%Q.

(** Largest and smallest of [v] and the values of [l]. *)
Definition list_max (v : Q) (l : list Q) : Q := fold_right Qmax v l.
Definition list_min (v : Q) (l : list Q) : Q := fold_right Qmin v l.

(** The device identifier is in the registry. *)
Definition in_registry (path : string) (g : globals) : Prop :=
  exists i d, (i < Z.to_nat (drive_count (g_monitor_context g)))%nat /\
              drives (g_monitor_context g) !! i = Some d /\
              drive_path d = path.

(** The registry as callers see it: the first [drive_count] slots. *)
Definition registry (g : globals) : list drive_monitor_data_t :=
  take (Z.to_nat (drive_count (g_monitor_context g)))
       (drives (g_monitor_context g)).

(** Shape of the engine state that every call keeps. *)
Record engine_inv (g : globals) : Prop := mk_engine_inv {
  inv_drives_length :
    length (drives (g_monitor_context g)) = Z.to_nat MONITOR_MAX_DRIVES;
  inv_alerts_length :
    length (alerts (g_monitor_context g)) = Z.to_nat ALERT_CAPACITY;
  inv_drive_count :
    0 <= drive_count (g_monitor_context g) <= MONITOR_MAX_DRIVES;
  inv_alert_count :
    0 <= alert_count (g_monitor_context g) <= ALERT_CAPACITY;
  inv_uninitialized :
    g_monitor_initialized g = false ->
    drive_count (g_monitor_context g) = 0 /\
    alert_count (g_monitor_context g) = 0
}.

(** [alerts_only g g']: [g'] differs from [g] in the alert log at most. *)
Definition alerts_only (g g' : globals) : Prop :=
  drives (g_monitor_context g') = drives (g_monitor_context g) /\
  drive_count (g_monitor_context g') = drive_count (g_monitor_context g) /\
  ctx_is_monitoring (g_monitor_context g')
    = ctx_is_monitoring (g_monitor_context g) /\
  g_monitor_config g' = g_monitor_config g /\
  g_monitor_initialized g' = g_monitor_initialized g.

(** ** One metric of one record *)

(** What one call of [UpdateDriveMetrics] does to the running mean, the
    maximum and the minimum of a metric that receives [v]; [count] is
    [data_points] before the call. *)
Definition mean_step (count : Z) (v avg : float) : float :=
  ((avg * inject_Z count + v) / inject_Z (uint32_t_wrap (count + 1)))%Q.

Definition max_step (v mx : float) : float := if fgt v mx then v else mx.

Definition min_step (v mn : float) : float := if flt v mn then v else mn.

(** [a[i] = f i a[i]] *)
Definition update_at (f : nat -> float -> float) (a : list float) (i : nat)
    : list float :=
  <[i := f i (rd a i)]> a.

(** ** Example runs *)

Definition drive_letter (k : nat) : string :=
  String (ascii_of_nat (65 + k)) ":".

(** The engine after initialisation with the default configuration. *)
Definition started_engine : list call :=
  [Call_InitRealTimeMonitor None 0 1].

(** Sixteen different drives are being monitored. *)
Definition full_registry_calls : list call :=
  started_engine ++
  map (fun k => Call_StartDriveMonitoring (Some (drive_letter k)) 0 2)
      (seq 0 16).

(** A pass of the thread in which every collector reports [v]. *)
Definition constant_pass (v : float) : call :=
  Thread_pass (fun _ => replicate METRIC_COUNT v) (fun _ => 0)
              (fun _ _ => 0).

(** One drive, sixteen passes with every metric far above its threshold:
    nine alerts a pass. *)
Definition full_log_calls : list call :=
  started_engine ++
  [Call_StartDriveMonitoring (Some "E:") 0 2] ++
  repeat (constant_pass 1000) 16.

(** A drive is started and then stopped. *)
Definition stopped_drive_calls : list call :=
  started_engine ++
  [Call_StartDriveMonitoring (Some "E:") 10 2;
   Call_StopDriveMonitoring (Some "E:")].

(** The default configuration with the critical multiplier lowered to
    0.5, below the warning multiplier 0.8. *)
Definition lowered_critical_config : monitor_config_t :=
  mk_config true true true true false false true true
            MONITOR_UPDATE_INTERVAL MONITOR_ALERT_THRESHOLD (5 # 10)%Q
            true false "rufus_monitor.log".

(** A drive is started and the thread makes one pass in which every
    collector reports [v]. *)
Definition one_pass_calls (v : float) : list call :=
  started_engine ++
  [Call_StartDriveMonitoring (Some "E:") 0 2; constant_pass v].

(** A single sample in which every collector reports [v]. *)
Definition constant_sample (v : float) : sample :=
  mk_sample (replicate METRIC_COUNT v) 0 (fun _ => 0).

(** Three samples in which every metric receives 40, 50 and 60. *)
Definition three_samples : list sample :=
  [constant_sample 40; constant_sample 50; constant_sample 60].

(** ** The simulated collectors *)

(** [rand k] is the value of the [k]-th call of [rand()] since some
    origin; a collector is given the number of calls made so far and
    returns what it writes and the number of calls made after it.  A
    collector returns FALSE ([None]) for a null path; its out-parameters
    are never null in [UpdateDriveMetrics].  [x % n] on [int] is [Z.rem]. *)
Definition CollectTemperatureMetric (drive_path : option string)
    (rand : nat -> Z) (k : nat) : option (float * nat) :=
  match drive_path with
  | None => None
  | Some _ => Some ((35 + inject_Z (Z.rem (rand k) 20))%Q, S k)
  end.

(** The read speed, then the write speed. *)
Definition CollectSpeedMetric (drive_path : option string)
    (rand : nat -> Z) (k : nat) : option (float * float * nat) :=
  match drive_path with
  | None => None
  | Some _ =>
      Some ((20 + inject_Z (Z.rem (rand k) 20))%Q,
            (15 + inject_Z (Z.rem (rand (S k)) 15))%Q, S (S k))
  end.

Definition CollectErrorRateMetric (drive_path : option string)
    (rand : nat -> Z) (k : nat) : option (float * nat) :=
  match drive_path with
  | None => None
  | Some _ => Some ((inject_Z (Z.rem (rand k) 100) / 1000)%Q, S k)
  end.

Definition CollectPowerConsumptionMetric (drive_path : option string)
    (rand : nat -> Z) (k : nat) : option (float * nat) :=
  match drive_path with
  | None => None
  | Some _ => Some ((2 + inject_Z (Z.rem (rand k) 20) / 10)%Q, S k)
  end.

Definition CollectVibrationMetric (drive_path : option string)
    (rand : nat -> Z) (k : nat) : option (float * nat) :=
  match drive_path with
  | None => None
  | Some _ => Some ((inject_Z (Z.rem (rand k) 50) / 10)%Q, S k)
  end.

Definition CollectEMMetric (drive_path : option string)
    (rand : nat -> Z) (k : nat) : option (float * nat) :=
  match drive_path with
  | None => None
  | Some _ => Some ((inject_Z (Z.rem (rand k) 100) / 100)%Q, S k)
  end.

Definition CollectCapacityUsageMetric (drive_path : option string)
    (rand : nat -> Z) (k : nat) : option (float * nat) :=
  match drive_path with
  | None => None
  | Some _ => Some (inject_Z (Z.rem (rand k) 100), S k)
  end.

Definition CollectSectorHealthMetric (drive_path : option string)
    (rand : nat -> Z) (k : nat) : option (float * nat) :=
  match drive_path with
  | None => None
  | Some _ => Some ((95 + inject_Z (Z.rem (rand k) 5))%Q, S k)
  end.

(** [if (enabled) Collect(drive_path, &new_metrics[i]);] for a collector
    with one out-parameter: the state is the local array and the number
    of [rand()] calls made. *)
Definition collect_one (enabled : BOOL)
    (collector : nat -> option (float * nat)) (i : nat)
    (st : list float * nat) : list float * nat :=
  if enabled then
    match collector (snd st) with
    | Some (v, k') => (<[i := v]> (fst st), k')
    | None => st
    end
  else st.

(** The same for [CollectSpeedMetric], which has two out-parameters. *)
Definition collect_speed (enabled : BOOL)
    (collector : nat -> option (float * float * nat)) (i_read i_write : nat)
    (st : list float * nat) : list float * nat :=
  if enabled then
    match collector (snd st) with
    | Some (r, w, k') => (<[i_write := w]> (<[i_read := r]> (fst st)), k')
    | None => st
    end
  else st.

(** The "Collect all metrics" part of [UpdateDriveMetrics]: [stack] is
    what the local array [new_metrics] holds on entry, the result is what
    it holds when the update loop starts. *)
Definition collect_new_metrics (cfg : monitor_config_t)
    (drive_path : string) (stack : list float) (rand : nat -> Z) (k : nat)
    : list float * nat :=
  let p := Some drive_path in
  let st := (stack, k) in
  let st := collect_one (enable_temperature_monitoring cfg)
              (CollectTemperatureMetric p rand)
              (metric_index MONITOR_METRIC_TEMPERATURE) st in
  let st := collect_speed (enable_speed_monitoring cfg)
              (CollectSpeedMetric p rand)
              (metric_index MONITOR_METRIC_READ_SPEED)
              (metric_index MONITOR_METRIC_WRITE_SPEED) st in
  let st := collect_one (enable_error_monitoring cfg)
              (CollectErrorRateMetric p rand)
              (metric_index MONITOR_METRIC_ERROR_RATE) st in
  let st := collect_one (enable_power_monitoring cfg)
              (CollectPowerConsumptionMetric p rand)
              (metric_index MONITOR_METRIC_POWER_CONSUMPTION) st in
  let st := collect_one (enable_vibration_monitoring cfg)
              (CollectVibrationMetric p rand)
              (metric_index MONITOR_METRIC_VIBRATION) st in
  let st := collect_one (enable_em_monitoring cfg)
              (CollectEMMetric p rand)
              (metric_index MONITOR_METRIC_ELECTROMAGNETIC) st in
  let st := collect_one (enable_capacity_monitoring cfg)
              (CollectCapacityUsageMetric p rand)
              (metric_index MONITOR_METRIC_CAPACITY_USAGE) st in
  let st := collect_one (enable_sector_monitoring cfg)
              (CollectSectorHealthMetric p rand)
              (metric_index MONITOR_METRIC_SECTOR_HEALTH) st in
  st.

(** [UpdateDriveMetrics(drive_path, data)] with its collection part: the
    sample is what the collectors leave in the local array. *)
Definition collected_sample (g : globals) (drive_path : string)
    (stack : list float) (rand : nat -> Z) (k : nat) (t : Z)
    (alert_time : nat -> Z) : sample :=
  mk_sample (fst (collect_new_metrics (g_monitor_config g) drive_path stack
                                      rand k)) t alert_time.

Definition severity_eqb (a b : severity) : bool :=
  match a, b with
  | SeverityNone, SeverityNone
  | SeverityWarning, SeverityWarning
  | SeverityCritical, SeverityCritical => true
  | _, _ => false
  end.

(** The number of metrics of a record at a given severity. *)
Definition count_severity (sev : severity) (g : globals)
    (d : drive_monitor_data_t) : Z :=
  Z.of_nat
    (length
       (List.filter
          (fun i => severity_eqb
                      (metric_severity g (metric_of_index i)
                                       (rd (current_metrics d) i)) sev)
          (seq 0 METRIC_COUNT))).

(** The record the thread leaves in slot [j] when it visits it. *)
Definition visited (g : globals) (samples : nat -> list float)
    (now : nat -> Z) (alert_time : nat -> nat -> Z) (j : nat)
    (d : drive_monitor_data_t) : drive_monitor_data_t :=
  if is_monitoring d
  then snd (apply_update (g, d)
              (mk_sample (samples j) (now j) (alert_time j)))
  else d.

(** Every stored identifier fits its buffer. *)
Definition paths_fit (g : globals) : Prop :=
  Forall (fun d => (String.length (drive_path d) <= MAX_PATH - 1)%nat)
         (drives (g_monitor_context g)).

(** An identifier of 300 characters. *)
Definition long_identifier : string :=
  String.concat "" (repeat "E:\dir"%string 50).

(** The configuration flag that guards the collector of a metric in
    [UpdateDriveMetrics]. *)
Definition metric_enabled (cfg : monitor_config_t) (m : monitor_metric_t)
    : BOOL :=
  match m with
  | MONITOR_METRIC_TEMPERATURE => enable_temperature_monitoring cfg
  | MONITOR_METRIC_READ_SPEED => enable_speed_monitoring cfg
  | MONITOR_METRIC_WRITE_SPEED => enable_speed_monitoring cfg
  | MONITOR_METRIC_ERROR_RATE => enable_error_monitoring cfg
  | MONITOR_METRIC_POWER_CONSUMPTION => enable_power_monitoring cfg
  | MONITOR_METRIC_VIBRATION => enable_vibration_monitoring cfg
  | MONITOR_METRIC_ELECTROMAGNETIC => enable_em_monitoring cfg
  | MONITOR_METRIC_CAPACITY_USAGE => enable_capacity_monitoring cfg
  | MONITOR_METRIC_SECTOR_HEALTH => enable_sector_monitoring cfg
  | MONITOR_METRIC_MAX => false
  end.

(** The interval the source comments give for a simulated metric, with
    the upper end the code can actually reach. *)
Definition simulated_range (m : monitor_metric_t) : Q * Q :=
  match m with
  | MONITOR_METRIC_TEMPERATURE => (35, 54)
  | MONITOR_METRIC_READ_SPEED => (20, 39)
  | MONITOR_METRIC_WRITE_SPEED => (15, 29)
  | MONITOR_METRIC_ERROR_RATE => (0, 99 # 1000)
  | MONITOR_METRIC_POWER_CONSUMPTION => (2, 39 # 10)
  | MONITOR_METRIC_VIBRATION => (0, 49 # 10)
  | MONITOR_METRIC_ELECTROMAGNETIC => (0, 99 # 100)
  | MONITOR_METRIC_CAPACITY_USAGE => (0, 99)
  | MONITOR_METRIC_SECTOR_HEALTH => (95, 99)
  | MONITOR_METRIC_MAX => (0, 0)
  end%Q.

(** A stack on which every entry of the local array holds [v], and a
    [rand()] that always returns [r]. *)
Definition constant_stack (v : float) : list float :=
  replicate METRIC_COUNT v.
Definition constant_rand (r : Z) : nat -> Z := fun _ => r.

(** The first update of a new record of the default engine, the local
    array holding 777 everywhere on entry and [rand()] returning 7. *)
Definition first_collected_update : globals * drive_monitor_data_t :=
  let g := run_calls started_engine in
  let d := new_drive_data "E:" 0 in
  apply_update (g, d)
    (collected_sample g (drive_path d) (constant_stack 777)
                      (constant_rand 7) 0 5 (fun _ => 0)).

End Monitor.

Module Predictor.

(** ** usb_health_predictor.h *)

Definition HEALTH_DATA_POINTS_MAX : Z := 1000.
Definition HEALTH_CRITICAL_THRESHOLD : float := (8 # 10)%Q.
Definition HEALTH_WARNING_THRESHOLD : float := (6 # 10)%Q.

Inductive health_algorithm_t :=
  | HEALTH_ALGO_NEURAL_NETWORK
  | HEALTH_ALGO_RANDOM_FOREST
  | HEALTH_ALGO_SVM
  | HEALTH_ALGO_BAYESIAN
  | HEALTH_ALGO_MAX.

Record usb_health_metrics_t := mk_metrics {
  total_writes : Z;
  total_reads : Z;
  error_count : Z;
  retry_count : Z;
  bad_sectors : Z;
  write_speed_avg : float;
  read_speed_avg : float;
  temperature_avg : float;
  power_cycles : Z;
  hours_used : Z;
  timestamp : Z
}.

Record usb_health_prediction_t := mk_prediction {
  failure_probability : float;
  days_remaining : Z;
  algorithm_used : health_algorithm_t;
  recommendation : string;
  is_critical : BOOL;
  is_warning : BOOL
}.

Record usb_health_context_t := mk_health_context {
  metrics : list usb_health_metrics_t;
  metrics_count : Z;
  drive_serial : Z;
  drive_model : string;
  drive_manufacturer : string;
  first_seen : Z;
  last_updated : Z
}.

Record neural_network_t := mk_network {
  weights : list (list float);
  biases : list float;
  layers : Z;
  neurons_per_layer : list Z
}.

Definition zero_health_metrics : usb_health_metrics_t :=
  mk_metrics 0 0 0 0 0 0%Q 0%Q 0%Q 0 0 0.

(** ** usb_health_predictor.c *)

Definition CalculateHealthScore (metrics : option usb_health_metrics_t)
    : float :=
  match metrics with
  | None => 0%Q
  | Some m =>
      let score := 1%Q in
      let score :=
        if 0 <? total_writes m then
          let error_ratio :=
            (inject_Z (error_count m) / inject_Z (total_writes m))%Q in
          (score - error_ratio * (3 # 10))%Q
        else score in
      let score :=
        if 0 <? total_writes m then
          let retry_ratio :=
            (inject_Z (retry_count m) / inject_Z (total_writes m))%Q in
          (score - retry_ratio * (2 # 10))%Q
        else score in
      let score :=
        if 0 <? bad_sectors m then (score - (4 # 10))%Q else score in
      let score :=
        if fgt (write_speed_avg m) 0 && fgt (read_speed_avg m) 0 then
          let speed_ratio :=
            ((write_speed_avg m + read_speed_avg m) / (2 * 20))%Q in
          if flt speed_ratio (5 # 10) then (score - (2 # 10))%Q else score
        else score in
      let score :=
        if 10000 <? hours_used m then (score - (1 # 10))%Q else score in
      let score := if flt score 0 then 0%Q else score in
      let score := if fgt score 1 then 1%Q else score in
      score
  end.

Definition EstimateDaysRemaining (metrics : option usb_health_metrics_t)
    : Z :=
  let health_score := CalculateHealthScore metrics in
  let base_days := 365 in
  if fgt health_score (8 # 10) then base_days * 2
  else if fgt health_score (6 # 10) then base_days
  else if fgt health_score (4 # 10) then base_days / 2
  else if fgt health_score (2 # 10) then base_days / 4
  else 30.

Section WithEnvironment.

(** The parts of the environment the predictor reads: [expf] of the C
    library; the global [app_data_dir] and the bounded [static_sprintf] of
    rufus.h ([static_sprintf size text] is what a buffer of [size] bytes
    holds after formatting [text]); and the file system, as the outcome of
    [fopen(name, "rb")] followed by [fread] of one context ([None] when
    either fails). *)
Variable expf : float -> float.
Variable app_data_dir : string.
Variable static_sprintf : nat -> string -> string.
Variable read_context : string -> option usb_health_context_t.

(** [1.0f / (1.0f + expf(-x))] *)
Definition sigmoid (x : float) : float := (1 / (1 + expf (- x)))%Q.

(** [nn->weights[j][i]] *)
Definition weight (nn : neural_network_t) (j i : nat) : float :=
  rd (default [] (weights nn !! j)) i.

Definition PredictWithNeuralNetwork (nn : option neural_network_t)
    (metrics : option usb_health_metrics_t) : float :=
  match nn, metrics with
  | Some nn, Some m =>
      let inputs :=
        [ inject_Z (error_count m) / 1000;
          inject_Z (retry_count m) / 1000;
          inject_Z (bad_sectors m) / 100;
          write_speed_avg m / 100;
          read_speed_avg m / 100;
          inject_Z (power_cycles m) / 1000;
          inject_Z (hours_used m) / 10000;
          temperature_avg m / 100 ]%Q in
      let hidden :=
        map (fun i =>
               sigmoid
                 (fold_left (fun h j => (h + rd inputs j * weight nn j i)%Q)
                            (seq 0 8) (rd (biases nn) i)))
            (seq 0 16) in
      let output :=
        fold_left (fun o i => (o + rd hidden i * weight nn i 16)%Q)
                  (seq 0 16) (rd (biases nn) 16) in
      sigmoid output
  | _, _ => 0%Q
  end.

(** The file name [LoadUSBHealthData] formats: ["%s\\rufus_health_%c.dat"]
    with [app_data_dir] and [drive_path[0]]; for an empty path the
    character is the terminator, which ends the text. *)
Definition health_data_file (drive_path : string) : string :=
  static_sprintf MAX_PATH
    match drive_path with
    | EmptyString => app_data_dir ++ "\rufus_health_"
    | String c _ => app_data_dir ++ "\rufus_health_" ++ String c ".dat"
    end.

(** The context read into [*context]; [None] when the call returns
    FALSE. *)
Definition LoadUSBHealthData (drive_path : option string)
    : option usb_health_context_t :=
  match drive_path with
  | None => None
  | Some p => read_context (health_data_file p)
  end.

Definition no_data_prediction (text : string) : usb_health_prediction_t :=
  mk_prediction (1 # 10) 365 HEALTH_ALGO_NEURAL_NETWORK text false false.

(** [g_health_network] is the file-scope network; [prediction] is the
    content of the out-parameter before the call ([None] for a null
    pointer), the result its content after the call and the returned
    BOOL.  [context.metrics[metrics_count - 1]] past the end of the array
    reads as a zero sample. *)
Definition PredictUSBHealth (g_health_network : neural_network_t)
    (drive_path : option string)
    (prediction : option usb_health_prediction_t)
    : option usb_health_prediction_t * BOOL :=
  match drive_path, prediction with
  | Some p, Some _ =>
      match LoadUSBHealthData drive_path with
      | None =>
          (Some (no_data_prediction
             "No historical data available. Drive appears healthy."), true)
      | Some context =>
          if metrics_count context =? 0 then
            (Some (no_data_prediction
               "No metrics available. Drive appears healthy."), true)
          else
            let recent_metrics :=
              default zero_health_metrics
                (metrics context !! Z.to_nat (metrics_count context - 1)) in
            let probability :=
              PredictWithNeuralNetwork (Some g_health_network)
                                       (Some recent_metrics) in
            let days := EstimateDaysRemaining (Some recent_metrics) in
            let critical := fge probability HEALTH_CRITICAL_THRESHOLD in
            let warning := fge probability HEALTH_WARNING_THRESHOLD in
            let text :=
              if critical then
                "CRITICAL: Drive failure imminent! Backup data immediately and replace drive."
              else if warning then
                "WARNING: Drive showing signs of failure. Consider backing up data soon."
              else if fgt probability (3 # 10) then
                "Drive is aging but still functional. Monitor for further degradation."
              else "Drive is healthy and operating normally." in
            (Some (mk_prediction probability days
                                 HEALTH_ALGO_NEURAL_NETWORK text critical
                                 warning), true)
      end
  | _, _ => (prediction, false)
  end.

End WithEnvironment.

(** ** The health files *)

(** The state of the file system the predictor can observe: for a file
    name, what [fopen(name, "rb")] followed by [fread] of one context
    yields ([None] when either fails). *)
Definition file_system := string -> option usb_health_context_t.

Definition write_file (name : string) (content : option usb_health_context_t)
    (fs : file_system) : file_system :=
  fun n => if String.eqb n name then content else fs n.

Definition with_timestamp (t : Z) (m : usb_health_metrics_t)
    : usb_health_metrics_t :=
  mk_metrics (total_writes m) (total_reads m) (error_count m) (retry_count m)
             (bad_sectors m) (write_speed_avg m) (read_speed_avg m)
             (temperature_avg m) (power_cycles m) (hours_used m) t.

Definition with_metrics (ms : list usb_health_metrics_t) (count : Z)
    (c : usb_health_context_t) : usb_health_context_t :=
  mk_health_context ms count (drive_serial c) (drive_model c)
                    (drive_manufacturer c) (first_seen c) (last_updated c).

Definition with_last_updated (t : Z) (c : usb_health_context_t)
    : usb_health_context_t :=
  mk_health_context (metrics c) (metrics_count c) (drive_serial c)
                    (drive_model c) (drive_manufacturer c) (first_seen c) t.

(** The context [RecordUSBHealthMetrics] starts from when there is no
    file: all zero but for the two names and [first_seen]. *)
Definition new_context (now : Z) : usb_health_context_t :=
  mk_health_context
    (replicate (Z.to_nat HEALTH_DATA_POINTS_MAX) zero_health_metrics) 0 0
    (strncpy (64 - 1) "Unknown") (strncpy (32 - 1) "Unknown") now 0.

(** [memmove(a, a + 1, (HEALTH_DATA_POINTS_MAX - 1) * sizeof *a)]: the
    last entry stays where it is. *)
Definition shift_metrics (ms : list usb_health_metrics_t)
    : list usb_health_metrics_t :=
  let n := Z.to_nat (HEALTH_DATA_POINTS_MAX - 1) in
  take n (drop 1 ms) ++ drop n ms.

(** The all-zero [g_health_network] of the file scope, as it is before
    [InitUSBHealthPredictor] and after [CleanupUSBHealthPredictor]. *)
Definition zero_network : neural_network_t :=
  mk_network (replicate 64 (replicate 64 0%Q)) (replicate 64 0%Q) 0
             (replicate 8 0).

(** The part of [RecordUSBHealthMetrics] between loading and saving:
    [loaded] is the outcome of [LoadUSBHealthData] and [clock k] the value
    of the [k]-th call of [GetTickCount64()] made by the function. *)
Definition add_metrics (loaded : option usb_health_context_t)
    (m : usb_health_metrics_t) (clock : nat -> Z) : usb_health_context_t :=
  let '(context, k) :=
    match loaded with
    | Some c => (c, 0%nat)
    | None => (new_context (clock 0%nat), 1%nat)
    end in
  let stamped := with_timestamp (clock k) m in
  let context :=
    if metrics_count context <? HEALTH_DATA_POINTS_MAX then
      with_metrics
        (<[Z.to_nat (metrics_count context) := stamped]> (metrics context))
        (uint32_t_wrap (metrics_count context + 1)) context
    else
      with_metrics
        (<[Z.to_nat (HEALTH_DATA_POINTS_MAX - 1) := stamped]>
           (shift_metrics (metrics context)))
        (metrics_count context) context in
  with_last_updated (clock (S k)) context.

Section WithFileSystem.

Variable expf : float -> float.
Variable app_data_dir : string.
Variable static_sprintf : nat -> string -> string.

(** [open_ok] tells whether [fopen(name, "wb")] succeeds, which empties
    the file, and [write_ok] whether [fwrite] then writes the context; a
    file that holds less than one context cannot be loaded. *)
Definition SaveUSBHealthData (drive_path : option string)
    (context : option usb_health_context_t) (open_ok write_ok : bool)
    (fs : file_system) : file_system * BOOL :=
  match drive_path, context with
  | Some p, Some c =>
      let data_file := health_data_file app_data_dir static_sprintf p in
      if open_ok then
        if write_ok then (write_file data_file (Some c) fs, true)
        else (write_file data_file None fs, false)
      else (fs, false)
  | _, _ => (fs, false)
  end.

(** [clock k] is the value of the [k]-th call of [GetTickCount64()] made
    by the function. *)
Definition RecordUSBHealthMetrics (drive_path : option string)
    (metrics : option usb_health_metrics_t) (clock : nat -> Z)
    (open_ok write_ok : bool) (fs : file_system) : file_system * BOOL :=
  match drive_path, metrics with
  | Some p, Some m =>
      let loaded :=
        LoadUSBHealthData app_data_dir static_sprintf fs drive_path in
      SaveUSBHealthData drive_path (Some (add_metrics loaded m clock))
                        open_ok write_ok fs
  | _, _ => (fs, false)
  end.



End WithFileSystem.

(** A sample of a drive in good shape and one of a drive with a bad
    sector, an environment in which [expf] is constantly 1, an empty file
    system and a zeroed prediction. *)
Definition good_sample : usb_health_metrics_t :=
  mk_metrics 1000 1000 0 0 0 30%Q 30%Q 40%Q 10 100 0.
Definition bad_sector_sample : usb_health_metrics_t :=
  mk_metrics 1000 1000 0 0 1 30%Q 30%Q 40%Q 10 100 0.
Definition unit_expf : float -> float := fun _ => 1%Q.
Definition plain_sprintf : nat -> string -> string := fun n s => strncpy (n - 1) s.
Definition no_files : file_system := fun _ => None.
Definition zero_prediction : usb_health_prediction_t :=
  mk_prediction 0%Q 0 HEALTH_ALGO_NEURAL_NETWORK "" false false.

(** A history that is full: a thousand samples, the [i]-th with [i]
    power cycles, stored for "E:". *)
Definition full_context : usb_health_context_t :=
  with_metrics
    (map (fun i => mk_metrics 1000 1000 0 0 0 30%Q 30%Q 40%Q (Z.of_nat i) 100 0)
         (seq 0 (Z.to_nat HEALTH_DATA_POINTS_MAX)))
    HEALTH_DATA_POINTS_MAX (new_context 0).
Definition full_files : file_system :=
  fst (SaveUSBHealthData "C:\data" plain_sprintf (Some "E:")
         (Some full_context) true true no_files).

(** A clock that reads 5000 at the first call and ticks once per call. *)
Definition late_clock (k : nat) : Z := 5000 + Z.of_nat k.

(** The files after one sample was recorded for "E:", the clock ticking
    once per call. *)
Definition recorded_files : file_system :=
  fst (RecordUSBHealthMetrics "C:\data" plain_sprintf (Some "E:")
         (Some good_sample) Z.of_nat true true no_files).

End Predictor.

Module DNA.

(** ** usb_dna_fingerprint.h *)

Definition USB_DNA_FINGERPRINT_SIZE : nat := 64.
Definition USB_DNA_SIGNATURE_SIZE : nat := 32.

(** The two byte arrays of [usb_dna_fingerprint_t] and its other fields;
    a byte is a [Z] in 0..255. *)
Record usb_dna_fingerprint_t := mk_fingerprint {
  fingerprint : list Z;
  signature : list Z;
  metadata : string;
  timestamp : Z;
  version : Z;
  confidence_level : Z;
  is_unique : BOOL;
  is_verified : BOOL
}.

(** [a[i]] on a byte array. *)
Definition byte_at (a : list Z) (i : nat) : Z := default 0 (a !! i).

Definition uint8_t_wrap (z : Z) : Z := z mod 2 ^ 8.

Definition set_fingerprint (bytes : list Z) (f : usb_dna_fingerprint_t)
    : usb_dna_fingerprint_t :=
  mk_fingerprint bytes (signature f) (metadata f) (timestamp f) (version f)
                 (confidence_level f) (is_unique f) (is_verified f).

Definition set_signature (bytes : list Z) (f : usb_dna_fingerprint_t)
    : usb_dna_fingerprint_t :=
  mk_fingerprint (fingerprint f) bytes (metadata f) (timestamp f) (version f)
                 (confidence_level f) (is_unique f) (is_verified f).

(** ** usb_dna_fingerprint.c *)

(** The bytes written to [signature]; [None] when the call returns FALSE.
    The out-parameter is never null where the function is called. *)
Definition GenerateDNASignature (f : option usb_dna_fingerprint_t)
    : option (list Z) :=
  match f with
  | None => None
  | Some f =>
      Some (map (fun i =>
                   uint8_t_wrap
                     (Z.lxor (byte_at (fingerprint f)
                                      (i mod USB_DNA_FINGERPRINT_SIZE)
                              + Z.of_nat i) 170))
                (seq 0 USB_DNA_SIGNATURE_SIZE))
  end.

(** [memcmp(a, b, n) == 0] *)
Definition memcmp_eq (a b : list Z) (n : nat) : bool :=
  forallb (fun i => byte_at a i =? byte_at b i) (seq 0 n).

Definition VerifyUSBDNAFingerprint (f : option usb_dna_fingerprint_t)
    : BOOL :=
  match f with
  | None => false
  | Some fp =>
      match GenerateDNASignature f with
      | None => false
      | Some calculated_signature =>
          memcmp_eq (signature fp) calculated_signature
                    USB_DNA_SIGNATURE_SIZE
      end
  end.

(** A fingerprint whose bytes are 0, 1, ..., 63, not signed yet. *)
Definition counting_fingerprint : usb_dna_fingerprint_t :=
  mk_fingerprint (map Z.of_nat (seq 0 USB_DNA_FINGERPRINT_SIZE))
                 (replicate USB_DNA_SIGNATURE_SIZE 0) "" 0 1 0 true false.

End DNA.

(** * Properties of the single-precision product *)

Module FloatProofs.

Lemma two_pow_pos e : (0 < 2 ^ e)%Q.
Proof. apply Qpower_0_lt. reflexivity. Qed.

Lemma two_pow_le a b : a <= b -> (2 ^ a <= 2 ^ b)%Q.
Proof. intros H. apply Qpower_le_compat_l; [exact H | discriminate]. Qed.

Lemma two_pow_Z n : 0 <= n -> (2 ^ n == inject_Z (2 ^ n))%Q.
Proof. intros H. rewrite (Zpower_Qpower 2 n H). reflexivity. Qed.

Lemma two_pow_split a b : (2 ^ a == 2 ^ (a - b) * 2 ^ b)%Q.
Proof.
  rewrite <- Qpower_plus by discriminate.
  replace (a - b + b) with a by lia. reflexivity.
Qed.

Lemma Qpositive_num x : (0 < x)%Q <-> 0 < Qnum x.
Proof. unfold Qlt. cbn. lia. Qed.

Lemma magnitude_spec a :
  (0 < a)%Q -> (2 ^ (magnitude a - 1) <= a < 2 ^ magnitude a)%Q.
Proof.
  intros Ha. destruct a as [n d]. apply Qpositive_num in Ha. cbn in Ha.
  unfold magnitude. cbn [Qnum Qden].
  set (ln := Z.log2 n). set (ld := Z.log2 (Z.pos d)).
  destruct (Z.log2_spec n Ha) as [Hn1 Hn2]. fold ln in Hn1, Hn2.
  destruct (Z.log2_spec (Z.pos d) ltac:(lia)) as [Hd1 Hd2].
  fold ld in Hd1, Hd2. unfold Z.succ in Hn2, Hd2.
  assert (Hln : 0 <= ln) by apply Z.log2_nonneg.
  assert (Hld : 0 <= ld) by apply Z.log2_nonneg.
  assert (Hlow : (2 ^ (ln - ld - 1) < n # d)%Q).
  { replace (ln - ld - 1) with (ln - (ld + 1)) by lia.
    rewrite Qpower_minus by discriminate.
    rewrite (two_pow_Z ln), (two_pow_Z (ld + 1)) by lia.
    apply Qlt_shift_div_r.
    - change 0%Q with (inject_Z 0). rewrite <- Zlt_Qlt. lia.
    - unfold Qlt. cbn [Qnum Qden inject_Z Qmult].
      rewrite Pos.mul_1_r, !Z.mul_1_r.
      assert (0 < 2 ^ ln) by (apply Z.pow_pos_nonneg; lia).
      assert (0 < 2 ^ (ld + 1)) by (apply Z.pow_pos_nonneg; lia).
      generalize dependent (2 ^ ln). generalize dependent (2 ^ (ld + 1)).
      intros; nia. }
  assert (Hhigh : (n # d < 2 ^ (ln - ld + 1))%Q).
  { replace (ln - ld + 1) with (ln + 1 - ld) by lia.
    rewrite Qpower_minus by discriminate.
    rewrite (two_pow_Z (ln + 1)), (two_pow_Z ld) by lia.
    apply Qlt_shift_div_l.
    - change 0%Q with (inject_Z 0). rewrite <- Zlt_Qlt. lia.
    - unfold Qlt. cbn [Qnum Qden inject_Z Qmult].
      rewrite !Z.mul_1_r.
      assert (0 < 2 ^ ld) by (apply Z.pow_pos_nonneg; lia).
      assert (0 < 2 ^ (ln + 1)) by (apply Z.pow_pos_nonneg; lia).
      generalize dependent (2 ^ ld). generalize dependent (2 ^ (ln + 1)).
      intros; nia. }
  destruct (Qle_bool (2 ^ (ln - ld)) (n # d)) eqn:E.
  - apply Qle_bool_iff in E.
    replace (ln - ld + 1 - 1) with (ln - ld) by lia. split; assumption.
  - assert (E' : (n # d < 2 ^ (ln - ld))%Q).
    { apply Qnot_le_lt. intros H. apply Qle_bool_iff in H. congruence. }
    split; [apply Qlt_le_weak; exact Hlow | exact E'].
Qed.

Lemma round_half_even_range m :
  Qfloor m <= round_half_even m <= Qfloor m + 1.
Proof.
  unfold round_half_even.
  destruct (m - inject_Z (Qfloor m) ?= 1 # 2)%Q; [|lia|lia].
  destruct (Z.even (Qfloor m)); lia.
Qed.

Lemma round_half_even_le m m' :
  (m <= m')%Q -> round_half_even m <= round_half_even m'.
Proof.
  intros H. pose proof (Qfloor_resp_le _ _ H) as Hf.
  destruct (Z.eq_dec (Qfloor m) (Qfloor m')) as [E|E].
  - unfold round_half_even. rewrite <- E.
    destruct (m - inject_Z (Qfloor m) ?= 1 # 2)%Q eqn:C;
      destruct (m' - inject_Z (Qfloor m) ?= 1 # 2)%Q eqn:C';
      try (destruct (Z.even (Qfloor m)); lia); try lia.
    + apply Qeq_alt in C. apply Qlt_alt in C'. lra.
    + apply Qgt_alt in C. apply Qeq_alt in C'. lra.
    + apply Qgt_alt in C. apply Qlt_alt in C'. lra.
  - pose proof (round_half_even_range m). pose proof (round_half_even_range m').
    lia.
Qed.

Lemma round_half_even_Z m k :
  (m == inject_Z k)%Q -> round_half_even m = k.
Proof.
  intros H.
  assert (Hk : round_half_even (inject_Z k) = k).
  { unfold round_half_even. rewrite Qfloor_Z.
    replace (inject_Z k - inject_Z k ?= 1 # 2)%Q with Lt; [reflexivity|].
    symmetry. apply Qlt_alt.
    assert (E : (inject_Z k - inject_Z k == 0)%Q) by ring.
    rewrite E. reflexivity. }
  apply Z.le_antisymm; rewrite <- Hk at 2 || rewrite <- Hk at 1;
    apply round_half_even_le; rewrite H; apply Qle_refl.
Qed.

Lemma round_on_grid_le u a b :
  (a <= b)%Q -> (round_on_grid u a <= round_on_grid u b)%Q.
Proof.
  intros H. unfold round_on_grid. pose proof (two_pow_pos u) as Hu.
  apply Qmult_le_compat_r; [|apply Qlt_le_weak; exact Hu].
  rewrite <- Zle_Qle. apply round_half_even_le.
  apply Qmult_le_compat_r; [exact H|].
  apply Qlt_le_weak, Qinv_lt_0_compat, Hu.
Qed.

Lemma round_on_grid_fix u e :
  u <= e -> (round_on_grid u (2 ^ e) == 2 ^ e)%Q.
Proof.
  intros H. unfold round_on_grid. pose proof (two_pow_pos u) as Hu.
  rewrite (round_half_even_Z _ (2 ^ (e - u))).
  - rewrite <- two_pow_Z by lia. symmetry. apply two_pow_split.
  - rewrite <- two_pow_Z by lia. rewrite (two_pow_split e u) at 1.
    field. intros E. rewrite E in Hu. discriminate.
Qed.

Lemma round_on_grid_nonneg u a : (0 <= a)%Q -> (0 <= round_on_grid u a)%Q.
Proof.
  intros H. unfold round_on_grid. pose proof (two_pow_pos u) as Hu.
  apply Qmult_le_0_compat; [|apply Qlt_le_weak; exact Hu].
  change 0%Q with (inject_Z 0). rewrite <- Zle_Qle.
  replace 0 with (round_half_even 0) by reflexivity.
  apply round_half_even_le.
  apply Qmult_le_0_compat; [exact H|].
  apply Qlt_le_weak, Qinv_lt_0_compat, Hu.
Qed.

Lemma round_positive_le a b :
  (0 < a)%Q -> (a <= b)%Q ->
  (round_on_grid (ulp_exponent a) a <= round_on_grid (ulp_exponent b) b)%Q.
Proof.
  intros Ha Hab. assert (Hb : (0 < b)%Q) by lra.
  destruct (magnitude_spec a Ha) as [Ha1 Ha2].
  destruct (magnitude_spec b Hb) as [Hb1 Hb2].
  unfold ulp_exponent, FLT_MANT_DIG, FLT_MIN_EXP in *.
  destruct (Z.lt_trichotomy (magnitude a) (magnitude b)) as [Hlt|[Heq|Hgt]].
  - set (ua := Z.max (magnitude a - 24) (-125 - 24)).
    set (ub := Z.max (magnitude b - 24) (-125 - 24)).
    destruct (Z.eq_dec ua ub) as [E|E].
    + rewrite E. apply round_on_grid_le, Hab.
    + assert (Hub : ub = magnitude b - 24) by lia.
      assert (Hmid : (2 ^ magnitude a <= 2 ^ (magnitude b - 1))%Q)
        by (apply two_pow_le; lia).
      apply Qle_trans with (2 ^ (magnitude b - 1))%Q.
      * rewrite <- (round_on_grid_fix ua (magnitude b - 1)) by lia.
        apply round_on_grid_le. lra.
      * rewrite <- (round_on_grid_fix ub (magnitude b - 1)) at 1 by lia.
        apply round_on_grid_le. exact Hb1.
  - rewrite Heq. apply round_on_grid_le, Hab.
  - assert (Hmid : (2 ^ magnitude b <= 2 ^ (magnitude a - 1))%Q)
      by (apply two_pow_le; lia).
    lra.
Qed.

Lemma float_round_le x y :
  (x <= y)%Q -> (float_round x <= float_round y)%Q.
Proof.
  intros H. unfold float_round.
  destruct (Qnum x) as [|p|p] eqn:Ex; destruct (Qnum y) as [|q|q] eqn:Ey.
  - apply Qle_refl.
  - apply round_on_grid_nonneg. unfold Qle. cbn. lia.
  - exfalso. unfold Qle in H. rewrite Ex, Ey in H. lia.
  - exfalso. unfold Qle in H. rewrite Ex, Ey in H. lia.
  - apply round_positive_le; [|exact H]. apply Qpositive_num. lia.
  - exfalso. unfold Qle in H. rewrite Ex, Ey in H. lia.
  - assert (0 <= round_on_grid (ulp_exponent (- x)) (- x))%Q.
    { apply round_on_grid_nonneg. unfold Qle. cbn. lia. }
    lra.
  - assert (0 <= round_on_grid (ulp_exponent (- x)) (- x))%Q.
    { apply round_on_grid_nonneg. unfold Qle. cbn. lia. }
    assert (0 <= round_on_grid (ulp_exponent y) y)%Q.
    { apply round_on_grid_nonneg. unfold Qle. cbn. lia. }
    lra.
  - assert (round_on_grid (ulp_exponent (- y)) (- y)
            <= round_on_grid (ulp_exponent (- x)) (- x))%Q.
    { apply round_positive_le; [|lra]. apply Qpositive_num. cbn. lia. }
    lra.
Qed.

Lemma float_round_comp x y :
  (x == y)%Q -> (float_round x == float_round y)%Q.
Proof.
  intros H. apply Qle_antisym; apply float_round_le; rewrite H; apply Qle_refl.
Qed.

Lemma fmul_le_r a b c :
  (0 <= a)%Q -> (b <= c)%Q -> (fmul a b <= fmul a c)%Q.
Proof.
  intros Ha Hbc. apply float_round_le.
  rewrite !(Qmult_comm a). apply Qmult_le_compat_r; assumption.
Qed.

End FloatProofs.

(** * Properties of the monitoring engine *)

Module MonitorProofs.
Import Monitor FloatProofs.

#[local] Arguments CreateAlert : simpl never.
#[local] Arguments check_metric : simpl never.
#[local] Arguments update_metric : simpl never.
#[local] Arguments UpdateDriveMetrics : simpl never.
#[local] Arguments visit_drive : simpl never.
#[local] Arguments new_drive_data : simpl never.
#[local] Arguments apply_update : simpl never.
#[local] Arguments run_updates : simpl never.

(** ** The registry search *)

Lemma find_drive_from_Some ds path i n j d :
  find_drive_from ds path i n = Some (j, d) ->
  (i <= j < i + n)%nat /\ ds !! j = Some d /\ drive_path d = path.
Proof.
  revert i. induction n as [|n IH]; intros i H; simpl in H; [discriminate|].
  destruct (ds !! i) as [di|] eqn:Hi; [|discriminate].
  destruct (strcmp_eq (drive_path di) path) eqn:Hc.
  - inversion H; subst. apply String.eqb_eq in Hc. repeat split; auto; lia.
  - apply IH in H as (? & ? & ?). repeat split; auto; lia.
Qed.

Lemma find_drive_from_None ds path i n :
  (forall j d, (i <= j < i + n)%nat -> ds !! j = Some d ->
               drive_path d <> path) ->
  find_drive_from ds path i n = None.
Proof.
  revert i. induction n as [|n IH]; intros i H; simpl; [reflexivity|].
  destruct (ds !! i) as [di|] eqn:Hi; [|reflexivity].
  destruct (strcmp_eq (drive_path di) path) eqn:Hc.
  - apply String.eqb_eq in Hc. exfalso. apply (H i di); auto; lia.
  - apply IH. intros j d Hj. apply H. lia.
Qed.

Lemma find_drive_not_in_registry g path :
  ~ in_registry path g -> find_drive (g_monitor_context g) path = None.
Proof.
  intros Hn. apply find_drive_from_None. intros j d Hj Hd Hp.
  apply Hn. exists j, d. repeat split; auto; lia.
Qed.

Lemma find_drive_in_registry g path j d :
  find_drive (g_monitor_context g) path = Some (j, d) -> in_registry path g.
Proof.
  intros H. apply find_drive_from_Some in H as (? & ? & ?).
  exists j, d. repeat split; auto; lia.
Qed.

Lemma IsDriveBeingMonitored_not_in_registry g path :
  ~ in_registry path g -> IsDriveBeingMonitored (Some path) g = false.
Proof.
  intros Hn. unfold IsDriveBeingMonitored.
  rewrite (find_drive_not_in_registry _ _ Hn).
  destruct (negb (g_monitor_initialized g)); reflexivity.
Qed.

(** ** Shape of the state *)

Lemma uint32_t_wrap_small z : 0 <= z < 2 ^ 32 -> uint32_t_wrap z = z.
Proof. intros H. unfold uint32_t_wrap. apply Z.mod_small. exact H. Qed.

Lemma set_all_monitoring_length b c :
  length (set_all_monitoring b c) = length (drives c).
Proof.
  unfold set_all_monitoring.
  generalize (seq 0 (Z.to_nat (drive_count c))) as l.
  generalize (drives c) as ds.
  intros ds l. revert ds.
  induction l as [|i l IH]; intros ds; simpl; [reflexivity|].
  rewrite IH. apply length_alter.
Qed.

Lemma capacity_values :
  MONITOR_MAX_DRIVES = 16 /\ Z.of_nat METRIC_COUNT = 9 /\
  ALERT_CAPACITY = 144.
Proof. repeat split. Qed.

Lemma zero_context_lengths :
  length (drives zero_context) = Z.to_nat MONITOR_MAX_DRIVES /\
  length (alerts zero_context) = Z.to_nat ALERT_CAPACITY.
Proof. split; reflexivity. Qed.

Lemma engine_inv_initial : engine_inv initial_globals.
Proof. split; simpl; try reflexivity; try (split; discriminate); auto. Qed.

(** Exposes the numeric capacities to [lia]. *)
Ltac capacities :=
  change ALERT_CAPACITY with 144 in *;
  change MONITOR_MAX_DRIVES with 16 in *.

(** Closes the goals left by a call that changed the state: the array
    lengths are kept by positional updates, the counters stay in range and
    the engine is initialised. *)
Ltac solve_inv :=
  split; simpl;
  rewrite ?length_insert, ?length_alter, ?set_all_monitoring_length,
    ?length_replicate;
  try assumption; try reflexivity; try (intros; congruence);
  try (split; reflexivity);
  try (capacities; lia).

Lemma InitRealTimeMonitor_inv config now event g :
  engine_inv g -> engine_inv (fst (InitRealTimeMonitor config now event g)).
Proof.
  intros Hg. unfold InitRealTimeMonitor.
  destruct (g_monitor_initialized g); [exact Hg|].
  destruct (event =? 0); solve_inv.
Qed.

Lemma CleanupRealTimeMonitor_inv g :
  engine_inv g -> engine_inv (CleanupRealTimeMonitor g).
Proof.
  intros Hg. unfold CleanupRealTimeMonitor.
  destruct (g_monitor_initialized g); [|exact Hg].
  solve_inv.
Qed.

Lemma StartDriveMonitoring_inv p now thread g :
  engine_inv g -> engine_inv (fst (StartDriveMonitoring p now thread g)).
Proof.
  intros Hg. unfold StartDriveMonitoring.
  destruct (g_monitor_initialized g) eqn:Hi; simpl; [|exact Hg].
  destruct p as [p|].
  - destruct (IsDriveBeingMonitored (Some p) g); [exact Hg|].
    destruct (MONITOR_MAX_DRIVES <=? drive_count (g_monitor_context g))
      eqn:Hfull; [exact Hg|].
    apply Z.leb_gt in Hfull. destruct Hg as [Hd Ha Hdc Hac Hu].
    assert (Hw : uint32_t_wrap (drive_count (g_monitor_context g) + 1)
                 = drive_count (g_monitor_context g) + 1).
    { apply uint32_t_wrap_small. capacities. lia. }
    simpl.
    destruct (negb (ctx_is_monitoring (g_monitor_context g)));
      [destruct (thread =? 0)|]; solve_inv;
      rewrite Hw; capacities; lia.
  - destruct Hg as [Hd Ha Hdc Hac Hu]. solve_inv.
Qed.

Lemma StopDriveMonitoring_inv p g :
  engine_inv g -> engine_inv (fst (StopDriveMonitoring p g)).
Proof.
  intros Hg. unfold StopDriveMonitoring.
  destruct (g_monitor_initialized g) eqn:Hi; simpl; [|exact Hg].
  destruct p as [p|].
  - destruct (find_drive (g_monitor_context g) p) as [[i d]|]; simpl;
      [|exact Hg].
    destruct Hg as [Hd Ha Hdc Hac Hu]. solve_inv.
  - destruct Hg as [Hd Ha Hdc Hac Hu]. simpl.
    destruct (ctx_is_monitoring (g_monitor_context g)); solve_inv.
Qed.

Lemma AcknowledgeAlert_inv i g :
  engine_inv g -> engine_inv (fst (AcknowledgeAlert i g)).
Proof.
  intros Hg. unfold AcknowledgeAlert.
  destruct (g_monitor_initialized g) eqn:Hi; simpl; [|exact Hg].
  destruct (alert_count (g_monitor_context g) <=? Z.of_N i); simpl;
    [exact Hg|].
  destruct Hg as [Hd Ha Hdc Hac Hu]. solve_inv.
Qed.

Lemma ClearAllAlerts_inv g :
  engine_inv g -> engine_inv (fst (ClearAllAlerts g)).
Proof.
  intros Hg. unfold ClearAllAlerts.
  destruct (g_monitor_initialized g) eqn:Hi; simpl; [|exact Hg].
  destruct Hg as [Hd Ha Hdc Hac Hu]. solve_inv.
Qed.

Lemma CreateAlert_inv p m v t msg crit now g :
  engine_inv g -> engine_inv (fst (CreateAlert p m v t msg crit now g)).
Proof.
  intros Hg. unfold CreateAlert.
  destruct p as [p|]; [|exact Hg]. destruct msg as [msg|]; [|exact Hg].
  destruct (g_monitor_initialized g) eqn:Hi; simpl; [|exact Hg].
  destruct (ALERT_CAPACITY <=? alert_count (g_monitor_context g))
    eqn:Hfull; [exact Hg|].
  apply Z.leb_gt in Hfull. destruct Hg as [Hd Ha Hdc Hac Hu].
  assert (Hw : uint32_t_wrap (alert_count (g_monitor_context g) + 1)
               = alert_count (g_monitor_context g) + 1).
  { apply uint32_t_wrap_small. capacities. lia. }
  solve_inv; rewrite Hw; capacities; lia.
Qed.

(** What [CreateAlert] leaves alone. *)
Lemma CreateAlert_frame p m v t msg crit now g :
  let g' := fst (CreateAlert p m v t msg crit now g) in
  drives (g_monitor_context g') = drives (g_monitor_context g) /\
  drive_count (g_monitor_context g') = drive_count (g_monitor_context g) /\
  ctx_is_monitoring (g_monitor_context g')
    = ctx_is_monitoring (g_monitor_context g) /\
  g_monitor_config g' = g_monitor_config g /\
  g_monitor_initialized g' = g_monitor_initialized g.
Proof.
  unfold CreateAlert.
  destruct p, msg; simpl; try (repeat split; reflexivity).
  destruct (negb (g_monitor_initialized g)); simpl;
    try (repeat split; reflexivity).
  destruct (ALERT_CAPACITY <=? alert_count (g_monitor_context g));
    simpl; repeat split; reflexivity.
Qed.

Lemma alerts_only_refl g : alerts_only g g.
Proof. repeat split. Qed.

Lemma alerts_only_trans g1 g2 g3 :
  alerts_only g1 g2 -> alerts_only g2 g3 -> alerts_only g1 g3.
Proof.
  intros (? & ? & ? & ? & ?) (? & ? & ? & ? & ?).
  repeat split; congruence.
Qed.

Lemma check_metric_inv alert_time g d i :
  engine_inv g ->
  engine_inv (fst (check_metric alert_time (g, d) i)) /\
  alerts_only g (fst (check_metric alert_time (g, d) i)).
Proof.
  intros Hg. unfold check_metric.
  destruct (metric_severity g (metric_of_index i)
                            (rd (current_metrics d) i)); cbn [fst].
  - split; [exact Hg | apply alerts_only_refl].
  - split; [apply CreateAlert_inv, Hg | apply CreateAlert_frame].
  - split; [apply CreateAlert_inv, Hg | apply CreateAlert_frame].
Qed.

Lemma check_metrics_inv alert_time l g d :
  engine_inv g ->
  engine_inv (fst (fold_left (check_metric alert_time) l (g, d))) /\
  alerts_only g (fst (fold_left (check_metric alert_time) l (g, d))).
Proof.
  revert g d. induction l as [|i l IH]; intros g d Hg; simpl.
  - split; [exact Hg | apply alerts_only_refl].
  - destruct (check_metric alert_time (g, d) i) as [g1 d1] eqn:E.
    pose proof (check_metric_inv alert_time g d i Hg) as [H1 H2].
    rewrite E in H1, H2. simpl in H1, H2.
    destruct (IH g1 d1 H1) as [H3 H4].
    split; [exact H3 | eapply alerts_only_trans; eauto].
Qed.

Lemma UpdateDriveMetrics_inv p data new now alert_time g :
  engine_inv g ->
  engine_inv (fst (fst (UpdateDriveMetrics p data new now alert_time g))) /\
  alerts_only g (fst (fst (UpdateDriveMetrics p data new now alert_time g))).
Proof.
  intros Hg. unfold UpdateDriveMetrics, CheckForAlerts.
  destruct p as [p|], data as [d|]; cbn [fst];
    try (split; [exact Hg | apply alerts_only_refl]).
  match goal with
  | |- context [fold_left (check_metric ?a) ?l (g, ?d2)] =>
      pose proof (check_metrics_inv a l g d2 Hg) as [H1 H2];
      destruct (fold_left (check_metric a) l (g, d2)) as [g' d']
  end.
  cbn [fst] in *. split; assumption.
Qed.

Lemma visit_drive_inv samples now alert_time g i :
  engine_inv g ->
  engine_inv (visit_drive samples now alert_time g i) /\
  drive_count (g_monitor_context (visit_drive samples now alert_time g i))
    = drive_count (g_monitor_context g).
Proof.
  intros Hg. unfold visit_drive.
  destruct (drives (g_monitor_context g) !! i) as [d|]; [|split; auto].
  destruct (is_monitoring d); [|split; auto].
  pose proof (UpdateDriveMetrics_inv (Some (drive_path d)) (Some d)
                (samples i) (now i) (alert_time i) g Hg) as [H1 H2].
  destruct (UpdateDriveMetrics (Some (drive_path d)) (Some d) (samples i)
              (now i) (alert_time i) g) as [[g' [d'|]] b]; simpl in *.
  - destruct H2 as (? & ? & ? & ? & ?). destruct H1 as [Hd Ha Hdc Hac Hu].
    split; [solve_inv|]; simpl; auto.
  - destruct H2 as (? & ? & ? & ? & ?). split; auto.
Qed.

Lemma MonitorThreadProc_pass_inv samples now alert_time g :
  engine_inv g -> engine_inv (MonitorThreadProc_pass samples now alert_time g).
Proof.
  unfold MonitorThreadProc_pass.
  generalize (seq 0 (Z.to_nat (drive_count (g_monitor_context g)))) as l.
  intros l. revert g. induction l as [|i l IH]; intros g Hg; simpl.
  - exact Hg.
  - apply IH. apply visit_drive_inv, Hg.
Qed.

Lemma run_call_inv c g : engine_inv g -> engine_inv (run_call c g).
Proof.
  intros Hg. destruct c; simpl.
  - apply InitRealTimeMonitor_inv, Hg.
  - apply CleanupRealTimeMonitor_inv, Hg.
  - apply StartDriveMonitoring_inv, Hg.
  - apply StopDriveMonitoring_inv, Hg.
  - apply AcknowledgeAlert_inv, Hg.
  - apply ClearAllAlerts_inv, Hg.
  - apply CreateAlert_inv, Hg.
  - apply UpdateDriveMetrics_inv, Hg.
  - destruct (ctx_is_monitoring (g_monitor_context g)); [|exact Hg].
    apply MonitorThreadProc_pass_inv, Hg.
Qed.

(** Every state the engine can be in has the expected shape: both arrays
    keep their size, the registry and the alert log never exceed their
    capacity, and an engine that is not initialised holds no device and no
    alert. *)
Lemma reachable_inv g : reachable g -> engine_inv g.
Proof.
  induction 1 as [|c g _ IH]; [apply engine_inv_initial|].
  apply run_call_inv, IH.
Qed.

Lemma run_calls_reachable cs : reachable (run_calls cs).
Proof.
  unfold run_calls. generalize reachable_initial.
  generalize initial_globals as g. induction cs as [|c cs IH]; intros g Hg.
  - exact Hg.
  - simpl. apply IH. apply reachable_call, Hg.
Qed.

(** ** The alert log *)

(** C4: the alert log holds [MONITOR_MAX_DRIVES * MONITOR_METRIC_MAX] =
    16 * 9 = 144 alerts, and once [alert_count] has reached that capacity
    [CreateAlert] returns FALSE and leaves the whole engine state, hence
    the alert count and every stored alert, as it was: nothing is evicted. *)
Theorem CreateAlert_full_log_unchanged p m v t msg crit now g :
  ALERT_CAPACITY <= alert_count (g_monitor_context g) ->
  ALERT_CAPACITY = MONITOR_MAX_DRIVES * Z.of_nat METRIC_COUNT /\
  ALERT_CAPACITY = 16 * 9 /\
  Z.of_nat (length (alerts zero_context)) = ALERT_CAPACITY /\
  CreateAlert p m v t msg crit now g = (g, false).
Proof.
  intros Hfull. repeat split. unfold CreateAlert.
  destruct p as [p|], msg as [msg|]; try reflexivity.
  destruct (negb (g_monitor_initialized g)); [reflexivity|].
  apply Z.leb_le in Hfull. rewrite Hfull. reflexivity.
Qed.

Lemma CreateAlert_full_log_unchanged_witness :
  let g := run_calls full_log_calls in
  ALERT_CAPACITY <= alert_count (g_monitor_context g) /\
  CreateAlert (Some "E:") MONITOR_METRIC_TEMPERATURE 65 60
              (Some "Critical threshold exceeded") true 0 g = (g, false).
Proof.
  intros g.
  assert (H : ALERT_CAPACITY <= alert_count (g_monitor_context g))
    by (vm_compute; discriminate).
  split; [exact H|].
  apply (CreateAlert_full_log_unchanged (Some "E:")
           MONITOR_METRIC_TEMPERATURE 65 60
           (Some "Critical threshold exceeded") true 0 g H).
Defined.

(** C9: on every state the engine can reach, [AcknowledgeAlert(i)] with
    [i >= alert_count] returns FALSE and changes nothing; with
    [i < alert_count] it returns TRUE, alert [i] has [is_acknowledged] set
    and every other field of it as before, every other alert and the
    alert count are as before, and so is the rest of the engine state. *)
Theorem AcknowledgeAlert_frame (i : N) g :
  reachable g ->
  let c := g_monitor_context g in
  (alert_count c <= Z.of_N i -> AcknowledgeAlert i g = (g, false)) /\
  (Z.of_N i < alert_count c ->
   let r := AcknowledgeAlert i g in
   let c' := g_monitor_context (fst r) in
   snd r = true /\
   (exists a a',
      alerts c !! N.to_nat i = Some a /\
      alerts c' !! N.to_nat i = Some a' /\
      is_acknowledged a' = true /\
      alert_drive_path a' = alert_drive_path a /\
      metric a' = metric a /\
      current_value a' = current_value a /\
      threshold_value a' = threshold_value a /\
      alert_message a' = alert_message a /\
      timestamp a' = timestamp a /\
      is_critical a' = is_critical a) /\
   (forall j, j <> N.to_nat i -> alerts c' !! j = alerts c !! j) /\
   length (alerts c') = length (alerts c) /\
   alert_count c' = alert_count c /\
   drives c' = drives c /\
   drive_count c' = drive_count c /\
   ctx_is_monitoring c' = ctx_is_monitoring c /\
   monitor_thread c' = monitor_thread c /\
   stop_event c' = stop_event c /\
   start_time c' = start_time c /\
   last_scan_time c' = last_scan_time c /\
   g_monitor_config (fst r) = g_monitor_config g /\
   g_monitor_initialized (fst r) = g_monitor_initialized g).
Proof.
  intros Hr c. apply reachable_inv in Hr.
  destruct Hr as [Hd Ha Hdc Hac Hu]. fold c in Ha, Hac, Hu. split.
  - intros Hge. unfold AcknowledgeAlert. fold c.
    apply Z.leb_le in Hge. rewrite Hge, orb_true_r. reflexivity.
  - intros Hlt.
    assert (Hi : g_monitor_initialized g = true).
    { destruct (g_monitor_initialized g); [reflexivity|].
      destruct Hu as [_ Hz]; [reflexivity|]. lia. }
    assert (Hin : (N.to_nat i < length (alerts c))%nat).
    { rewrite Ha. capacities. lia. }
    destruct (lookup_lt_is_Some_2 _ _ Hin) as [a Hlook].
    unfold AcknowledgeAlert. fold c. rewrite Hi.
    apply Z.leb_gt in Hlt. rewrite Hlt.
    cbn [negb orb fst snd g_monitor_context g_monitor_config
         g_monitor_initialized with_context alerts alert_count drives
         drive_count ctx_is_monitoring monitor_thread stop_event start_time
         last_scan_time set_alerts].
    split; [reflexivity|]. split.
    { exists a, (set_is_acknowledged true a).
      split; [exact Hlook|]. split.
      - rewrite list_lookup_alter_eq, Hlook. reflexivity.
      - repeat split. }
    split.
    { intros j Hne. apply list_lookup_alter_ne. congruence. }
    split; [apply length_alter|].
    repeat split. exact Hi.
Qed.

Lemma AcknowledgeAlert_frame_witness :
  let g := run_calls full_log_calls in
  let c := g_monitor_context g in
  let c' := g_monitor_context (fst (AcknowledgeAlert 3 g)) in
  reachable g /\
  AcknowledgeAlert 200 g = (g, false) /\
  snd (AcknowledgeAlert 3 g) = true /\
  is_acknowledged <$> alerts c !! 3%nat = Some false /\
  is_acknowledged <$> alerts c' !! 3%nat = Some true /\
  metric <$> alerts c' !! 3%nat = metric <$> alerts c !! 3%nat /\
  alerts c' !! 4%nat = alerts c !! 4%nat /\
  alert_count c' = alert_count c.
Proof.
  intros g c c'.
  assert (Hr : reachable g) by apply run_calls_reachable.
  destruct (AcknowledgeAlert_frame 200 g Hr) as [Hfail _].
  destruct (AcknowledgeAlert_frame 3 g Hr) as [_ Hok].
  assert (Hlt : Z.of_N 3 < alert_count (g_monitor_context g))
    by (vm_compute; reflexivity).
  destruct (Hok Hlt) as (Hret & (a & a' & Ha & Ha' & Hack & _ & Hm & _)
                         & Hother & _ & Hcount & _).
  change (N.to_nat 3) with 3%nat in Ha, Ha', Hother.
  split; [exact Hr|]. split; [apply Hfail; vm_compute; discriminate|].
  split; [exact Hret|].
  split; [vm_compute; reflexivity|].
  split; [unfold c'; rewrite Ha'; cbn; rewrite Hack; reflexivity|].
  split; [unfold c', c; rewrite Ha', Ha; cbn; rewrite Hm; reflexivity|].
  split; [apply Hother; discriminate | exact Hcount].
Defined.

(** ** The registry *)

Lemma not_in_registry_check p g :
  forallb (fun d => negb (strcmp_eq (drive_path d) p)) (registry g) = true ->
  ~ in_registry p g.
Proof.
  intros Hall (i & d & Hi & Hd & Hp).
  rewrite forallb_forall in Hall.
  assert (Hin : In d (registry g)).
  { apply list_elem_of_In, list_elem_of_lookup. exists i.
    unfold registry. rewrite lookup_take_lt by exact Hi. exact Hd. }
  apply Hall in Hin. apply negb_true_iff in Hin.
  unfold strcmp_eq in Hin. rewrite <- Hp, String.eqb_refl in Hin.
  discriminate.
Qed.

(** Starting a drive that is currently monitored changes nothing. *)
Lemma StartDriveMonitoring_active_device p now thread g :
  IsDriveBeingMonitored (Some p) g = true ->
  StartDriveMonitoring (Some p) now thread g = (g, true).
Proof.
  intros Hm. unfold StartDriveMonitoring.
  destruct (g_monitor_initialized g) eqn:Hi; cbn [negb].
  - rewrite Hm. reflexivity.
  - unfold IsDriveBeingMonitored in Hm. rewrite Hi in Hm. discriminate.
Qed.

(** Starting a drive whose record is in the registry but stopped takes a
    free slot for a second record, as for an unknown drive. *)
Lemma StartDriveMonitoring_stopped_device p now thread g i d :
  g_monitor_initialized g = true ->
  find_drive (g_monitor_context g) p = Some (i, d) ->
  is_monitoring d = false ->
  drive_count (g_monitor_context g) < MONITOR_MAX_DRIVES ->
  0 <= drive_count (g_monitor_context g) ->
  let g' := fst (StartDriveMonitoring (Some p) now thread g) in
  drive_count (g_monitor_context g')
    = drive_count (g_monitor_context g) + 1 /\
  drives (g_monitor_context g')
    = <[Z.to_nat (drive_count (g_monitor_context g)) :=
          new_drive_data p now]> (drives (g_monitor_context g)).
Proof.
  intros Hi Hf Hm Hlt Hge. unfold StartDriveMonitoring, IsDriveBeingMonitored.
  rewrite Hi, Hf, Hm. simpl.
  apply Z.leb_gt in Hlt. rewrite Hlt.
  apply Z.leb_gt in Hlt.
  rewrite uint32_t_wrap_small by (capacities; lia).
  destruct (negb (ctx_is_monitoring (g_monitor_context g)));
    [destruct (thread =? 0)|]; simpl; split; reflexivity.
Qed.

(** C3, evaluated on the run [Init; Start "E:"; Stop "E:"; Start "E:"]:
    before the second start the registry holds one record for "E:", which
    is stopped; the second start returns TRUE but leaves that record
    stopped and adds a second record for "E:", so the count goes from 1 to
    2.  A later [StopDriveMonitoring("E:")] finds the first record and
    leaves the second one active, while [IsDriveBeingMonitored("E:")] and
    [GetDriveHealthStatus("E:")] answer from the first, stopped record. *)
Theorem StartDriveMonitoring_restart_duplicates_record :
  let g := run_calls stopped_drive_calls in
  let r := StartDriveMonitoring (Some "E:") 20 2 g in
  let g' := fst r in
  (drive_count (g_monitor_context g) = 1 /\
   map drive_path (registry g) = ["E:"%string] /\
   map is_monitoring (registry g) = [false]) /\
  (snd r = true /\
   drive_count (g_monitor_context g') = 2 /\
   map drive_path (registry g') = ["E:"%string; "E:"%string] /\
   map is_monitoring (registry g') = [false; true]) /\
  (let g'' := fst (StopDriveMonitoring (Some "E:") g') in
   map is_monitoring (registry g'') = [false; true] /\
   IsDriveBeingMonitored (Some "E:") g' = false /\
   is_monitoring <$> GetDriveHealthStatus (Some "E:") g' = Some false).
Proof. vm_compute. repeat split. Qed.

(** C5: once [drive_count] has reached [MONITOR_MAX_DRIVES] = 16,
    [StartDriveMonitoring] of an identifier that is not in the registry
    returns FALSE and leaves the whole engine state as it was: every
    record (identifier, activity flag, metrics, counters) and the registry
    count are untouched. *)
Theorem StartDriveMonitoring_registry_full p now thread g :
  MONITOR_MAX_DRIVES <= drive_count (g_monitor_context g) ->
  ~ in_registry p g ->
  MONITOR_MAX_DRIVES = 16 /\
  StartDriveMonitoring (Some p) now thread g = (g, false).
Proof.
  intros Hfull Hnew. split; [reflexivity|].
  unfold StartDriveMonitoring.
  destruct (negb (g_monitor_initialized g)); [reflexivity|].
  rewrite (IsDriveBeingMonitored_not_in_registry _ _ Hnew).
  apply Z.leb_le in Hfull. rewrite Hfull. reflexivity.
Qed.

Lemma StartDriveMonitoring_registry_full_witness :
  let g := run_calls full_registry_calls in
  MONITOR_MAX_DRIVES <= drive_count (g_monitor_context g) /\
  ~ in_registry "Z:" g /\
  StartDriveMonitoring (Some "Z:") 5 2 g = (g, false).
Proof.
  intros g.
  assert (Hfull : MONITOR_MAX_DRIVES <= drive_count (g_monitor_context g))
    by (vm_compute; discriminate).
  assert (Hnew : ~ in_registry "Z:" g)
    by (apply not_in_registry_check; vm_compute; reflexivity).
  split; [exact Hfull|]. split; [exact Hnew|].
  apply (StartDriveMonitoring_registry_full "Z:" 5 2 g Hfull Hnew).
Defined.

(** C10: on an initialised engine, for an identifier that is not in the
    registry, [StopDriveMonitoring] returns FALSE and leaves the whole
    engine state as it was: the registry with its count, the alert log and
    the running flag. *)
Theorem StopDriveMonitoring_unknown_device p g :
  g_monitor_initialized g = true ->
  ~ in_registry p g ->
  StopDriveMonitoring (Some p) g = (g, false).
Proof.
  intros Hi Hnew. unfold StopDriveMonitoring. rewrite Hi. simpl.
  rewrite (find_drive_not_in_registry _ _ Hnew). reflexivity.
Qed.

Lemma StopDriveMonitoring_unknown_device_witness :
  let g := run_calls full_registry_calls in
  g_monitor_initialized g = true /\
  ~ in_registry "Z:" g /\
  StopDriveMonitoring (Some "Z:") g = (g, false).
Proof.
  intros g.
  assert (Hi : g_monitor_initialized g = true) by (vm_compute; reflexivity).
  assert (Hnew : ~ in_registry "Z:" g)
    by (apply not_in_registry_check; vm_compute; reflexivity).
  split; [exact Hi|]. split; [exact Hnew|].
  apply (StopDriveMonitoring_unknown_device "Z:" g Hi Hnew).
Defined.

(** ** Threshold evaluation *)

Lemma GetMetricThreshold_nonneg m : (0 <= GetMetricThreshold m)%Q.
Proof. destruct m; vm_compute; discriminate. Qed.

Lemma fge_true a b : fge a b = true <-> (b <= a)%Q.
Proof. unfold fge. apply Qle_bool_iff. Qed.

Lemma fge_false a b : fge a b = false <-> (a < b)%Q.
Proof.
  unfold fge. split; intros H.
  - apply Qnot_le_lt. intros Hle. apply Qle_bool_iff in Hle. congruence.
  - destruct (Qle_bool b a) eqn:E; [|reflexivity].
    apply Qle_bool_iff in E. lra.
Qed.

Lemma fgt_true a b : fgt a b = true <-> (b < a)%Q.
Proof.
  unfold fgt. rewrite negb_true_iff. apply (fge_false b a).
Qed.

Lemma fgt_false a b : fgt a b = false <-> (a <= b)%Q.
Proof.
  unfold fgt. rewrite negb_false_iff. apply (fge_true b a).
Qed.

Lemma flt_true a b : flt a b = true <-> (a < b)%Q.
Proof.
  unfold flt. rewrite negb_true_iff. apply (fge_false a b).
Qed.

Lemma flt_false a b : flt a b = false <-> (b <= a)%Q.
Proof.
  unfold flt. rewrite negb_false_iff. apply (fge_true a b).
Qed.

(** C6 (amended): the severity is a function of the metric kind, the value
    and the two configured multipliers alone; a value equal to the base
    threshold times the critical multiplier, the product being the
    single-precision one the code computes, is Critical; and, when the
    warning multiplier does not exceed the critical one, a value strictly
    below the base threshold times the warning multiplier is None, in
    which case the loop body of [CheckForAlerts] raises no alert and
    changes nothing. *)
Theorem metric_severity_policy g m v :
  (forall g',
     warning_threshold (g_monitor_config g')
       = warning_threshold (g_monitor_config g) ->
     critical_threshold (g_monitor_config g')
       = critical_threshold (g_monitor_config g) ->
     metric_severity g' m v = metric_severity g m v) /\
  (v == fmul (GetMetricThreshold m) (critical_threshold (g_monitor_config g)) ->
   metric_severity g m v = SeverityCritical)%Q /\
  (warning_threshold (g_monitor_config g)
     <= critical_threshold (g_monitor_config g) ->
   v < fmul (GetMetricThreshold m) (warning_threshold (g_monitor_config g)) ->
   metric_severity g m v = SeverityNone /\
   forall alert_time d i,
     metric_of_index i = m -> rd (current_metrics d) i = v ->
     check_metric alert_time (g, d) i = (g, d))%Q.
Proof.
  split; [|split].
  - intros g' Hw Hc.
    unfold metric_severity, IsMetricCritical, IsMetricWarning.
    rewrite Hw, Hc. reflexivity.
  - intros Heq. unfold metric_severity, IsMetricCritical.
    replace (fge v _) with true; [reflexivity|].
    symmetry. apply fge_true. rewrite Heq. apply Qle_refl.
  - intros Hwc Hlt.
    pose proof (GetMetricThreshold_nonneg m) as HB.
    pose proof (fmul_le_r _ _ _ HB Hwc) as Hmono.
    assert (Hsev : metric_severity g m v = SeverityNone).
    { unfold metric_severity, IsMetricCritical, IsMetricWarning.
      replace (fge v (fmul (GetMetricThreshold m)
                           (critical_threshold (g_monitor_config g))))
        with false.
      - replace (fge v (fmul (GetMetricThreshold m)
                             (warning_threshold (g_monitor_config g))))
          with false; [reflexivity|].
        symmetry. apply fge_false. exact Hlt.
      - symmetry. apply fge_false.
        eapply Qlt_le_trans; [exact Hlt | exact Hmono]. }
    split; [exact Hsev|].
    intros alert_time d i Hm Hv. unfold check_metric.
    rewrite Hm, Hv, Hsev. reflexivity.
Qed.

Lemma metric_severity_policy_witness :
  let g := run_calls started_engine in
  (54 == fmul (GetMetricThreshold MONITOR_METRIC_TEMPERATURE)
              (critical_threshold (g_monitor_config g)))%Q /\
  metric_severity g MONITOR_METRIC_TEMPERATURE 54 = SeverityCritical /\
  (warning_threshold (g_monitor_config g)
     <= critical_threshold (g_monitor_config g))%Q /\
  (47 < fmul (GetMetricThreshold MONITOR_METRIC_TEMPERATURE)
             (warning_threshold (g_monitor_config g)))%Q /\
  metric_severity g MONITOR_METRIC_TEMPERATURE 47 = SeverityNone.
Proof.
  intros g.
  assert (H1 : (54 == fmul (GetMetricThreshold MONITOR_METRIC_TEMPERATURE)
                           (critical_threshold (g_monitor_config g)))%Q)
    by (vm_compute; reflexivity).
  assert (H2 : (warning_threshold (g_monitor_config g)
                <= critical_threshold (g_monitor_config g))%Q)
    by (vm_compute; discriminate).
  assert (H3 : (47 < fmul (GetMetricThreshold MONITOR_METRIC_TEMPERATURE)
                          (warning_threshold (g_monitor_config g)))%Q)
    by (vm_compute; reflexivity).
  destruct (metric_severity_policy g MONITOR_METRIC_TEMPERATURE 54)
    as (_ & Hcrit & _).
  destruct (metric_severity_policy g MONITOR_METRIC_TEMPERATURE 47)
    as (_ & _ & Hnone).
  split; [exact H1|]. split; [exact (Hcrit H1)|].
  split; [exact H2|]. split; [exact H3|].
  exact (proj1 (Hnone H2 H3)).
Defined.

(** C6 as stated fails: with the warning multiplier at 0.8 and the critical
    multiplier configured at 0.5, a temperature of 40 is below 60 * 0.8 =
    48, as an exact product and as the single-precision one, and yet
    evaluates as Critical, since it is above 60 * 0.5 = 30. *)
Lemma metric_severity_below_warning_counterexample :
  let g := run_calls
             [Call_InitRealTimeMonitor (Some lowered_critical_config) 0 1] in
  ~ ((40 < GetMetricThreshold MONITOR_METRIC_TEMPERATURE
           * warning_threshold (g_monitor_config g))%Q /\
     (40 < fmul (GetMetricThreshold MONITOR_METRIC_TEMPERATURE)
                (warning_threshold (g_monitor_config g)))%Q ->
     metric_severity g MONITOR_METRIC_TEMPERATURE 40 = SeverityNone).
Proof.
  intros g H.
  assert (Hlt : (40 < GetMetricThreshold MONITOR_METRIC_TEMPERATURE
                      * warning_threshold (g_monitor_config g))%Q /\
                (40 < fmul (GetMetricThreshold MONITOR_METRIC_TEMPERATURE)
                           (warning_threshold (g_monitor_config g)))%Q)
    by (split; vm_compute; reflexivity).
  apply H in Hlt. vm_compute in Hlt. discriminate.
Qed.

(** Single precision decides at the limit.  With the base threshold of
    the electromagnetic field and the critical multiplier both [0.8f], the
    limit is the single-precision product of the two, which lies above
    0.64, so that a field of [0.64f] is not Critical.  With the default
    warning multiplier [0.8f], the exact product [60 * 0.8f] lies above 48
    and is rounded to 48, so that a temperature of 48 is a Warning. *)
Lemma rounded_limit_example :
  let cfg := mk_config true true true true false false true true
               MONITOR_UPDATE_INTERVAL (5 # 10)%Q float_0_8 true false "" in
  let g := run_calls [Call_InitRealTimeMonitor (Some cfg) 0 1] in
  let g0 := run_calls started_engine in
  ((float_0_64 < 64 # 100)%Q /\
   (64 # 100 < fmul (GetMetricThreshold MONITOR_METRIC_ELECTROMAGNETIC)
                    (critical_threshold (g_monitor_config g)))%Q /\
   IsMetricCritical g MONITOR_METRIC_ELECTROMAGNETIC float_0_64 = false) /\
  ((48 < GetMetricThreshold MONITOR_METRIC_TEMPERATURE
         * warning_threshold (g_monitor_config g0))%Q /\
   (fmul (GetMetricThreshold MONITOR_METRIC_TEMPERATURE)
         (warning_threshold (g_monitor_config g0)) == 48)%Q /\
   metric_severity g0 MONITOR_METRIC_TEMPERATURE 48 = SeverityWarning).
Proof.
  intros cfg g g0.
  split; (split; [|split]); vm_compute; reflexivity.
Qed.

(** ** Running statistics *)

Lemma rd_insert_eq (a : list float) i v :
  (i < length a)%nat -> rd (<[i := v]> a) i = v.
Proof.
  intros H. unfold rd. rewrite list_lookup_insert_eq by exact H. reflexivity.
Qed.

Lemma rd_insert_ne (a : list float) i j v :
  i <> j -> rd (<[i := v]> a) j = rd a j.
Proof.
  intros H. unfold rd. rewrite list_lookup_insert_ne by exact H. reflexivity.
Qed.

Lemma insert_rd_id (a : list float) i : <[i := rd a i]> a = a.
Proof.
  apply list_insert_id'. intros H.
  destruct (lookup_lt_is_Some_2 _ _ H) as [x Hx].
  unfold rd. rewrite Hx. reflexivity.
Qed.

(** A loop that rewrites entry [i] at iteration [i] applies its step once
    to each entry it visits. *)
Lemma update_at_fold f n a (l : list float) :
  length (fold_left (update_at f) (seq a n) l) = length l /\
  forall j, (j < length l)%nat ->
    rd (fold_left (update_at f) (seq a n) l) j
    = if (a <=? j)%nat && (j <? a + n)%nat then f j (rd l j) else rd l j.
Proof.
  revert a l. induction n as [|n IH]; intros a l; simpl.
  - split; [reflexivity|]. intros j _.
    destruct (a <=? j)%nat eqn:E1, (j <? a + 0)%nat eqn:E2; try reflexivity.
    apply Nat.leb_le in E1. apply Nat.ltb_lt in E2. lia.
  - destruct (IH (S a) (update_at f l a)) as [Hlen Hrd].
    assert (Hl : length (update_at f l a) = length l)
      by (unfold update_at; apply length_insert).
    rewrite Hl in Hlen, Hrd.
    split; [exact Hlen|]. intros j Hj.
    rewrite Hrd by exact Hj.
    destruct (Nat.eq_dec a j) as [->|Hne].
    + replace (S j <=? j)%nat with false by (symmetry; apply Nat.leb_gt; lia).
      replace (j <=? j)%nat with true by (symmetry; apply Nat.leb_le; lia).
      replace (j <? j + S n)%nat with true
        by (symmetry; apply Nat.ltb_lt; lia).
      simpl. unfold update_at. apply rd_insert_eq, Hj.
    + unfold update_at at 1 2. rewrite !rd_insert_ne by exact Hne.
      replace (j <? S a + n)%nat with (j <? a + S n)%nat
        by (f_equal; lia).
      destruct (S a <=? j)%nat eqn:E1, (a <=? j)%nat eqn:E2;
        try reflexivity.
      * apply Nat.leb_le in E1. apply Nat.leb_gt in E2. lia.
      * apply Nat.leb_gt in E1. apply Nat.leb_le in E2. lia.
Qed.

(** The update loop of [UpdateDriveMetrics], array by array. *)
Lemma update_metric_fold new l d :
  let d' := fold_left (update_metric new) l d in
  average_metrics d'
    = fold_left (update_at (fun i => mean_step (data_points d) (rd new i)))
                l (average_metrics d) /\
  max_metrics d'
    = fold_left (update_at (fun i => max_step (rd new i))) l (max_metrics d) /\
  min_metrics d'
    = fold_left (update_at (fun i => min_step (rd new i))) l (min_metrics d) /\
  data_points d' = data_points d /\
  drive_path d' = drive_path d.
Proof.
  revert d. induction l as [|i l IH]; intros d; simpl.
  - repeat split.
  - destruct (IH (update_metric new d i)) as (Ha & Hx & Hn & Hp & Hd).
    rewrite Ha, Hx, Hn, Hp, Hd. unfold update_metric. simpl.
    repeat split.
    + f_equal. unfold update_at, max_step.
      destruct (fgt (rd new i) (rd (max_metrics d) i));
        [reflexivity | symmetry; apply insert_rd_id].
    + f_equal. unfold update_at, min_step.
      destruct (flt (rd new i) (rd (min_metrics d) i));
        [reflexivity | symmetry; apply insert_rd_id].
Qed.

(** The alert checks touch the two alert counters of the record only. *)
Lemma check_metrics_record alert_time l g d :
  let d' := snd (fold_left (check_metric alert_time) l (g, d)) in
  average_metrics d' = average_metrics d /\
  max_metrics d' = max_metrics d /\
  min_metrics d' = min_metrics d /\
  data_points d' = data_points d /\
  drive_path d' = drive_path d.
Proof.
  revert g d. induction l as [|i l IH]; intros g d; simpl.
  - repeat split.
  - destruct (check_metric alert_time (g, d) i) as [g1 d1] eqn:E.
    destruct (IH g1 d1) as (Ha & Hx & Hn & Hp & Hd).
    rewrite Ha, Hx, Hn, Hp, Hd. unfold check_metric in E.
    destruct (metric_severity g (metric_of_index i)
                              (rd (current_metrics d) i));
      inversion E; subst; repeat split.
Qed.

(** One call of [UpdateDriveMetrics] on a record, metric by metric. *)
Lemma apply_update_metric g d s :
  let d' := snd (apply_update (g, d) s) in
  data_points d' = uint32_t_wrap (data_points d + 1) /\
  drive_path d' = drive_path d /\
  length (average_metrics d') = length (average_metrics d) /\
  length (max_metrics d') = length (max_metrics d) /\
  length (min_metrics d') = length (min_metrics d) /\
  forall i, (i < METRIC_COUNT)%nat ->
    ((i < length (average_metrics d))%nat ->
     rd (average_metrics d') i
     = mean_step (data_points d) (rd (new_metrics s) i)
                 (rd (average_metrics d) i)) /\
    ((i < length (max_metrics d))%nat ->
     rd (max_metrics d') i
     = max_step (rd (new_metrics s) i) (rd (max_metrics d) i)) /\
    ((i < length (min_metrics d))%nat ->
     rd (min_metrics d') i
     = min_step (rd (new_metrics s) i) (rd (min_metrics d) i)).
Proof.
  unfold apply_update, UpdateDriveMetrics, CheckForAlerts.
  set (d1 := fold_left (update_metric (new_metrics s)) (seq 0 METRIC_COUNT) d).
  set (d2 := set_counters (now s) (error_count d1) (warning_count d1)
                          (uint32_t_wrap (data_points d1 + 1)) d1).
  pose proof (check_metrics_record (alert_time s) (seq 0 METRIC_COUNT) g d2)
    as (Ha & Hx & Hn & Hp & Hd).
  destruct (fold_left (check_metric (alert_time s)) (seq 0 METRIC_COUNT)
                      (g, d2)) as [g' d3].
  cbn [fst snd] in *.
  destruct (update_metric_fold (new_metrics s) (seq 0 METRIC_COUNT) d)
    as (Ha1 & Hx1 & Hn1 & Hp1 & Hd1).
  fold d1 in Ha1, Hx1, Hn1, Hp1, Hd1.
  rewrite Ha, Hx, Hn, Hp, Hd. unfold d2. cbn [average_metrics max_metrics
    min_metrics data_points drive_path set_counters].
  rewrite Ha1, Hx1, Hn1, Hp1, Hd1.
  split; [reflexivity|]. split; [reflexivity|].
  split; [apply update_at_fold|]. split; [apply update_at_fold|].
  split; [apply update_at_fold|].
  intros i Hi.
  assert (Hrange : (0 <=? i)%nat && (i <? 0 + METRIC_COUNT)%nat = true).
  { apply andb_true_intro. split; [reflexivity|]. apply Nat.ltb_lt. lia. }
  repeat split; intros Hlen.
  - rewrite (proj2 (update_at_fold _ _ _ _) i Hlen), Hrange. reflexivity.
  - rewrite (proj2 (update_at_fold _ _ _ _) i Hlen), Hrange. reflexivity.
  - rewrite (proj2 (update_at_fold _ _ _ _) i Hlen), Hrange. reflexivity.
Qed.

(** A pass of the thread over an active record is one [apply_update] on
    it, written back in place. *)
Lemma visit_drive_active samples now alert_time g i d :
  drives (g_monitor_context g) !! i = Some d ->
  is_monitoring d = true ->
  let r := apply_update (g, d)
             (mk_sample (samples i) (now i) (alert_time i)) in
  let c' := g_monitor_context (fst r) in
  visit_drive samples now alert_time g i
  = with_context (set_drives (<[i := snd r]> (drives c')) (drive_count c')
                             c') (fst r).
Proof.
  intros Hd Hm. unfold visit_drive, apply_update. rewrite Hd, Hm.
  cbn [new_metrics Monitor.now Monitor.alert_time].
  unfold UpdateDriveMetrics, CheckForAlerts.
  destruct (fold_left _ _ _) as [g' d']. reflexivity.
Qed.

Lemma run_updates_cons s samples g d :
  run_updates (s :: samples) g d
  = run_updates samples (fst (apply_update (g, d) s))
                (snd (apply_update (g, d) s)).
Proof.
  unfold run_updates. cbn [fold_left].
  destruct (apply_update (g, d) s); reflexivity.
Qed.

Lemma mean_step_spec count v avg :
  0 <= count -> count + 1 < 2 ^ 32 ->
  (mean_step count v avg * inject_Z (count + 1)
   == avg * inject_Z count + v)%Q.
Proof.
  intros H0 H1. unfold mean_step.
  rewrite uint32_t_wrap_small by lia.
  field. intros Hz.
  change 0%Q with (inject_Z 0) in Hz.
  apply (proj1 (inject_Z_injective _ _)) in Hz. lia.
Qed.

(** The running mean times the sample count is the sum of what the record
    has received. *)
Lemma run_updates_sum i samples : forall g d,
  (i < METRIC_COUNT)%nat ->
  length (average_metrics d) = METRIC_COUNT ->
  0 <= data_points d ->
  data_points d + Z.of_nat (length samples) < 2 ^ 32 ->
  let d' := snd (run_updates samples g d) in
  data_points d' = data_points d + Z.of_nat (length samples) /\
  (rd (average_metrics d') i * inject_Z (data_points d')
   == rd (average_metrics d) i * inject_Z (data_points d)
      + Qsum (column i samples))%Q.
Proof.
  induction samples as [|s samples IH]; intros g d Hi Hlen H0 Hn.
  - simpl. split; [lia|]. rewrite Qplus_0_r. reflexivity.
  - rewrite run_updates_cons.
    pose proof (apply_update_metric g d s) as (Hp & _ & Hl & _ & _ & Hm).
    destruct (Hm i Hi) as (Havg & _ & _).
    rewrite Hlen in Havg. specialize (Havg Hi).
    set (g1 := fst (apply_update (g, d) s)) in *.
    set (d1 := snd (apply_update (g, d) s)) in *.
    simpl length in Hn.
    rewrite uint32_t_wrap_small in Hp by lia.
    assert (Hlen1 : length (average_metrics d1) = METRIC_COUNT)
      by (rewrite Hl; exact Hlen).
    destruct (IH g1 d1 Hi Hlen1) as [Hc Hs]; try lia.
    cbv zeta. cbn [length]. split; [lia|].
    rewrite Hs, Havg, Hp. cbn [column map Qsum fold_right].
    rewrite mean_step_spec by lia. unfold column, Qsum. ring.
Qed.

(** C1: for a record that has received no sample yet ([data_points] is 0,
    as in the record [StartDriveMonitoring] creates) and every non-empty
    sequence of fewer than 2^32 calls of [UpdateDriveMetrics], the running
    mean of each metric equals, in exact arithmetic, the arithmetic mean of
    the values that metric received; the count goes up by one per call. *)
Theorem running_mean_is_arithmetic_mean samples g d i :
  (i < METRIC_COUNT)%nat ->
  length (average_metrics d) = METRIC_COUNT ->
  data_points d = 0 ->
  samples <> [] ->
  Z.of_nat (length samples) < 2 ^ 32 ->
  let d' := snd (run_updates samples g d) in
  data_points d' = Z.of_nat (length samples) /\
  (rd (average_metrics d') i == mean (column i samples))%Q.
Proof.
  intros Hi Hlen Hz Hne Hn d'.
  destruct (run_updates_sum i samples g d Hi Hlen) as [Hc Hs]; try lia.
  fold d' in Hc, Hs. rewrite Hz in Hc, Hs. simpl in Hc.
  split; [exact Hc|].
  unfold mean, column. rewrite length_map.
  rewrite Hc in Hs.
  assert (Hpos : ~ (inject_Z (Z.of_nat (length samples)) == 0)%Q).
  { intros H. change 0%Q with (inject_Z 0) in H.
    apply (proj1 (inject_Z_injective _ _)) in H.
    destruct samples; [congruence|]. simpl in H. lia. }
  apply (Qmult_inj_r _ _ _ Hpos). rewrite Hs. unfold column.
  field. exact Hpos.
Qed.

Lemma new_drive_data_fresh p t0 :
  data_points (new_drive_data p t0) = 0 /\
  average_metrics (new_drive_data p t0) = replicate METRIC_COUNT 0%Q /\
  max_metrics (new_drive_data p t0) = replicate METRIC_COUNT 0%Q /\
  min_metrics (new_drive_data p t0) = replicate METRIC_COUNT 1000%Q.
Proof. repeat split. Qed.

Lemma running_mean_is_arithmetic_mean_witness :
  let g := run_calls started_engine in
  let d := new_drive_data "E:" 0 in
  let d' := snd (run_updates three_samples g d) in
  data_points d' = 3 /\ (rd (average_metrics d') 0 == 50)%Q.
Proof.
  intros g d d'.
  assert (H1 : (0 < METRIC_COUNT)%nat) by (vm_compute; lia).
  assert (H2 : length (average_metrics d) = METRIC_COUNT) by reflexivity.
  assert (H3 : data_points d = 0) by reflexivity.
  assert (H4 : three_samples <> []) by discriminate.
  assert (H5 : Z.of_nat (length three_samples) < 2 ^ 32) by reflexivity.
  destruct (running_mean_is_arithmetic_mean three_samples g d 0%nat
              H1 H2 H3 H4 H5) as [Hc Hm].
  split; [exact Hc|].
  fold d' in Hm. rewrite Hm. vm_compute. reflexivity.
Defined.

(** *** Maximum and minimum *)

Lemma max_step_Qmax v m : (max_step v m == Qmax v m)%Q.
Proof.
  unfold max_step. destruct (fgt v m) eqn:E.
  - apply fgt_true in E. destruct (Q.max_spec v m) as [[? H]|[? H]];
      rewrite H; lra.
  - apply fgt_false in E. destruct (Q.max_spec v m) as [[? H]|[? H]];
      rewrite H; lra.
Qed.

Lemma min_step_Qmin v m : (min_step v m == Qmin v m)%Q.
Proof.
  unfold min_step. destruct (flt v m) eqn:E.
  - apply flt_true in E. destruct (Q.min_spec v m) as [[? H]|[? H]];
      rewrite H; lra.
  - apply flt_false in E. destruct (Q.min_spec v m) as [[? H]|[? H]];
      rewrite H; lra.
Qed.

(** [list_max m l] is the least upper bound of [m] and the values of [l],
    [list_min m l] their greatest lower bound. *)
Lemma list_max_lub m l z :
  (list_max m l <= z)%Q <-> (m <= z)%Q /\ Forall (fun x => x <= z)%Q l.
Proof.
  induction l as [|x l IH]; simpl.
  - split; [intros H; split; [exact H | constructor] | intros [H _]; exact H].
  - rewrite Q.max_lub_iff, IH. split.
    + intros (Hx & Hm & Hl). split; [exact Hm | constructor; assumption].
    + intros (Hm & Hl). inversion Hl; subst. repeat split; assumption.
Qed.

Lemma list_min_glb m l z :
  (z <= list_min m l)%Q <-> (z <= m)%Q /\ Forall (fun x => z <= x)%Q l.
Proof.
  induction l as [|x l IH]; simpl.
  - split; [intros H; split; [exact H | constructor] | intros [H _]; exact H].
  - rewrite Q.min_glb_iff, IH. split.
    + intros (Hx & Hm & Hl). split; [exact Hm | constructor; assumption].
    + intros (Hm & Hl). inversion Hl; subst. repeat split; assumption.
Qed.

Lemma list_max_seed m m' l : (m == m')%Q -> (list_max m l == list_max m' l)%Q.
Proof.
  intros H. apply Qle_antisym; apply list_max_lub.
  - destruct (proj1 (list_max_lub m' l _) (Qle_refl _)) as [H1 H2].
    split; [rewrite H; exact H1 | exact H2].
  - destruct (proj1 (list_max_lub m l _) (Qle_refl _)) as [H1 H2].
    split; [rewrite <- H; exact H1 | exact H2].
Qed.

Lemma list_min_seed m m' l : (m == m')%Q -> (list_min m l == list_min m' l)%Q.
Proof.
  intros H. apply Qle_antisym; apply list_min_glb.
  - destruct (proj1 (list_min_glb m l _) (Qle_refl _)) as [H1 H2].
    split; [rewrite <- H; exact H1 | exact H2].
  - destruct (proj1 (list_min_glb m' l _) (Qle_refl _)) as [H1 H2].
    split; [rewrite H; exact H1 | exact H2].
Qed.

(** Feeding [v] to the stored maximum first is the same as taking it into
    account last. *)
Lemma list_max_step v m l :
  (list_max (max_step v m) l == list_max m (v :: l))%Q.
Proof.
  apply Qle_antisym; apply list_max_lub.
  - destruct (proj1 (list_max_lub m (v :: l) _) (Qle_refl _)) as [H1 H2].
    inversion H2; subst. split; [|assumption].
    rewrite max_step_Qmax. apply Q.max_lub; assumption.
  - destruct (proj1 (list_max_lub (max_step v m) l _) (Qle_refl _))
      as [H1 H2].
    assert (H1' : (Qmax v m <= list_max (max_step v m) l)%Q)
      by (pose proof (max_step_Qmax v m); lra).
    apply Q.max_lub_iff in H1' as [Hv Hm].
    split; [exact Hm | constructor; assumption].
Qed.

Lemma list_min_step v m l :
  (list_min (min_step v m) l == list_min m (v :: l))%Q.
Proof.
  apply Qle_antisym; apply list_min_glb.
  - destruct (proj1 (list_min_glb (min_step v m) l _) (Qle_refl _))
      as [H1 H2].
    assert (H1' : (list_min (min_step v m) l <= Qmin v m)%Q)
      by (pose proof (min_step_Qmin v m); lra).
    apply Q.min_glb_iff in H1' as [Hv Hm].
    split; [exact Hm | constructor; assumption].
  - destruct (proj1 (list_min_glb m (v :: l) _) (Qle_refl _)) as [H1 H2].
    inversion H2; subst. split; [|assumption].
    rewrite min_step_Qmin. apply Q.min_glb; assumption.
Qed.

(** The stored extremes after a run are those of the stored extremes
    before it and of the values received. *)
Lemma run_updates_extremes i samples : forall g d,
  (i < METRIC_COUNT)%nat ->
  length (max_metrics d) = METRIC_COUNT ->
  length (min_metrics d) = METRIC_COUNT ->
  let d' := snd (run_updates samples g d) in
  (rd (max_metrics d') i
   == list_max (rd (max_metrics d) i) (column i samples))%Q /\
  (rd (min_metrics d') i
   == list_min (rd (min_metrics d) i) (column i samples))%Q.
Proof.
  induction samples as [|s samples IH]; intros g d Hi Hx Hn.
  - simpl. split; reflexivity.
  - rewrite run_updates_cons.
    pose proof (apply_update_metric g d s) as (_ & _ & _ & Hlx & Hln & Hm).
    destruct (Hm i Hi) as (_ & Hmax & Hmin).
    rewrite Hx in Hmax. rewrite Hn in Hmin.
    specialize (Hmax Hi). specialize (Hmin Hi).
    set (g1 := fst (apply_update (g, d) s)) in *.
    set (d1 := snd (apply_update (g, d) s)) in *.
    assert (Hx1 : length (max_metrics d1) = METRIC_COUNT)
      by (rewrite Hlx; exact Hx).
    assert (Hn1 : length (min_metrics d1) = METRIC_COUNT)
      by (rewrite Hln; exact Hn).
    destruct (IH g1 d1 Hi Hx1 Hn1) as [Ha Hb].
    cbv zeta. rewrite Ha, Hb, Hmax, Hmin.
    cbn [column map]. split; [apply list_max_step | apply list_min_step].
Qed.

Lemma rd_replicate n (x : Q) i : (i < n)%nat -> rd (replicate n x) i = x.
Proof.
  intros H. unfold rd. rewrite (lookup_replicate_2 n x i H). reflexivity.
Qed.

(** Once a value at or above the seed has been received, the seed no
    longer shows in the maximum; likewise for the minimum. *)
Lemma list_max_drop_seed m v vs :
  Exists (fun x => m <= x)%Q (v :: vs) ->
  (list_max m (v :: vs) == list_max v vs)%Q.
Proof.
  intros Hex. apply List.Exists_exists in Hex as (x & Hin & Hx).
  destruct (proj1 (list_max_lub v vs _) (Qle_refl _)) as [Hv Hvs].
  destruct (proj1 (list_max_lub m (v :: vs) _) (Qle_refl _)) as [Hm Hall].
  apply Qle_antisym; apply list_max_lub.
  - split; [|constructor; assumption].
    apply Qle_trans with x; [exact Hx|].
    destruct Hin as [<-|Hin]; [exact Hv|].
    rewrite List.Forall_forall in Hvs. apply Hvs, Hin.
  - inversion Hall; subst. split; assumption.
Qed.

Lemma list_min_drop_seed m v vs :
  Exists (fun x => x <= m)%Q (v :: vs) ->
  (list_min m (v :: vs) == list_min v vs)%Q.
Proof.
  intros Hex. apply List.Exists_exists in Hex as (x & Hin & Hx).
  destruct (proj1 (list_min_glb v vs _) (Qle_refl _)) as [Hv Hvs].
  destruct (proj1 (list_min_glb m (v :: vs) _) (Qle_refl _)) as [Hm Hall].
  apply Qle_antisym; apply list_min_glb.
  - inversion Hall; subst. split; assumption.
  - split; [|constructor; assumption].
    apply Qle_trans with x; [|exact Hx].
    destruct Hin as [<-|Hin]; [exact Hv|].
    rewrite List.Forall_forall in Hvs. apply Hvs, Hin.
Qed.

(** For the record [StartDriveMonitoring] creates, the stored maximum of
    a metric is the largest of 0 and the values received, and the stored
    minimum the smallest of 1000 and the values received: 0 and 1000 are
    the values the record starts with. *)
Lemma extremes_from_initial_values p t0 samples g i :
  (i < METRIC_COUNT)%nat ->
  let d' := snd (run_updates samples g (new_drive_data p t0)) in
  (rd (max_metrics d') i == list_max 0 (column i samples))%Q /\
  (rd (min_metrics d') i == list_min 1000 (column i samples))%Q.
Proof.
  intros Hi d'.
  destruct (new_drive_data_fresh p t0) as (_ & _ & Hx & Hn).
  destruct (run_updates_extremes i samples g (new_drive_data p t0) Hi)
    as [Hmax Hmin].
  { rewrite Hx. apply length_replicate. }
  { rewrite Hn. apply length_replicate. }
  fold d' in Hmax, Hmin.
  rewrite Hx, rd_replicate in Hmax by exact Hi.
  rewrite Hn, rd_replicate in Hmin by exact Hi.
  split; assumption.
Qed.

(** C2 (amended): for the record [StartDriveMonitoring] creates and every
    non-empty sequence of updates, the stored maximum of each metric
    equals the maximum of the values received provided one of them is at
    least 0, and the stored minimum equals their minimum provided one of
    them is at most 1000; the record starts from the values 0 and 1000,
    not from its first sample. *)
Theorem min_max_after_updates p t0 s samples g i :
  (i < METRIC_COUNT)%nat ->
  let d' := snd (run_updates (s :: samples) g (new_drive_data p t0)) in
  let v := rd (new_metrics s) i in
  let vs := column i samples in
  (Exists (fun x => 0 <= x)%Q (v :: vs) ->
   (rd (max_metrics d') i == list_max v vs)%Q) /\
  (Exists (fun x => x <= 1000)%Q (v :: vs) ->
   (rd (min_metrics d') i == list_min v vs)%Q).
Proof.
  intros Hi d' v vs.
  destruct (extremes_from_initial_values p t0 (s :: samples) g i Hi)
    as [Hmax Hmin].
  fold d' in Hmax, Hmin. cbn [column map] in Hmax, Hmin.
  fold (column i samples) in Hmax, Hmin. fold v vs in Hmax, Hmin.
  split; intros Hex.
  - rewrite Hmax. apply list_max_drop_seed, Hex.
  - rewrite Hmin. apply list_min_drop_seed, Hex.
Qed.

Lemma min_max_after_updates_witness :
  let d' := snd (run_updates three_samples (run_calls started_engine)
                             (new_drive_data "E:" 0)) in
  (rd (max_metrics d') 0 == 60)%Q /\ (rd (min_metrics d') 0 == 40)%Q.
Proof.
  intros d'.
  assert (Hi : (0 < METRIC_COUNT)%nat) by (vm_compute; lia).
  destruct (min_max_after_updates "E:" 0 (constant_sample 40)
              [constant_sample 50; constant_sample 60]
              (run_calls started_engine) 0%nat Hi) as (Hmax & Hmin).
  split.
  - eapply Qeq_trans; [apply Hmax | vm_compute; reflexivity].
    apply Exists_cons_hd. vm_compute. discriminate.
  - eapply Qeq_trans; [apply Hmin | vm_compute; reflexivity].
    apply Exists_cons_hd. vm_compute. discriminate.
Defined.

(** C2 as stated fails: the first sample does not seed the extremes.
    After a single sample of -5 the stored maximum is the sentinel 0, not
    -5; after a single sample of 2000 the stored minimum is the sentinel
    1000, not 2000. *)
Lemma min_max_sentinel_counterexample :
  let g := run_calls started_engine in
  let low := snd (run_updates [constant_sample (-5)] g
                              (new_drive_data "E:" 0)) in
  let high := snd (run_updates [constant_sample 2000] g
                               (new_drive_data "E:" 0)) in
  ~ (rd (max_metrics low) 0 == list_max (-5) [])%Q /\
  ~ (rd (min_metrics high) 0 == list_min 2000 [])%Q.
Proof.
  intros g low high. split; intros H; vm_compute in H; discriminate.
Qed.

(** The same through the engine: a drive is started, the thread makes one
    pass, and the status query shows the sentinel. *)
Example sentinel_seen_by_status_query :
  (fun d => rd (max_metrics d) 0) <$>
    GetDriveHealthStatus (Some "E:") (run_calls (one_pass_calls (-5)))
  = Some 0%Q /\
  (fun d => rd (min_metrics d) 0) <$>
    GetDriveHealthStatus (Some "E:") (run_calls (one_pass_calls 2000))
  = Some 1000%Q.
Proof. vm_compute. split; reflexivity. Qed.

End MonitorProofs.

(** * Properties of the health predictor *)

Module PredictorProofs.
Import Predictor.

(** C7: when the device has no stored health data ([LoadUSBHealthData]
    fails) or the stored context holds no metrics, [PredictUSBHealth]
    returns TRUE and the prediction is the conservative default: failure
    probability 0.1, 365 days remaining, neither critical nor warning, and
    a recommendation saying that no data is available. *)
Theorem PredictUSBHealth_no_history expf app_data_dir static_sprintf
    read_context network drive_path old :
  LoadUSBHealthData app_data_dir static_sprintf read_context
                    (Some drive_path) = None \/
  (exists context,
     LoadUSBHealthData app_data_dir static_sprintf read_context
                       (Some drive_path) = Some context /\
     metrics_count context = 0) ->
  exists text,
    PredictUSBHealth expf app_data_dir static_sprintf read_context network
                     (Some drive_path) (Some old)
    = (Some (mk_prediction (1 # 10) 365 HEALTH_ALGO_NEURAL_NETWORK text
                           false false), true) /\
    (text = "No historical data available. Drive appears healthy."%string \/
     text = "No metrics available. Drive appears healthy."%string).
Proof.
  intros [Hnone | (context & Hsome & Hzero)]; unfold PredictUSBHealth.
  - rewrite Hnone. eexists. split; [reflexivity|]. left. reflexivity.
  - rewrite Hsome, Hzero. eexists. split; [reflexivity|]. right. reflexivity.
Qed.

Lemma PredictUSBHealth_no_history_witness :
  let expf := fun _ : Q => 1%Q in
  let no_file := fun _ : string => @None usb_health_context_t in
  let network := mk_network [] [] 3 [8; 16; 1] in
  let old := mk_prediction 0 0 HEALTH_ALGO_SVM "" true true in
  exists text,
    PredictUSBHealth expf "C:\data" (fun _ s => s) no_file network
                     (Some "E:"%string) (Some old)
    = (Some (mk_prediction (1 # 10) 365 HEALTH_ALGO_NEURAL_NETWORK text
                           false false), true) /\
    (text = "No historical data available. Drive appears healthy."%string \/
     text = "No metrics available. Drive appears healthy."%string).
Proof.
  intros expf no_file network old.
  apply (PredictUSBHealth_no_history expf "C:\data" (fun _ s => s) no_file
           network "E:" old).
  left. reflexivity.
Defined.

(** C8: for the sample with no errors, no retries, no bad sectors, 1000
    writes, average write and read speeds 25 and 20 and 500 hours of use,
    whatever its other fields, the health score is 1 and the estimate is
    730 days. *)
Theorem healthy_sample_score reads temperature cycles time :
  let m := mk_metrics 1000 reads 0 0 0 25 20 temperature cycles 500 time in
  (CalculateHealthScore (Some m) == 1)%Q /\
  EstimateDaysRemaining (Some m) = 730.
Proof. split; vm_compute; reflexivity. Qed.

End PredictorProofs.

(** * Further properties of the monitoring engine *)

Module MonitorExtras.
Import Monitor FloatProofs MonitorProofs.

#[local] Arguments CreateAlert : simpl never.
#[local] Arguments check_metric : simpl never.
#[local] Arguments update_metric : simpl never.
#[local] Arguments UpdateDriveMetrics : simpl never.
#[local] Arguments visit_drive : simpl never.
#[local] Arguments new_drive_data : simpl never.
#[local] Arguments apply_update : simpl never.
#[local] Arguments run_updates : simpl never.

(** ** Life cycle *)

Lemma check_metrics_uninitialized alert_time l g d :
  g_monitor_initialized g = false ->
  fst (fold_left (check_metric alert_time) l (g, d)) = g.
Proof.
  intros Hi. revert d. induction l as [|i l IH]; intros d; [reflexivity|].
  cbn [fold_left]. unfold check_metric at 2.
  destruct (metric_severity g (metric_of_index i) (rd (current_metrics d) i));
    unfold CreateAlert; rewrite ?Hi; cbn [negb fst]; apply IH.
Qed.

(** X1: while the engine is not initialised, every entry point other than
    [InitRealTimeMonitor] fails or answers "no", and none of them changes
    the engine state; [UpdateDriveMetrics] can raise no alert. *)
Theorem uninitialized_engine_rejects_calls g :
  g_monitor_initialized g = false ->
  (forall p now thread, StartDriveMonitoring p now thread g = (g, false)) /\
  (forall p, StopDriveMonitoring p g = (g, false)) /\
  (forall p, IsDriveBeingMonitored p g = false) /\
  (forall p, GetDriveHealthStatus p g = None) /\
  GetMonitoringAlerts g = None /\
  (forall i, AcknowledgeAlert i g = (g, false)) /\
  ClearAllAlerts g = (g, false) /\
  (forall p m v t msg crit now,
     CreateAlert p m v t msg crit now g = (g, false)) /\
  (forall p d new now alert_time,
     fst (fst (UpdateDriveMetrics p d new now alert_time g)) = g) /\
  CleanupRealTimeMonitor g = g.
Proof.
  intros Hi. repeat split; intros.
  - unfold StartDriveMonitoring. rewrite Hi. reflexivity.
  - unfold StopDriveMonitoring. rewrite Hi. reflexivity.
  - unfold IsDriveBeingMonitored. rewrite Hi. destruct p; reflexivity.
  - unfold GetDriveHealthStatus. rewrite Hi. destruct p; reflexivity.
  - unfold GetMonitoringAlerts. rewrite Hi. reflexivity.
  - unfold AcknowledgeAlert. rewrite Hi. reflexivity.
  - unfold ClearAllAlerts. rewrite Hi. reflexivity.
  - unfold CreateAlert. rewrite Hi. destruct p, msg; reflexivity.
  - unfold UpdateDriveMetrics, CheckForAlerts.
    destruct p as [p|], d as [d|]; try reflexivity.
    match goal with
    | |- context [fold_left (check_metric ?a) ?l (g, ?d2)] =>
        pose proof (check_metrics_uninitialized a l g d2 Hi) as H;
        destruct (fold_left (check_metric a) l (g, d2)) as [g' d']
    end.
    exact H.
  - unfold CleanupRealTimeMonitor. rewrite Hi. reflexivity.
Qed.

Lemma uninitialized_engine_rejects_calls_witness :
  let g := CleanupRealTimeMonitor (run_calls full_log_calls) in
  g_monitor_initialized g = false /\
  StartDriveMonitoring (Some "E:") 0 2 g = (g, false) /\
  ClearAllAlerts g = (g, false).
Proof.
  intros g.
  assert (Hi : g_monitor_initialized g = false) by reflexivity.
  destruct (uninitialized_engine_rejects_calls g Hi)
    as (Hstart & _ & _ & _ & _ & _ & Hclear & _).
  split; [exact Hi|]. split; [apply Hstart | exact Hclear].
Defined.

(** X2: a second [InitRealTimeMonitor] does not reconfigure a running
    engine, whereas cleanup followed by a successful initialisation gives
    an engine with the new configuration (the default one for a null
    pointer) whose registry and alert log are empty: records and alerts do
    not survive the cycle. *)
Theorem InitRealTimeMonitor_life_cycle config now event g :
  g_monitor_initialized g = true ->
  event <> 0 ->
  InitRealTimeMonitor config now event g = (g, true) /\
  let r := InitRealTimeMonitor config now event (CleanupRealTimeMonitor g) in
  let g' := fst r in
  snd r = true /\
  g_monitor_initialized g' = true /\
  g_monitor_config g' = default default_config config /\
  g_monitor_context g'
    = mk_context (drives zero_context) (alerts zero_context) 0 0 false 0
                 event now 0 /\
  GetMonitoringAlerts g' = Some ([], 0) /\
  (forall p, IsDriveBeingMonitored p g' = false) /\
  (forall p, GetDriveHealthStatus p g' = None).
Proof.
  intros Hi He. split.
  - unfold InitRealTimeMonitor. rewrite Hi. reflexivity.
  - unfold CleanupRealTimeMonitor. rewrite Hi.
    unfold InitRealTimeMonitor. cbn [g_monitor_initialized].
    apply Z.eqb_neq in He. rewrite He. cbn [fst snd].
    repeat split; try (destruct config; reflexivity).
    + intros [p|]; reflexivity.
    + intros [p|]; reflexivity.
Qed.

Lemma InitRealTimeMonitor_life_cycle_witness :
  let g := run_calls full_log_calls in
  InitRealTimeMonitor (Some lowered_critical_config) 7 3 g = (g, true) /\
  GetMonitoringAlerts
    (fst (InitRealTimeMonitor (Some lowered_critical_config) 7 3
            (CleanupRealTimeMonitor g))) = Some ([], 0).
Proof.
  intros g.
  assert (Hi : g_monitor_initialized g = true) by (vm_compute; reflexivity).
  assert (He : 3 <> 0) by discriminate.
  destruct (InitRealTimeMonitor_life_cycle (Some lowered_critical_config)
              7 3 g Hi He) as (H1 & _ & _ & _ & _ & H2 & _).
  split; [exact H1 | exact H2].
Defined.

(** X3: on every state the engine can reach, the registry holds at most
    [MONITOR_MAX_DRIVES] = 16 records and the alert log at most 144
    alerts, both arrays keep their size, and an engine that is not
    initialised holds no record and no alert. *)
Theorem reachable_within_capacity g :
  reachable g ->
  0 <= drive_count (g_monitor_context g) <= 16 /\
  0 <= alert_count (g_monitor_context g) <= 144 /\
  length (drives (g_monitor_context g)) = 16%nat /\
  length (alerts (g_monitor_context g)) = 144%nat /\
  (g_monitor_initialized g = false ->
   drive_count (g_monitor_context g) = 0 /\
   alert_count (g_monitor_context g) = 0).
Proof.
  intros Hr. apply reachable_inv in Hr.
  destruct Hr as [Hd Ha Hdc Hac Hu]. capacities.
  repeat split; try lia; try assumption; apply Hu; assumption.
Qed.

Lemma reachable_within_capacity_witness :
  let g := run_calls (full_log_calls ++ [constant_pass 1000]) in
  reachable g /\ 0 <= alert_count (g_monitor_context g) <= 144.
Proof.
  intros g.
  assert (Hr : reachable g) by apply run_calls_reachable.
  destruct (reachable_within_capacity g Hr) as (_ & Hle & _).
  split; [exact Hr | exact Hle].
Defined.

(** ** The registry: search *)

Lemma find_drive_from_first ds p i n j d :
  (i <= j < i + n)%nat ->
  ds !! j = Some d ->
  drive_path d = p ->
  (forall k dk, (i <= k < j)%nat -> ds !! k = Some dk ->
                drive_path dk <> p) ->
  find_drive_from ds p i n = Some (j, d).
Proof.
  revert i. induction n as [|n IH]; intros i Hj Hd Hp Hmin; [lia|].
  cbn [find_drive_from].
  destruct (Nat.eq_dec i j) as [->|Hne].
  - rewrite Hd. unfold strcmp_eq. rewrite Hp, String.eqb_refl. reflexivity.
  - assert (His : is_Some (ds !! i)).
    { apply lookup_lt_is_Some_2. apply lookup_lt_Some in Hd. lia. }
    destruct His as [di Hi]. rewrite Hi.
    destruct (strcmp_eq (drive_path di) p) eqn:Hc.
    + apply String.eqb_eq in Hc. exfalso. apply (Hmin i di); auto; lia.
    + apply IH; auto; [lia|]. intros k dk Hk. apply Hmin. lia.
Qed.

Lemma find_drive_from_min ds p i n j d :
  find_drive_from ds p i n = Some (j, d) ->
  forall k dk, (i <= k < j)%nat -> ds !! k = Some dk -> drive_path dk <> p.
Proof.
  revert i. induction n as [|n IH]; intros i H; [discriminate|].
  cbn [find_drive_from] in H.
  destruct (ds !! i) as [di|] eqn:Hi; [|discriminate].
  destruct (strcmp_eq (drive_path di) p) eqn:Hc.
  - inversion H; subst. intros; lia.
  - intros k dk Hk Hdk. destruct (Nat.eq_dec k i) as [->|Hne].
    + rewrite Hi in Hdk. inversion Hdk; subst.
      intros Heq. unfold strcmp_eq in Hc. rewrite Heq, String.eqb_refl in Hc.
      discriminate.
    + apply (IH (S i) H k dk); [lia | exact Hdk].
Qed.

(** The search sees a rewriting of the records that keeps their
    identifiers as a rewriting of its result. *)
Lemma find_drive_from_pointwise (f : nat -> drive_monitor_data_t ->
                                     drive_monitor_data_t) ds ds' p i n :
  (forall k d, drive_path (f k d) = drive_path d) ->
  (forall k, (i <= k < i + n)%nat -> ds' !! k = f k <$> ds !! k) ->
  find_drive_from ds' p i n
  = (fun jd => (fst jd, f (fst jd) (snd jd))) <$> find_drive_from ds p i n.
Proof.
  intros Hf. revert i. induction n as [|n IH]; intros i H; [reflexivity|].
  cbn [find_drive_from]. rewrite (H i) by lia.
  destruct (ds !! i) as [di|]; [|reflexivity]. cbn [fmap option_fmap option_map].
  rewrite Hf. destruct (strcmp_eq (drive_path di) p); [reflexivity|].
  apply IH. intros k Hk. apply H. lia.
Qed.

(** A record put right after the searched range is not seen when its
    identifier differs. *)
Lemma find_drive_from_snoc_miss ds ds' q d i n :
  (forall k, (i <= k < i + n)%nat -> ds' !! k = ds !! k) ->
  ds' !! (i + n)%nat = Some d ->
  drive_path d <> q ->
  find_drive_from ds' q i (S n) = find_drive_from ds q i n.
Proof.
  revert i. induction n as [|n IH]; intros i Hag Hd Hq.
  - cbn [find_drive_from]. rewrite Nat.add_0_r in Hd. rewrite Hd.
    destruct (strcmp_eq (drive_path d) q) eqn:Hc; [|reflexivity].
    apply String.eqb_eq in Hc. contradiction.
  - change (find_drive_from ds' q i (S (S n)))
      with (match ds' !! i with
            | Some d0 => if strcmp_eq (drive_path d0) q then Some (i, d0)
                         else find_drive_from ds' q (S i) (S n)
            | None => None
            end).
    cbn [find_drive_from]. rewrite (Hag i) by lia.
    destruct (ds !! i) as [di|]; [|reflexivity].
    destruct (strcmp_eq (drive_path di) q); [reflexivity|].
    apply IH; [|rewrite <- Hd; f_equal; lia | exact Hq].
    intros k Hk. apply Hag. lia.
Qed.

Lemma find_drive_from_complete ds p i n j d :
  (i <= j < i + n)%nat ->
  ds !! j = Some d ->
  drive_path d = p ->
  exists j' d', find_drive_from ds p i n = Some (j', d').
Proof.
  revert i. induction n as [|n IH]; intros i Hj Hd Hp; [lia|].
  cbn [find_drive_from].
  assert (His : is_Some (ds !! i)).
  { apply lookup_lt_is_Some_2. apply lookup_lt_Some in Hd. lia. }
  destruct His as [di Hi]. rewrite Hi.
  destruct (strcmp_eq (drive_path di) p) eqn:Hc; [eauto|].
  apply IH; auto.
  destruct (Nat.eq_dec i j) as [->|Hne]; [|lia].
  rewrite Hd in Hi. inversion Hi; subst.
  unfold strcmp_eq in Hc. rewrite String.eqb_refl in Hc. discriminate.
Qed.

Lemma find_drive_complete g p :
  in_registry p g ->
  exists i d, find_drive (g_monitor_context g) p = Some (i, d).
Proof.
  intros (j & d & Hj & Hd & Hp).
  apply (find_drive_from_complete _ _ _ _ j d); auto. lia.
Qed.

(** ** The registry: starting a drive *)

Lemma substring_short n s :
  (String.length s <= n)%nat -> substring 0 n s = s.
Proof.
  revert n. induction s as [|c s IH]; intros n H.
  - destruct n; reflexivity.
  - destruct n; simpl in *; [lia|]. rewrite IH by lia. reflexivity.
Qed.

Lemma substring_length n s : (String.length (substring 0 n s) <= n)%nat.
Proof.
  revert n. induction s as [|c s IH]; intros n.
  - destruct n; simpl; lia.
  - destruct n; simpl; [lia|]. specialize (IH n). lia.
Qed.

Lemma new_drive_data_fields p t0 :
  drive_path (new_drive_data p t0) = strncpy (MAX_PATH - 1) p /\
  drive_name (new_drive_data p t0) = strncpy 63 p /\
  is_monitoring (new_drive_data p t0) = true /\
  is_healthy (new_drive_data p t0) = true /\
  last_update (new_drive_data p t0) = t0 /\
  error_count (new_drive_data p t0) = 0 /\
  warning_count (new_drive_data p t0) = 0.
Proof. repeat split. Qed.

(** The state after [StartDriveMonitoring] has taken a free slot. *)
Lemma StartDriveMonitoring_takes_slot p now thread g :
  g_monitor_initialized g = true ->
  IsDriveBeingMonitored (Some p) g = false ->
  0 <= drive_count (g_monitor_context g) < MONITOR_MAX_DRIVES ->
  let c := g_monitor_context g in
  let started := ctx_is_monitoring c || negb (thread =? 0) in
  StartDriveMonitoring (Some p) now thread g
  = (with_context
       (set_thread started
          (if ctx_is_monitoring c then monitor_thread c else thread)
          (set_drives
             (<[Z.to_nat (drive_count c) := new_drive_data p now]> (drives c))
             (drive_count c + 1) c)) g, started).
Proof.
  intros Hi Hm Hc c started. subst c started. unfold StartDriveMonitoring.
  rewrite Hi, Hm. cbn [negb].
  replace (MONITOR_MAX_DRIVES <=? drive_count (g_monitor_context g))
    with false by (symmetry; apply Z.leb_gt; lia).
  rewrite uint32_t_wrap_small by (capacities; lia).
  cbn [ctx_is_monitoring set_drives].
  destruct (ctx_is_monitoring (g_monitor_context g)) eqn:Hrun;
    cbn [negb orb].
  - unfold set_thread, set_drives. cbn. rewrite Hrun. reflexivity.
  - destruct (thread =? 0); reflexivity.
Qed.

(** The effect of a start that takes a free slot. *)
Lemma StartDriveMonitoring_new_drive_effect p now thread g :
  engine_inv g ->
  g_monitor_initialized g = true ->
  ~ in_registry p g ->
  drive_count (g_monitor_context g) < MONITOR_MAX_DRIVES ->
  (String.length p <= MAX_PATH - 1)%nat ->
  let c := g_monitor_context g in
  let r := StartDriveMonitoring (Some p) now thread g in
  let g' := fst r in
  snd r = ctx_is_monitoring c || negb (thread =? 0) /\
  drive_count (g_monitor_context g') = drive_count c + 1 /\
  IsDriveBeingMonitored (Some p) g' = true /\
  GetDriveHealthStatus (Some p) g' = Some (new_drive_data p now) /\
  drive_path (new_drive_data p now) = p /\
  (forall q, q <> p ->
     GetDriveHealthStatus (Some q) g' = GetDriveHealthStatus (Some q) g /\
     IsDriveBeingMonitored (Some q) g' = IsDriveBeingMonitored (Some q) g) /\
  GetMonitoringAlerts g' = GetMonitoringAlerts g.
Proof.
  intros Hinv Hi Hnew Hfree Hlen c r g'.
  destruct Hinv as [Hd Ha Hdc Hac Hu].
  pose proof (IsDriveBeingMonitored_not_in_registry g p Hnew) as Hm.
  assert (Hr : r = _) by
    (apply (StartDriveMonitoring_takes_slot p now thread g Hi Hm); lia).
  cbv zeta in Hr. subst c.
  remember (g_monitor_context g) as c eqn:Ec.
  assert (Hpath : drive_path (new_drive_data p now) = p)
    by (apply substring_short, Hlen).
  remember (Z.to_nat (drive_count c)) as n eqn:En.
  assert (Hn : (n < length (drives c))%nat)
    by (rewrite Hd; capacities; lia).
  assert (Hcount : Z.to_nat (drive_count c + 1) = S n) by lia.
  assert (Hfind : forall q,
            find_drive (g_monitor_context g') q
            = if String.eqb q p then Some (n, new_drive_data p now)
              else find_drive c q).
  { intros q. unfold g'. rewrite Hr. unfold find_drive.
    cbn [fst g_monitor_context with_context set_thread set_drives drives
         drive_count]. rewrite Hcount, <- ?En.
    destruct (String.eqb q p) eqn:Hq.
    - apply String.eqb_eq in Hq. subst q.
      apply find_drive_from_first; [lia | | exact Hpath |].
      + apply list_lookup_insert_eq, Hn.
      + intros k dk Hk Hdk Hp. apply Hnew. exists k, dk.
        rewrite list_lookup_insert_ne in Hdk by lia.
        rewrite <- Ec, <- En. repeat split; auto. lia.
    - apply (find_drive_from_snoc_miss _ _ _ (new_drive_data p now)).
      + intros k Hk. apply list_lookup_insert_ne. lia.
      + apply list_lookup_insert_eq, Hn.
      + rewrite Hpath. intros ->. rewrite String.eqb_refl in Hq.
        discriminate. }
  assert (Hi' : g_monitor_initialized g' = true)
    by (unfold g'; rewrite Hr; exact Hi).
  split; [rewrite Hr; reflexivity|].
  split; [unfold g'; rewrite Hr; reflexivity|].
  split.
  { unfold IsDriveBeingMonitored. rewrite Hi', Hfind, String.eqb_refl.
    reflexivity. }
  split.
  { unfold GetDriveHealthStatus. rewrite Hi', Hfind, String.eqb_refl.
    reflexivity. }
  split; [exact Hpath|]. split.
  - intros q Hq. unfold GetDriveHealthStatus, IsDriveBeingMonitored.
    rewrite Hi', Hi, Hfind.
    replace (String.eqb q p) with false
      by (symmetry; apply String.eqb_neq; exact Hq).
    rewrite <- Ec. split; reflexivity.
  - unfold GetMonitoringAlerts. rewrite Hi', Hi. unfold g'. rewrite Hr.
    rewrite <- Ec. reflexivity.
Qed.

(** X4: starting a drive whose identifier is not in the registry, fits
    the identifier buffer and finds a free slot adds exactly one record,
    in the initial state [StartDriveMonitoring] gives every record;
    afterwards the drive is reported as monitored, its status is that
    record, and the status of every other identifier and the alert log
    are as before.  The call returns TRUE unless it had to create the
    thread and [CreateThread] failed. *)
Theorem StartDriveMonitoring_new_drive p now thread g :
  engine_inv g ->
  g_monitor_initialized g = true ->
  ~ in_registry p g ->
  drive_count (g_monitor_context g) < MONITOR_MAX_DRIVES ->
  (String.length p <= MAX_PATH - 1)%nat ->
  let c := g_monitor_context g in
  let r := StartDriveMonitoring (Some p) now thread g in
  let g' := fst r in
  snd r = ctx_is_monitoring c || negb (thread =? 0) /\
  drive_count (g_monitor_context g') = drive_count c + 1 /\
  IsDriveBeingMonitored (Some p) g' = true /\
  GetDriveHealthStatus (Some p) g' = Some (new_drive_data p now) /\
  drive_path (new_drive_data p now) = p /\
  (forall q, q <> p ->
     GetDriveHealthStatus (Some q) g' = GetDriveHealthStatus (Some q) g /\
     IsDriveBeingMonitored (Some q) g' = IsDriveBeingMonitored (Some q) g) /\
  GetMonitoringAlerts g' = GetMonitoringAlerts g.
Proof. exact (StartDriveMonitoring_new_drive_effect p now thread g). Qed.

Lemma StartDriveMonitoring_new_drive_witness :
  let g := run_calls stopped_drive_calls in
  let r := StartDriveMonitoring (Some "F:") 30 2 g in
  snd r = true /\
  drive_count (g_monitor_context (fst r)) = 2 /\
  IsDriveBeingMonitored (Some "F:") (fst r) = true /\
  GetDriveHealthStatus (Some "E:") (fst r)
    = GetDriveHealthStatus (Some "E:") g.
Proof.
  intros g r.
  assert (Hinv : engine_inv g) by apply reachable_inv, run_calls_reachable.
  assert (Hi : g_monitor_initialized g = true) by (vm_compute; reflexivity).
  assert (Hnew : ~ in_registry "F:" g)
    by (apply not_in_registry_check; vm_compute; reflexivity).
  assert (Hfree : drive_count (g_monitor_context g) < MONITOR_MAX_DRIVES)
    by (vm_compute; reflexivity).
  assert (Hlen : (String.length "F:" <= MAX_PATH - 1)%nat)
    by (vm_compute; lia).
  destruct (StartDriveMonitoring_new_drive "F:" 30 2 g Hinv Hi Hnew Hfree
              Hlen) as (H1 & H2 & H3 & _ & _ & H4 & _).
  split; [exact H1|]. split; [exact H2|]. split; [exact H3|].
  apply (H4 "E:"%string). discriminate.
Defined.

(** X5: when [StartDriveMonitoring] has to create the monitoring thread
    and [CreateThread] fails, the call returns FALSE although the record
    has already been added: the registry count has gone up, the drive is
    reported as monitored and the engine is left without a thread. *)
Theorem StartDriveMonitoring_thread_failure p now g :
  engine_inv g ->
  g_monitor_initialized g = true ->
  ~ in_registry p g ->
  drive_count (g_monitor_context g) < MONITOR_MAX_DRIVES ->
  (String.length p <= MAX_PATH - 1)%nat ->
  ctx_is_monitoring (g_monitor_context g) = false ->
  let r := StartDriveMonitoring (Some p) now 0 g in
  snd r = false /\
  drive_count (g_monitor_context (fst r))
    = drive_count (g_monitor_context g) + 1 /\
  IsDriveBeingMonitored (Some p) (fst r) = true /\
  ctx_is_monitoring (g_monitor_context (fst r)) = false.
Proof.
  intros Hinv Hi Hnew Hfree Hlen Hrun r.
  destruct (StartDriveMonitoring_new_drive_effect p now 0 g Hinv Hi Hnew
              Hfree Hlen) as (H1 & H2 & H3 & _).
  fold r in H1, H2, H3. rewrite Hrun in H1.
  split; [exact H1|]. split; [exact H2|]. split; [exact H3|].
  pose proof (IsDriveBeingMonitored_not_in_registry g p Hnew) as Hm.
  destruct Hinv as [_ _ Hdc _ _].
  unfold r.
  rewrite (StartDriveMonitoring_takes_slot p now 0 g Hi Hm) by lia.
  cbn [fst g_monitor_context with_context set_thread ctx_is_monitoring].
  rewrite Hrun. reflexivity.
Qed.

Lemma StartDriveMonitoring_thread_failure_witness :
  let g := run_calls started_engine in
  let r := StartDriveMonitoring (Some "E:") 30 0 g in
  snd r = false /\
  drive_count (g_monitor_context (fst r)) = 1 /\
  IsDriveBeingMonitored (Some "E:") (fst r) = true.
Proof.
  intros g r.
  assert (Hinv : engine_inv g) by apply reachable_inv, run_calls_reachable.
  assert (Hi : g_monitor_initialized g = true) by (vm_compute; reflexivity).
  assert (Hnew : ~ in_registry "E:" g)
    by (apply not_in_registry_check; vm_compute; reflexivity).
  assert (Hfree : drive_count (g_monitor_context g) < MONITOR_MAX_DRIVES)
    by (vm_compute; reflexivity).
  assert (Hlen : (String.length "E:" <= MAX_PATH - 1)%nat)
    by (vm_compute; lia).
  assert (Hrun : ctx_is_monitoring (g_monitor_context g) = false)
    by (vm_compute; reflexivity).
  destruct (StartDriveMonitoring_thread_failure "E:" 30 g Hinv Hi Hnew
              Hfree Hlen Hrun) as (H1 & H2 & H3 & _).
  split; [exact H1|]. split; [exact H2 | exact H3].
Defined.

(** ** The registry: stopping and restarting *)

Lemma alter_fold_lookup (f : drive_monitor_data_t -> drive_monitor_data_t)
    n a (ds : list drive_monitor_data_t) k :
  fold_left (fun ds i => alter f i ds) (seq a n) ds !! k
  = (if (a <=? k)%nat && (k <? a + n)%nat then f else id) <$> ds !! k.
Proof.
  revert a ds. induction n as [|n IH]; intros a ds; cbn [seq fold_left].
  - replace ((a <=? k)%nat && (k <? a + 0)%nat) with false.
    + destruct (ds !! k); reflexivity.
    + symmetry. apply andb_false_iff.
      destruct (Nat.lt_ge_cases k a);
        [left; apply Nat.leb_gt | right; apply Nat.ltb_ge]; lia.
  - rewrite IH. rewrite list_lookup_alter.
    destruct (decide (a = k)) as [->|Hne].
    + replace (S k <=? k)%nat with false
        by (symmetry; apply Nat.leb_gt; lia).
      replace (k <=? k)%nat with true by (symmetry; apply Nat.leb_le; lia).
      replace (k <? k + S n)%nat with true
        by (symmetry; apply Nat.ltb_lt; lia).
      cbn. destruct (ds !! k); reflexivity.
    + replace (k <? S a + n)%nat with (k <? a + S n)%nat by (f_equal; lia).
      replace (S a <=? k)%nat with (a <=? k)%nat; [reflexivity|].
      destruct (a <=? k)%nat eqn:E1; symmetry.
      * apply Nat.leb_le in E1. apply Nat.leb_le. lia.
      * apply Nat.leb_gt in E1. apply Nat.leb_gt. lia.
Qed.

(** The search after every record of the registry got its activity flag
    set to [b]. *)
Lemma find_drive_set_all b c q :
  find_drive_from (set_all_monitoring b c) q 0 (Z.to_nat (drive_count c))
  = (fun jd => (fst jd, set_is_monitoring b (snd jd))) <$> find_drive c q.
Proof.
  unfold find_drive.
  apply (find_drive_from_pointwise (fun _ => set_is_monitoring b));
    [reflexivity|].
  intros k Hk. unfold set_all_monitoring. rewrite alter_fold_lookup.
  replace ((0 <=? k)%nat && (k <? 0 + Z.to_nat (drive_count c))%nat)
    with true; [reflexivity|].
  symmetry. apply andb_true_intro.
  split; [apply Nat.leb_le | apply Nat.ltb_lt]; lia.
Qed.





(** X8: [StartDriveMonitoring(NULL)] returns TRUE and sets the activity
    flag of every record, so exactly the identifiers in the registry are
    reported as monitored; it never creates the thread: the running flag
    and the thread handle are as before, and when the thread has been
    stopped a pass of its loop still does nothing. *)
Theorem StartDriveMonitoring_all now thread g :
  g_monitor_initialized g = true ->
  let r := StartDriveMonitoring None now thread g in
  let g' := fst r in
  snd r = true /\
  (forall q, IsDriveBeingMonitored (Some q) g' = true <-> in_registry q g) /\
  (forall q, GetDriveHealthStatus (Some q) g'
             = set_is_monitoring true <$> GetDriveHealthStatus (Some q) g) /\
  ctx_is_monitoring (g_monitor_context g')
    = ctx_is_monitoring (g_monitor_context g) /\
  monitor_thread (g_monitor_context g')
    = monitor_thread (g_monitor_context g) /\
  drive_count (g_monitor_context g') = drive_count (g_monitor_context g) /\
  (ctx_is_monitoring (g_monitor_context g) = false ->
   forall samples now alert_time,
     run_call (Thread_pass samples now alert_time) g' = g').
Proof.
  intros Hi r g'.
  assert (Hr : r = (with_context
                      (set_drives
                         (set_all_monitoring true (g_monitor_context g))
                         (drive_count (g_monitor_context g))
                         (g_monitor_context g)) g, true)).
  { unfold r, StartDriveMonitoring. rewrite Hi. reflexivity. }
  assert (Hi' : g_monitor_initialized g' = true)
    by (unfold g'; rewrite Hr; exact Hi).
  assert (Hfind : forall q,
            find_drive (g_monitor_context g') q
            = (fun jd => (fst jd, set_is_monitoring true (snd jd)))
                <$> find_drive (g_monitor_context g) q).
  { intros q. unfold g'. rewrite Hr. unfold find_drive at 1.
    cbn [fst g_monitor_context with_context set_drives drives drive_count].
    apply find_drive_set_all. }
  split; [rewrite Hr; reflexivity|]. split.
  { intros q. unfold IsDriveBeingMonitored. rewrite Hi', Hfind. split.
    - intros H.
      destruct (find_drive (g_monitor_context g) q) as [[j d]|] eqn:Hq;
        [|discriminate].
      eapply find_drive_in_registry, Hq.
    - intros Hin. destruct (find_drive_complete g q Hin) as (j & d & ->).
      reflexivity. }
  split.
  { intros q. unfold GetDriveHealthStatus. rewrite Hi', Hi, Hfind.
    destruct (find_drive (g_monitor_context g) q) as [[j d]|]; reflexivity. }
  split; [unfold g'; rewrite Hr; reflexivity|].
  split; [unfold g'; rewrite Hr; reflexivity|].
  split; [unfold g'; rewrite Hr; reflexivity|].
  intros Hrun samples now' alert_time. cbn [run_call].
  unfold g' at 1. rewrite Hr.
  cbn [fst g_monitor_context with_context set_drives ctx_is_monitoring].
  rewrite Hrun. reflexivity.
Qed.

Lemma StartDriveMonitoring_all_witness :
  let g := fst (StopDriveMonitoring None (run_calls full_registry_calls)) in
  let g' := fst (StartDriveMonitoring None 0 2 g) in
  ctx_is_monitoring (g_monitor_context g') = false /\
  run_call (constant_pass 1000) g' = g'.
Proof.
  intros g g'.
  assert (Hi : g_monitor_initialized g = true) by (vm_compute; reflexivity).
  assert (Hrun : ctx_is_monitoring (g_monitor_context g) = false)
    by (vm_compute; reflexivity).
  destruct (StartDriveMonitoring_all 0 2 g Hi)
    as (_ & _ & _ & H1 & _ & _ & H2).
  split; [rewrite <- Hrun; exact H1 | apply H2, Hrun].
Defined.

(** ** The alert log *)

(** X9: while the log has room, [CreateAlert] with non-null arguments
    returns TRUE and appends one alert at the end of the log: the alerts
    already there are kept in order, the new one carries the arguments
    (identifier and message cut to their buffers) and is not
    acknowledged, and the registry is untouched. *)
Theorem CreateAlert_appends p m v t msg crit now g :
  engine_inv g ->
  g_monitor_initialized g = true ->
  alert_count (g_monitor_context g) < ALERT_CAPACITY ->
  let c := g_monitor_context g in
  let r := CreateAlert (Some p) m v t (Some msg) crit now g in
  let alert := mk_alert (strncpy (MAX_PATH - 1) p) m v t
                        (strncpy (256 - 1) msg) now crit false in
  let log := take (Z.to_nat (alert_count c)) (alerts c) in
  snd r = true /\
  GetMonitoringAlerts g = Some (log, alert_count c) /\
  GetMonitoringAlerts (fst r) = Some (log ++ [alert], alert_count c + 1) /\
  drives (g_monitor_context (fst r)) = drives c /\
  drive_count (g_monitor_context (fst r)) = drive_count c.
Proof.
  intros Hinv Hi Hroom c r alert log. destruct Hinv as [Hd Ha Hdc Hac Hu].
  assert (Hr : r = (with_context
                      (set_alerts
                         (<[Z.to_nat (alert_count (g_monitor_context g))
                            := alert]> (alerts (g_monitor_context g)))
                         (alert_count (g_monitor_context g) + 1)
                         (g_monitor_context g)) g, true)).
  { unfold r, CreateAlert. rewrite Hi. cbn [negb].
    replace (ALERT_CAPACITY <=? alert_count (g_monitor_context g))
      with false by (symmetry; apply Z.leb_gt; lia).
    rewrite uint32_t_wrap_small by (capacities; lia). reflexivity. }
  split; [rewrite Hr; reflexivity|].
  split; [unfold GetMonitoringAlerts; rewrite Hi; reflexivity|].
  split; [|rewrite Hr; split; reflexivity].
  unfold GetMonitoringAlerts. rewrite Hr.
  cbn [fst g_monitor_initialized g_monitor_context with_context set_alerts
       alerts alert_count]. rewrite Hi. cbn [negb]. do 2 f_equal.
  replace (Z.to_nat (alert_count (g_monitor_context g) + 1))
    with (S (Z.to_nat (alert_count (g_monitor_context g)))) by lia.
  erewrite take_S_r.
  - rewrite take_insert_ge by lia. reflexivity.
  - apply list_lookup_insert_eq. rewrite Ha. capacities. lia.
Qed.

Lemma CreateAlert_appends_witness :
  let g := run_calls (one_pass_calls 1000) in
  let r := CreateAlert (Some "F:") MONITOR_METRIC_VIBRATION 4 3
                       (Some "Critical threshold exceeded") true 9 g in
  snd r = true /\
  alert_message <$> (fst <$> GetMonitoringAlerts (fst r)) ≫= last
  = Some "Critical threshold exceeded"%string.
Proof.
  intros g r.
  assert (Hinv : engine_inv g) by apply reachable_inv, run_calls_reachable.
  assert (Hi : g_monitor_initialized g = true) by (vm_compute; reflexivity).
  assert (Hroom : alert_count (g_monitor_context g) < ALERT_CAPACITY)
    by (vm_compute; reflexivity).
  destruct (CreateAlert_appends "F:" MONITOR_METRIC_VIBRATION 4 3
              "Critical threshold exceeded" true 9 g Hinv Hi Hroom)
    as (H1 & _ & H2 & _).
  split; [exact H1|]. fold r in H2. rewrite H2.
  cbn [fmap option_fmap option_map fst mbind option_bind].
  rewrite last_snoc. reflexivity.
Defined.

(** X10: [ClearAllAlerts] on an initialised engine returns TRUE, empties
    the log and leaves the registry alone; whatever the log held before,
    even when it was full, the next [CreateAlert] succeeds and its alert
    is the only one in the log. *)
Theorem ClearAllAlerts_frees_log g :
  g_monitor_initialized g = true ->
  let r := ClearAllAlerts g in
  let g1 := fst r in
  snd r = true /\
  GetMonitoringAlerts g1 = Some ([], 0) /\
  drives (g_monitor_context g1) = drives (g_monitor_context g) /\
  drive_count (g_monitor_context g1) = drive_count (g_monitor_context g) /\
  forall p m v t msg crit now,
    let r2 := CreateAlert (Some p) m v t (Some msg) crit now g1 in
    snd r2 = true /\
    GetMonitoringAlerts (fst r2)
    = Some ([mk_alert (strncpy (MAX_PATH - 1) p) m v t
                      (strncpy (256 - 1) msg) now crit false], 1).
Proof.
  intros Hi r g1.
  assert (Hr : r = (with_context
                      (set_alerts
                         (replicate (Z.to_nat ALERT_CAPACITY) zero_alert) 0
                         (g_monitor_context g)) g, true)).
  { unfold r, ClearAllAlerts. rewrite Hi. reflexivity. }
  split; [rewrite Hr; reflexivity|].
  split.
  { unfold GetMonitoringAlerts, g1. rewrite Hr. cbn. rewrite Hi. reflexivity. }
  split; [unfold g1; rewrite Hr; reflexivity|].
  split; [unfold g1; rewrite Hr; reflexivity|].
  intros p m v t msg crit now r2.
  unfold r2, g1. rewrite Hr. unfold CreateAlert, GetMonitoringAlerts.
  cbn [fst snd g_monitor_initialized g_monitor_context with_context
       set_alerts alerts alert_count]. rewrite Hi. cbn [negb].
  change (ALERT_CAPACITY <=? 0) with false.
  cbn [fst snd g_monitor_initialized g_monitor_context with_context
       set_alerts alerts alert_count]. rewrite Hi.
  split; reflexivity.
Qed.

Lemma ClearAllAlerts_frees_log_witness :
  let g := run_calls full_log_calls in
  let g1 := fst (ClearAllAlerts g) in
  snd (CreateAlert (Some "E:") MONITOR_METRIC_TEMPERATURE 65 60
                   (Some "Critical threshold exceeded") true 0 g) = false /\
  GetMonitoringAlerts g1 = Some ([], 0) /\
  snd (CreateAlert (Some "E:") MONITOR_METRIC_TEMPERATURE 65 60
                   (Some "Critical threshold exceeded") true 0 g1) = true.
Proof.
  intros g g1.
  assert (Hi : g_monitor_initialized g = true) by (vm_compute; reflexivity).
  destruct (ClearAllAlerts_frees_log g Hi) as (_ & H1 & _ & _ & H2).
  split; [vm_compute; reflexivity|]. split; [exact H1|].
  apply (H2 "E:"%string MONITOR_METRIC_TEMPERATURE 65%Q 60%Q
            "Critical threshold exceeded"%string true 0).
Defined.

(** ** Alert checks *)

Lemma metric_severity_config g1 g2 m v :
  g_monitor_config g1 = g_monitor_config g2 ->
  metric_severity g1 m v = metric_severity g2 m v.
Proof.
  intros H. unfold metric_severity, IsMetricCritical, IsMetricWarning.
  rewrite H. reflexivity.
Qed.

Lemma set_counters_id d :
  set_counters (last_update d) (error_count d) (warning_count d)
               (data_points d) d = d.
Proof. destruct d; reflexivity. Qed.

(** What [CreateAlert] does to the alert count of an initialised engine. *)
Lemma CreateAlert_count p m v t msg crit now g :
  g_monitor_initialized g = true ->
  0 <= alert_count (g_monitor_context g) <= ALERT_CAPACITY ->
  alert_count (g_monitor_context
                 (fst (CreateAlert (Some p) m v t (Some msg) crit now g)))
  = Z.min ALERT_CAPACITY (alert_count (g_monitor_context g) + 1).
Proof.
  intros Hi Hc. unfold CreateAlert. rewrite Hi. cbn [negb].
  destruct (ALERT_CAPACITY <=? alert_count (g_monitor_context g)) eqn:E.
  - apply Z.leb_le in E. cbn [fst]. lia.
  - apply Z.leb_gt in E. cbn [fst g_monitor_context with_context set_alerts
                               alert_count].
    rewrite uint32_t_wrap_small by (capacities; lia). lia.
Qed.

(** The loop of [CheckForAlerts] over a list of metric indices. *)
Lemma check_metrics_counts alert_time l : forall g d,
  g_monitor_initialized g = true ->
  0 <= alert_count (g_monitor_context g) <= ALERT_CAPACITY ->
  0 <= error_count d -> error_count d + Z.of_nat (length l) < 2 ^ 32 ->
  0 <= warning_count d -> warning_count d + Z.of_nat (length l) < 2 ^ 32 ->
  let count sev :=
    Z.of_nat (length (List.filter
      (fun i => severity_eqb
                  (metric_severity g (metric_of_index i)
                                   (rd (current_metrics d) i)) sev) l)) in
  let r := fold_left (check_metric alert_time) l (g, d) in
  alert_count (g_monitor_context (fst r))
  = Z.min ALERT_CAPACITY
      (alert_count (g_monitor_context g)
       + count SeverityCritical + count SeverityWarning) /\
  snd r = set_counters (last_update d)
                       (error_count d + count SeverityCritical)
                       (warning_count d + count SeverityWarning)
                       (data_points d) d.
Proof.
  induction l as [|i l IH]; intros g d Hi Hac He0 He Hw0 Hw.
  - cbn. rewrite !Z.add_0_r, set_counters_id. split; [lia | reflexivity].
  - cbn [length] in He, Hw. cbn zeta. cbn [fold_left List.filter].
    set (sev := metric_severity g (metric_of_index i)
                                (rd (current_metrics d) i)).
    pose proof (CreateAlert_count (drive_path d) (metric_of_index i)
                  (rd (current_metrics d) i)
                  (GetMetricThreshold (metric_of_index i))) as Hcnt.
    pose proof (CreateAlert_frame (Some (drive_path d)) (metric_of_index i)
                  (rd (current_metrics d) i)
                  (GetMetricThreshold (metric_of_index i))) as Hfr.
    assert (Hstep : exists g1 d1,
      check_metric alert_time (g, d) i = (g1, d1) /\
      g_monitor_initialized g1 = true /\
      g_monitor_config g1 = g_monitor_config g /\
      current_metrics d1 = current_metrics d /\
      last_update d1 = last_update d /\ data_points d1 = data_points d /\
      alert_count (g_monitor_context g1)
      = (if severity_eqb sev SeverityNone
         then alert_count (g_monitor_context g)
         else Z.min ALERT_CAPACITY (alert_count (g_monitor_context g) + 1)) /\
      error_count d1
      = error_count d + (if severity_eqb sev SeverityCritical then 1 else 0) /\
      warning_count d1
      = warning_count d + (if severity_eqb sev SeverityWarning then 1 else 0) /\
      d1 = set_counters (last_update d) (error_count d1) (warning_count d1)
                        (data_points d) d).
    { unfold check_metric. fold sev. destruct sev.
      - exists g, d. cbn. rewrite !Z.add_0_r, set_counters_id.
        repeat split; auto.
      - eexists _, _. split; [reflexivity|].
        destruct (Hfr (Some "Warning threshold exceeded"%string) false
                      (alert_time i) g) as (_ & _ & _ & Hcfg & Hin).
        cbn [severity_eqb error_count warning_count set_counters
             current_metrics last_update data_points].
        rewrite Hin, Hcfg, Hcnt by auto.
        rewrite uint32_t_wrap_small by lia.
        repeat split; auto; lia.
      - eexists _, _. split; [reflexivity|].
        destruct (Hfr (Some "Critical threshold exceeded"%string) true
                      (alert_time i) g) as (_ & _ & _ & Hcfg & Hin).
        cbn [severity_eqb error_count warning_count set_counters
             current_metrics last_update data_points].
        rewrite Hin, Hcfg, Hcnt by auto.
        rewrite uint32_t_wrap_small by lia.
        repeat split; auto; lia. }
    destruct Hstep as (g1 & d1 & Hcm & Hi1 & Hcfg & Hcur & Hlu & Hdp
                       & Hac1 & He1 & Hw1 & Hd1).
    rewrite Hcm.
    assert (Hac1' : 0 <= alert_count (g_monitor_context g1) <= ALERT_CAPACITY)
      by (rewrite Hac1; destruct (severity_eqb sev SeverityNone); lia).
    assert (Hb : forall sev', 0 <= (if severity_eqb sev sev' then 1 else 0) <= 1)
      by (intros sev'; destruct (severity_eqb sev sev'); lia).
    pose proof (Hb SeverityCritical). pose proof (Hb SeverityWarning).
    destruct (IH g1 d1 Hi1 Hac1') as [Hcount Hrec]; try lia.
    cbv zeta in Hcount, Hrec. rewrite Hcount, Hrec.
    assert (Hsame : forall sev',
      List.filter
        (fun i0 => severity_eqb
                     (metric_severity g1 (metric_of_index i0)
                                      (rd (current_metrics d1) i0)) sev') l
      = List.filter
          (fun i0 => severity_eqb
                       (metric_severity g (metric_of_index i0)
                                        (rd (current_metrics d) i0)) sev') l).
    { intros sev'. apply List.filter_ext. intros k.
      rewrite Hcur, (metric_severity_config g1 g _ _ Hcfg). reflexivity. }
    rewrite !Hsame. clear Hsame IH Hcnt Hfr Hcount Hrec.
    assert (Hsc : forall a b c e,
              set_counters a b c e d1 = set_counters a b c e d)
      by (intros; rewrite Hd1; reflexivity).
    rewrite Hsc, Hlu, Hdp, Hac1, He1, Hw1.
    destruct sev; cbn [severity_eqb length]; rewrite ?Nat2Z.inj_succ;
      (split; [lia | f_equal; lia]).
Qed.

(** X11: on an initialised engine [CheckForAlerts] returns TRUE, adds to
    [error_count] the number of metrics whose current value is Critical
    and to [warning_count] the number of those that are Warning, and
    changes nothing else in the record; the alert count grows by the
    number of breaches, but no further than the capacity of the log: the
    two counters keep counting breaches whose alerts were rejected. *)
Theorem CheckForAlerts_counts d alert_time g :
  engine_inv g ->
  g_monitor_initialized g = true ->
  0 <= error_count d -> error_count d + 9 < 2 ^ 32 ->
  0 <= warning_count d -> warning_count d + 9 < 2 ^ 32 ->
  let critical := count_severity SeverityCritical g d in
  let warning := count_severity SeverityWarning g d in
  let r := CheckForAlerts (Some d) alert_time g in
  snd r = true /\
  snd (fst r)
  = Some (set_counters (last_update d) (error_count d + critical)
                       (warning_count d + warning) (data_points d) d) /\
  alert_count (g_monitor_context (fst (fst r)))
  = Z.min ALERT_CAPACITY
          (alert_count (g_monitor_context g) + critical + warning) /\
  alerts_only g (fst (fst r)).
Proof.
  intros Hinv Hi He0 He Hw0 Hw critical warning r.
  pose proof (check_metrics_inv alert_time (seq 0 METRIC_COUNT) g d Hinv)
    as [_ Honly].
  destruct Hinv as [_ _ _ Hac _].
  destruct (check_metrics_counts alert_time (seq 0 METRIC_COUNT) g d Hi Hac)
    as [Hcount Hrec]; try (rewrite length_seq; exact He || exact Hw);
    try assumption.
  unfold r, CheckForAlerts.
  destruct (fold_left (check_metric alert_time) (seq 0 METRIC_COUNT) (g, d))
    as [g' d'].
  cbn [fst snd] in *. subst d'.
  repeat split; try apply Honly. exact Hcount.
Qed.

Lemma CheckForAlerts_counts_witness :
  let g := run_calls full_log_calls in
  let d := fold_left (update_metric (replicate METRIC_COUNT 1000%Q))
                     (seq 0 METRIC_COUNT) (new_drive_data "E:" 0) in
  let r := CheckForAlerts (Some d) (fun _ => 0) g in
  error_count <$> snd (fst r) = Some 9 /\
  alert_count (g_monitor_context (fst (fst r))) = 144.
Proof.
  intros g d r.
  assert (Hinv : engine_inv g) by apply reachable_inv, run_calls_reachable.
  assert (Hi : g_monitor_initialized g = true) by (vm_compute; reflexivity).
  destruct (CheckForAlerts_counts d (fun _ => 0) g Hinv Hi)
    as (_ & Hrec & Hcount & _); try (vm_compute; congruence).
  fold r in Hrec, Hcount. split.
  - rewrite Hrec. vm_compute. reflexivity.
  - rewrite Hcount. vm_compute. reflexivity.
Defined.

(** ** Updates and passes of the thread *)

Lemma update_metric_fold_fields new l d :
  let d' := fold_left (update_metric new) l d in
  drive_path d' = drive_path d /\ drive_name d' = drive_name d /\
  is_monitoring d' = is_monitoring d /\ is_healthy d' = is_healthy d /\
  error_count d' = error_count d /\ warning_count d' = warning_count d.
Proof.
  revert d. induction l as [|i l IH]; intros d; cbn [fold_left].
  - repeat split.
  - destruct (IH (update_metric new d i)) as (H1 & H2 & H3 & H4 & H5 & H6).
    cbv zeta. rewrite H1, H2, H3, H4, H5, H6. repeat split.
Qed.

Lemma check_metrics_fields alert_time l g d :
  let d' := snd (fold_left (check_metric alert_time) l (g, d)) in
  drive_name d' = drive_name d /\ is_monitoring d' = is_monitoring d /\
  is_healthy d' = is_healthy d /\ last_update d' = last_update d /\
  current_metrics d' = current_metrics d.
Proof.
  revert g d. induction l as [|i l IH]; intros g d; cbn [fold_left].
  - repeat split.
  - destruct (check_metric alert_time (g, d) i) as [g1 d1] eqn:E.
    destruct (IH g1 d1) as (H1 & H2 & H3 & H4 & H5).
    cbv zeta. rewrite H1, H2, H3, H4, H5. unfold check_metric in E.
    destruct (metric_severity g (metric_of_index i)
                              (rd (current_metrics d) i));
      inversion E; subst; repeat split.
Qed.

Lemma apply_update_fields g d s :
  let d' := snd (apply_update (g, d) s) in
  drive_path d' = drive_path d /\ drive_name d' = drive_name d /\
  is_monitoring d' = is_monitoring d /\ is_healthy d' = is_healthy d /\
  last_update d' = now s.
Proof.
  pose proof (apply_update_metric g d s) as (_ & Hpath & _).
  split; [exact Hpath|]. clear Hpath.
  unfold apply_update, UpdateDriveMetrics, CheckForAlerts.
  destruct (update_metric_fold_fields (new_metrics s) (seq 0 METRIC_COUNT) d)
    as (_ & F2 & F3 & F4 & _).
  remember (fold_left (update_metric (new_metrics s)) (seq 0 METRIC_COUNT) d)
    as d1 eqn:E1. clear E1.
  remember (set_counters (now s) (error_count d1) (warning_count d1)
                         (uint32_t_wrap (data_points d1 + 1)) d1)
    as d2 eqn:E2.
  pose proof (check_metrics_fields (alert_time s) (seq 0 METRIC_COUNT) g d2)
    as (H1 & H2 & H3 & H4 & _).
  destruct (fold_left (check_metric (alert_time s)) (seq 0 METRIC_COUNT)
                      (g, d2)) as [g' d3].
  cbn [fst snd] in *. rewrite H1, H2, H3, H4, E2.
  cbn [drive_name is_monitoring is_healthy last_update set_counters].
  split; [exact F2|]. split; [exact F3|]. split; [exact F4 | reflexivity].
Qed.

(** X12: whatever the values received and the alerts raised, a record
    created by [StartDriveMonitoring] keeps [is_healthy] = TRUE, its
    activity flag, its identifier and its name through every sequence of
    [UpdateDriveMetrics] calls: the update path never clears the health
    flag. *)
Theorem updates_never_clear_health_flag p t0 samples g :
  let d' := snd (run_updates samples g (new_drive_data p t0)) in
  is_healthy d' = true /\
  is_monitoring d' = true /\
  drive_path d' = strncpy (MAX_PATH - 1) p /\
  drive_name d' = strncpy (64 - 1) p.
Proof.
  cbv zeta.
  assert (H : forall d,
            let d' := snd (run_updates samples g d) in
            is_healthy d' = is_healthy d /\
            is_monitoring d' = is_monitoring d /\
            drive_path d' = drive_path d /\ drive_name d' = drive_name d).
  { revert g. induction samples as [|s samples IH]; intros g d.
    - repeat split.
    - cbv zeta. rewrite run_updates_cons.
      destruct (IH (fst (apply_update (g, d) s))
                   (snd (apply_update (g, d) s))) as (H1 & H2 & H3 & H4).
      destruct (apply_update_fields g d s) as (F1 & F2 & F3 & F4 & _).
      rewrite H1, H2, H3, H4. repeat split; assumption. }
  destruct (H (new_drive_data p t0)) as (H1 & H2 & H3 & H4).
  rewrite H1, H2, H3, H4. repeat split.
Qed.

Lemma check_metrics_snd_config alert_time l : forall g1 g2 d,
  g_monitor_config g1 = g_monitor_config g2 ->
  snd (fold_left (check_metric alert_time) l (g1, d))
  = snd (fold_left (check_metric alert_time) l (g2, d)).
Proof.
  induction l as [|i l IH]; intros g1 g2 d Hcfg; [reflexivity|].
  cbn [fold_left]. unfold check_metric at 2 4.
  rewrite (metric_severity_config g1 g2 _ _ Hcfg).
  destruct (metric_severity g2 (metric_of_index i)
                            (rd (current_metrics d) i)).
  - apply IH, Hcfg.
  - apply IH.
    destruct (CreateAlert_frame (Some (drive_path d)) (metric_of_index i)
                (rd (current_metrics d) i)
                (GetMetricThreshold (metric_of_index i))
                (Some "Warning threshold exceeded"%string) false
                (alert_time i) g1) as (_ & _ & _ & -> & _).
    destruct (CreateAlert_frame (Some (drive_path d)) (metric_of_index i)
                (rd (current_metrics d) i)
                (GetMetricThreshold (metric_of_index i))
                (Some "Warning threshold exceeded"%string) false
                (alert_time i) g2) as (_ & _ & _ & -> & _).
    exact Hcfg.
  - apply IH.
    destruct (CreateAlert_frame (Some (drive_path d)) (metric_of_index i)
                (rd (current_metrics d) i)
                (GetMetricThreshold (metric_of_index i))
                (Some "Critical threshold exceeded"%string) true
                (alert_time i) g1) as (_ & _ & _ & -> & _).
    destruct (CreateAlert_frame (Some (drive_path d)) (metric_of_index i)
                (rd (current_metrics d) i)
                (GetMetricThreshold (metric_of_index i))
                (Some "Critical threshold exceeded"%string) true
                (alert_time i) g2) as (_ & _ & _ & -> & _).
    exact Hcfg.
Qed.

(** What an update makes of a record depends on the configuration only,
    not on the alert log or on the other records. *)
Lemma apply_update_config_only g1 g2 d s :
  g_monitor_config g1 = g_monitor_config g2 ->
  snd (apply_update (g1, d) s) = snd (apply_update (g2, d) s).
Proof.
  intros Hcfg. unfold apply_update, UpdateDriveMetrics, CheckForAlerts.
  match goal with
  | |- context [fold_left (check_metric ?a) ?l (g1, ?d2)] =>
      pose proof (check_metrics_snd_config a l g1 g2 d2 Hcfg) as H;
      destruct (fold_left (check_metric a) l (g1, d2)) as [g1' d1'];
      destruct (fold_left (check_metric a) l (g2, d2)) as [g2' d2']
  end.
  exact H.
Qed.

Lemma visit_drive_effect g0 samples now alert_time g i :
  engine_inv g ->
  g_monitor_config g = g_monitor_config g0 ->
  let g' := visit_drive samples now alert_time g i in
  g_monitor_config g' = g_monitor_config g /\
  g_monitor_initialized g' = g_monitor_initialized g /\
  drive_count (g_monitor_context g') = drive_count (g_monitor_context g) /\
  ctx_is_monitoring (g_monitor_context g')
    = ctx_is_monitoring (g_monitor_context g) /\
  forall j,
    drives (g_monitor_context g') !! j
    = if decide (i = j)
      then visited g0 samples now alert_time j
             <$> drives (g_monitor_context g) !! j
      else drives (g_monitor_context g) !! j.
Proof.
  intros Hinv Hcfg g'. unfold g'.
  destruct (drives (g_monitor_context g) !! i) as [d|] eqn:Hd.
  - destruct (is_monitoring d) eqn:Hm.
    + rewrite (visit_drive_active samples now alert_time g i d Hd Hm).
      set (smp := mk_sample (samples i) (now i) (alert_time i)).
      pose proof (UpdateDriveMetrics_inv (Some (drive_path d)) (Some d)
                    (samples i) (now i) (alert_time i) g Hinv) as [_ Honly].
      assert (Hfst : fst (apply_update (g, d) smp)
                     = fst (fst (UpdateDriveMetrics (Some (drive_path d))
                              (Some d) (samples i) (now i) (alert_time i) g))).
      { unfold apply_update, smp. cbn [new_metrics Monitor.now
                                       Monitor.alert_time].
        destruct (UpdateDriveMetrics _ _ _ _ _ g) as [[g1 [d1|]] b];
          reflexivity. }
      rewrite <- Hfst in Honly.
      destruct Honly as (Hds & Hdc & Hrun & Hc & Hin).
      cbn [g_monitor_config g_monitor_initialized g_monitor_context
           with_context set_drives drives drive_count ctx_is_monitoring].
      repeat split; auto. intros j. rewrite Hds.
      destruct (decide (i = j)) as [<-|Hne].
      * rewrite list_lookup_insert_eq by (eapply lookup_lt_Some, Hd).
        rewrite Hd. cbn. unfold visited. rewrite Hm. f_equal.
        apply apply_update_config_only, Hcfg.
      * apply list_lookup_insert_ne, Hne.
    + unfold visit_drive. rewrite Hd, Hm. repeat split. intros j.
      destruct (decide (i = j)) as [<-|]; [|reflexivity].
      rewrite Hd. cbn. unfold visited. rewrite Hm. reflexivity.
  - unfold visit_drive. rewrite Hd. repeat split. intros j.
    destruct (decide (i = j)) as [<-|]; [|reflexivity].
    rewrite Hd. reflexivity.
Qed.

Lemma pass_fold_effect g0 samples now alert_time n : forall a g,
  engine_inv g ->
  g_monitor_config g = g_monitor_config g0 ->
  let g' := fold_left (visit_drive samples now alert_time) (seq a n) g in
  g_monitor_config g' = g_monitor_config g /\
  g_monitor_initialized g' = g_monitor_initialized g /\
  drive_count (g_monitor_context g') = drive_count (g_monitor_context g) /\
  ctx_is_monitoring (g_monitor_context g')
    = ctx_is_monitoring (g_monitor_context g) /\
  forall j,
    drives (g_monitor_context g') !! j
    = if (a <=? j)%nat && (j <? a + n)%nat
      then visited g0 samples now alert_time j
             <$> drives (g_monitor_context g) !! j
      else drives (g_monitor_context g) !! j.
Proof.
  induction n as [|n IH]; intros a g Hinv Hcfg; cbn [seq fold_left].
  - repeat split. intros j.
    replace ((a <=? j)%nat && (j <? a + 0)%nat) with false; [reflexivity|].
    symmetry. apply andb_false_iff.
    destruct (Nat.lt_ge_cases j a);
      [left; apply Nat.leb_gt | right; apply Nat.ltb_ge]; lia.
  - destruct (visit_drive_effect g0 samples now alert_time g a Hinv Hcfg)
      as (V1 & V2 & V3 & V4 & V5).
    pose proof (visit_drive_inv samples now alert_time g a Hinv) as [Hinv1 _].
    assert (Hcfg1 : g_monitor_config (visit_drive samples now alert_time g a)
                    = g_monitor_config g0) by congruence.
    destruct (IH (S a) (visit_drive samples now alert_time g a) Hinv1 Hcfg1)
      as (I1 & I2 & I3 & I4 & I5).
    cbv zeta. rewrite I1, I2, I3, I4.
    repeat split; try assumption. intros j. rewrite I5, V5.
    destruct (decide (a = j)) as [<-|Hne].
    + replace (S a <=? a)%nat with false
        by (symmetry; apply Nat.leb_gt; lia).
      replace (a <=? a)%nat with true by (symmetry; apply Nat.leb_le; lia).
      replace (a <? a + S n)%nat with true
        by (symmetry; apply Nat.ltb_lt; lia).
      reflexivity.
    + replace (j <? S a + n)%nat with (j <? a + S n)%nat by (f_equal; lia).
      replace (S a <=? j)%nat with (a <=? j)%nat; [reflexivity|].
      destruct (a <=? j)%nat eqn:E1; symmetry.
      * apply Nat.leb_le in E1. apply Nat.leb_le. lia.
      * apply Nat.leb_gt in E1. apply Nat.leb_gt. lia.
Qed.

Lemma MonitorThreadProc_pass_records samples now alert_time g :
  engine_inv g ->
  let g' := MonitorThreadProc_pass samples now alert_time g in
  g_monitor_config g' = g_monitor_config g /\
  g_monitor_initialized g' = g_monitor_initialized g /\
  drive_count (g_monitor_context g') = drive_count (g_monitor_context g) /\
  ctx_is_monitoring (g_monitor_context g')
    = ctx_is_monitoring (g_monitor_context g) /\
  forall j,
    drives (g_monitor_context g') !! j
    = if (j <? Z.to_nat (drive_count (g_monitor_context g)))%nat
      then visited g samples now alert_time j
             <$> drives (g_monitor_context g) !! j
      else drives (g_monitor_context g) !! j.
Proof.
  intros Hinv g'.
  destruct (pass_fold_effect g samples now alert_time
              (Z.to_nat (drive_count (g_monitor_context g))) 0 g Hinv
              eq_refl) as (H1 & H2 & H3 & H4 & H5).
  split; [exact H1|]. split; [exact H2|]. split; [exact H3|].
  split; [exact H4|]. intros j. unfold g', MonitorThreadProc_pass.
  rewrite H5. replace (0 <=? j)%nat with true
    by (symmetry; apply Nat.leb_le; lia).
  reflexivity.
Qed.

(** X13: a pass of the monitoring thread applies one
    [UpdateDriveMetrics] to every record of the registry whose activity
    flag is set, with the sample taken for that record, and what becomes
    of a record depends neither on the other records nor on the alert
    log; records that are stopped and the slots beyond the registry count
    are left exactly as they were, and the pass changes neither the
    count, the configuration nor the running flag. *)
Theorem MonitorThreadProc_pass_effect samples now alert_time g :
  engine_inv g ->
  let g' := MonitorThreadProc_pass samples now alert_time g in
  g_monitor_config g' = g_monitor_config g /\
  g_monitor_initialized g' = g_monitor_initialized g /\
  drive_count (g_monitor_context g') = drive_count (g_monitor_context g) /\
  ctx_is_monitoring (g_monitor_context g')
    = ctx_is_monitoring (g_monitor_context g) /\
  forall j,
    drives (g_monitor_context g') !! j
    = if (j <? Z.to_nat (drive_count (g_monitor_context g)))%nat
      then visited g samples now alert_time j
             <$> drives (g_monitor_context g) !! j
      else drives (g_monitor_context g) !! j.
Proof. exact (MonitorThreadProc_pass_records samples now alert_time g). Qed.

Lemma MonitorThreadProc_pass_effect_witness :
  let g := fst (StopDriveMonitoring (Some "C:")
                  (run_calls full_registry_calls)) in
  let g' := run_call (constant_pass 7) g in
  data_points <$> drives (g_monitor_context g') !! 2%nat = Some 0 /\
  data_points <$> drives (g_monitor_context g') !! 3%nat = Some 1.
Proof.
  intros g g'.
  assert (Hinv : engine_inv g).
  { apply StopDriveMonitoring_inv, reachable_inv, run_calls_reachable. }
  destruct (MonitorThreadProc_pass_effect
              (fun _ => replicate METRIC_COUNT 7%Q) (fun _ => 0)
              (fun _ _ => 0) g Hinv) as (_ & _ & _ & _ & H).
  assert (Hg' : g' = MonitorThreadProc_pass
                       (fun _ => replicate METRIC_COUNT 7%Q) (fun _ => 0)
                       (fun _ _ => 0) g) by (vm_compute; reflexivity).
  rewrite Hg', !H. split; vm_compute; reflexivity.
Defined.

(** ** Identifiers longer than the buffer *)

Lemma Forall_lookup_map {A} (P : A -> Prop) (l l' : list A)
    (f : nat -> A -> A) :
  (forall k x, P x -> P (f k x)) ->
  (forall k, l' !! k = f k <$> l !! k) ->
  Forall P l -> Forall P l'.
Proof.
  intros Hf Hl HP. apply Forall_lookup. intros k x Hx.
  rewrite Hl in Hx. destruct (l !! k) as [y|] eqn:Hy; [|discriminate].
  inversion Hx; subst. apply Hf.
  eapply (proj1 (Forall_lookup _ _)); eauto.
Qed.

Lemma paths_fit_set_all b g :
  paths_fit g ->
  Forall (fun d => (String.length (drive_path d) <= MAX_PATH - 1)%nat)
         (set_all_monitoring b (g_monitor_context g)).
Proof.
  intros H.
  apply (Forall_lookup_map _ (drives (g_monitor_context g)) _
           (fun k => if (0 <=? k)%nat
                          && (k <? 0 + Z.to_nat (drive_count
                                                   (g_monitor_context g)))%nat
                     then set_is_monitoring b else id)); [| |exact H].
  - intros k x Hx. destruct (_ && _); exact Hx.
  - intros k. apply alter_fold_lookup.
Qed.

Lemma run_call_paths_fit c g :
  engine_inv g -> paths_fit g -> paths_fit (run_call c g).
Proof.
  intros Hinv H. unfold paths_fit in *.
  destruct c as [config now event | | p now thread | p | i | |
                 p m v t msg crit now | p data s | samples now alert_time];
    cbn [run_call].
  - unfold InitRealTimeMonitor.
    destruct (g_monitor_initialized g); [exact H|].
    destruct (event =? 0); cbn; apply Forall_replicate; cbn; lia.
  - unfold CleanupRealTimeMonitor.
    destruct (g_monitor_initialized g); [|exact H].
    cbn. apply Forall_replicate. cbn. lia.
  - unfold StartDriveMonitoring.
    destruct (negb (g_monitor_initialized g)); [exact H|].
    destruct p as [p|].
    + destruct (IsDriveBeingMonitored (Some p) g); [exact H|].
      destruct (MONITOR_MAX_DRIVES <=? _); [exact H|].
      assert (Hnew : Forall
                (fun d => (String.length (drive_path d) <= MAX_PATH - 1)%nat)
                (<[Z.to_nat (drive_count (g_monitor_context g))
                   := new_drive_data p now]> (drives (g_monitor_context g)))).
      { apply Forall_insert; [exact H|]. apply substring_length. }
      cbn [ctx_is_monitoring set_drives].
      destruct (negb (ctx_is_monitoring (g_monitor_context g)));
        [destruct (thread =? 0)|]; exact Hnew.
    + apply (paths_fit_set_all true g H).
  - unfold StopDriveMonitoring.
    destruct (negb (g_monitor_initialized g)); [exact H|].
    destruct p as [p|].
    + destruct (find_drive (g_monitor_context g) p) as [[k d]|]; [|exact H].
      cbn. apply Forall_alter; [exact H|]. intros x _ Hx. exact Hx.
    + cbn [ctx_is_monitoring set_drives].
      destruct (ctx_is_monitoring (g_monitor_context g));
        apply (paths_fit_set_all false g H).
  - unfold AcknowledgeAlert. destruct (_ || _); exact H.
  - unfold ClearAllAlerts.
    destruct (negb (g_monitor_initialized g)); exact H.
  - destruct (CreateAlert_frame p m v t msg crit now g) as (-> & _).
    exact H.
  - destruct (UpdateDriveMetrics_inv p data (new_metrics s)
                (Monitor.now s) (alert_time s) g Hinv) as [_ (-> & _)].
    exact H.
  - destruct (ctx_is_monitoring (g_monitor_context g)); [|exact H].
    destruct (MonitorThreadProc_pass_records samples now alert_time g Hinv)
      as (_ & _ & _ & _ & Hl).
    apply (Forall_lookup_map _ (drives (g_monitor_context g)) _
             (fun k => if (k <? Z.to_nat (drive_count (g_monitor_context g)))%nat
                       then visited g samples now alert_time k else id));
      [| |exact H].
    + intros k x Hx. destruct (_ <? _)%nat; [|exact Hx].
      unfold visited. destruct (is_monitoring x); [|exact Hx].
      destruct (apply_update_fields g x
                  (mk_sample (samples k) (now k) (alert_time k)))
        as (-> & _). exact Hx.
    + intros k. rewrite Hl. destruct (_ <? _)%nat; [reflexivity|].
      destruct (_ !! k); reflexivity.
Qed.

Lemma reachable_paths_fit g : reachable g -> paths_fit g.
Proof.
  induction 1 as [|c g Hr IH].
  - unfold paths_fit. cbn. apply Forall_replicate. cbn. lia.
  - apply run_call_paths_fit; [apply reachable_inv, Hr | exact IH].
Qed.

(** X14: the registry stores an identifier cut to [MAX_PATH - 1]
    characters but compares it with the whole argument, so on every state
    the engine can reach an identifier longer than that is never found:
    it is not reported as monitored, has no status and cannot be stopped,
    and every [StartDriveMonitoring] of it that finds a free slot takes
    one more slot while the identifier is still not reported as
    monitored. *)
Theorem long_identifier_never_found p g :
  reachable g ->
  (MAX_PATH - 1 < String.length p)%nat ->
  IsDriveBeingMonitored (Some p) g = false /\
  GetDriveHealthStatus (Some p) g = None /\
  StopDriveMonitoring (Some p) g = (g, false) /\
  (g_monitor_initialized g = true ->
   drive_count (g_monitor_context g) < MONITOR_MAX_DRIVES ->
   forall now thread,
     let g' := fst (StartDriveMonitoring (Some p) now thread g) in
     drive_count (g_monitor_context g')
       = drive_count (g_monitor_context g) + 1 /\
     IsDriveBeingMonitored (Some p) g' = false).
Proof.
  intros Hr Hlong.
  assert (Hnot : forall g0, reachable g0 -> ~ in_registry p g0).
  { intros g0 Hr0 (i & d & _ & Hd & Hp).
    pose proof (reachable_paths_fit g0 Hr0) as Hfit. unfold paths_fit in Hfit.
    pose proof (proj1 (Forall_lookup _ _) Hfit i d Hd) as Hlen.
    cbv beta in Hlen. rewrite Hp in Hlen. lia. }
  pose proof (Hnot g Hr) as Hnew.
  pose proof (find_drive_not_in_registry g p Hnew) as Hfind.
  pose proof (IsDriveBeingMonitored_not_in_registry g p Hnew) as Hm.
  split; [exact Hm|]. split.
  { unfold GetDriveHealthStatus. rewrite Hfind.
    destruct (negb (g_monitor_initialized g)); reflexivity. }
  split.
  { unfold StopDriveMonitoring. rewrite Hfind.
    destruct (negb (g_monitor_initialized g)); reflexivity. }
  intros Hi Hfree now thread g'.
  pose proof (reachable_inv g Hr) as [_ _ Hdc _ _].
  split.
  - unfold g'.
    rewrite (StartDriveMonitoring_takes_slot p now thread g Hi Hm) by lia.
    reflexivity.
  - apply IsDriveBeingMonitored_not_in_registry, Hnot.
    apply (reachable_call (Call_StartDriveMonitoring (Some p) now thread) g Hr).
Qed.

Lemma long_identifier_never_found_witness :
  let g := run_calls started_engine in
  let g1 := fst (StartDriveMonitoring (Some long_identifier) 0 2 g) in
  let g2 := fst (StartDriveMonitoring (Some long_identifier) 1 2 g1) in
  drive_count (g_monitor_context g2) = 2 /\
  IsDriveBeingMonitored (Some long_identifier) g2 = false.
Proof.
  intros g g1 g2.
  assert (Hr : reachable g) by apply run_calls_reachable.
  assert (Hr1 : reachable g1)
    by apply (reachable_call
                (Call_StartDriveMonitoring (Some long_identifier) 0 2) g Hr).
  assert (Hlong : (MAX_PATH - 1 < String.length long_identifier)%nat)
    by (vm_compute; lia).
  assert (Hi1 : g_monitor_initialized g1 = true) by (vm_compute; reflexivity).
  assert (Hfree1 : drive_count (g_monitor_context g1) < MONITOR_MAX_DRIVES)
    by (vm_compute; reflexivity).
  destruct (long_identifier_never_found long_identifier g1 Hr1 Hlong)
    as (_ & _ & _ & Hstart).
  destruct (Hstart Hi1 Hfree1 1 2) as [Hcount Hm].
  split; [|exact Hm]. fold g2 in Hcount. rewrite Hcount.
  vm_compute. reflexivity.
Defined.

(** ** The simulated collectors *)

Lemma rem_range r n :
  0 <= r -> 0 < n -> 0 <= Z.rem r n <= n - 1.
Proof.
  intros Hr Hn. pose proof (Z.rem_bound_pos r n Hr Hn). lia.
Qed.

Lemma inject_Z_range a lo hi :
  lo <= a <= hi -> (inject_Z lo <= inject_Z a <= inject_Z hi)%Q.
Proof.
  intros [H1 H2]. split; rewrite <- Zle_Qle; assumption.
Qed.

Lemma collect_one_length enabled collector i st :
  length (fst (collect_one enabled collector i st)) = length (fst st).
Proof.
  unfold collect_one. destruct enabled; [|reflexivity].
  destruct (collector (snd st)) as [[v k']|]; [|reflexivity].
  apply length_insert.
Qed.

Lemma collect_speed_length enabled collector i j st :
  length (fst (collect_speed enabled collector i j st)) = length (fst st).
Proof.
  unfold collect_speed. destruct enabled; [|reflexivity].
  destruct (collector (snd st)) as [[[r w] k']|]; [|reflexivity].
  cbn [fst]. rewrite !length_insert. reflexivity.
Qed.

Lemma collect_one_other enabled collector i st j :
  i <> j ->
  rd (fst (collect_one enabled collector i st)) j = rd (fst st) j.
Proof.
  intros H. unfold collect_one. destruct enabled; [|reflexivity].
  destruct (collector (snd st)) as [[v k']|]; [|reflexivity].
  apply rd_insert_ne, H.
Qed.

Lemma collect_speed_other enabled collector i1 i2 st j :
  i1 <> j -> i2 <> j ->
  rd (fst (collect_speed enabled collector i1 i2 st)) j = rd (fst st) j.
Proof.
  intros H1 H2. unfold collect_speed. destruct enabled; [|reflexivity].
  destruct (collector (snd st)) as [[[r w] k']|]; [|reflexivity].
  cbn [fst]. rewrite !rd_insert_ne by assumption. reflexivity.
Qed.

Lemma collect_one_own enabled collector i st :
  (i < length (fst st))%nat ->
  rd (fst (collect_one enabled collector i st)) i
  = if enabled then
      match collector (snd st) with
      | Some (v, _) => v
      | None => rd (fst st) i
      end
    else rd (fst st) i.
Proof.
  intros H. unfold collect_one. destruct enabled; [|reflexivity].
  destruct (collector (snd st)) as [[v k']|]; [|reflexivity].
  apply rd_insert_eq, H.
Qed.

Lemma collect_speed_own enabled collector i1 i2 st :
  (i1 < length (fst st))%nat -> (i2 < length (fst st))%nat -> i1 <> i2 ->
  rd (fst (collect_speed enabled collector i1 i2 st)) i1
  = (if enabled then
       match collector (snd st) with
       | Some (r, _, _) => r
       | None => rd (fst st) i1
       end
     else rd (fst st) i1) /\
  rd (fst (collect_speed enabled collector i1 i2 st)) i2
  = (if enabled then
       match collector (snd st) with
       | Some (_, w, _) => w
       | None => rd (fst st) i2
       end
     else rd (fst st) i2).
Proof.
  intros H1 H2 Hne. unfold collect_speed.
  destruct enabled; [|split; reflexivity].
  destruct (collector (snd st)) as [[[r w] k']|]; [|split; reflexivity].
  cbn [fst]. split.
  - rewrite rd_insert_ne by auto. apply rd_insert_eq, H1.
  - apply rd_insert_eq. rewrite length_insert. exact H2.
Qed.

(** The range of the [rand() % n] of the goal, from [Hrem]. *)
Ltac rand_range Hrem Hr n :=
  match goal with
  | |- context [Z.rem (?r ?j) n] =>
      let hi := eval vm_compute in (inject_Z (n - 1)) in
      let H := fresh "Hrange" in
      assert (H : (0 <= inject_Z (Z.rem (r j) n) <= hi)%Q)
        by exact (Hrem j n Hr eq_refl)
  end.

(** Skips the collection steps that do not write entry [i]. *)
Ltac skip_collectors :=
  repeat first
    [ rewrite collect_one_other by (cbn; lia)
    | rewrite collect_speed_other by (cbn; lia) ].

(** Reduces the length of the array at any stage to that of the stack. *)
Ltac stage_length Hlen :=
  repeat first [rewrite collect_one_length | rewrite collect_speed_length];
  cbn [fst]; rewrite Hlen; unfold METRIC_COUNT; cbn; lia.

(** An entry of the local array after the collection part: the value its
    collector wrote when it is enabled, what the stack held otherwise. *)
Lemma collect_new_metrics_entry cfg p stack rand k i :
  length stack = METRIC_COUNT ->
  (i < METRIC_COUNT)%nat ->
  let new := fst (collect_new_metrics cfg p stack rand k) in
  length new = METRIC_COUNT /\
  (metric_enabled cfg (metric_of_index i) = false ->
   rd new i = rd stack i) /\
  (metric_enabled cfg (metric_of_index i) = true ->
   (forall j, 0 <= rand j) ->
   (fst (simulated_range (metric_of_index i)) <= rd new i
    <= snd (simulated_range (metric_of_index i)))%Q).
Proof.
  intros Hlen Hi.
  assert (Hcases : (i = 0 \/ i = 1 \/ i = 2 \/ i = 3 \/ i = 4 \/ i = 5 \/
                    i = 6 \/ i = 7 \/ i = 8)%nat)
    by (unfold METRIC_COUNT in Hi; cbn in Hi; lia).
  assert (Hrem : forall j n, (forall j, 0 <= rand j) -> 0 < n ->
                   (0 <= inject_Z (Z.rem (rand j) n) <= inject_Z (n - 1))%Q).
  { intros j n Hr Hn. apply (inject_Z_range _ 0 (n - 1)).
    apply rem_range; auto. }
  cbv zeta. split.
  { unfold collect_new_metrics.
    repeat first [rewrite collect_one_length | rewrite collect_speed_length].
    exact Hlen. }
  unfold collect_new_metrics.
  destruct Hcases as [Hc|[Hc|[Hc|[Hc|[Hc|[Hc|[Hc|[Hc|Hc]]]]]]]]; subst i;
    cbn [metric_of_index metric_enabled simulated_range metric_index fst snd];
    skip_collectors.
  - rewrite collect_one_own by stage_length Hlen.
    split; intros E; rewrite E; [reflexivity|]. intros Hr.
    cbn [CollectTemperatureMetric snd].
    rand_range Hrem Hr 20.
    unfold Qdiv; cbn [Qinv Qnum Qden]. split; lra.
  - destruct (collect_speed_own (enable_speed_monitoring cfg)
                (CollectSpeedMetric (Some p) rand) 1 2
                (collect_one (enable_temperature_monitoring cfg)
                   (CollectTemperatureMetric (Some p) rand) 0 (stack, k)))
      as [Hread _]; [stage_length Hlen | stage_length Hlen | lia |].
    rewrite Hread. split; intros E; rewrite E; [skip_collectors; reflexivity|].
    intros Hr. cbn [CollectSpeedMetric].
    rand_range Hrem Hr 20.
    unfold Qdiv; cbn [Qinv Qnum Qden]. split; lra.
  - destruct (collect_speed_own (enable_speed_monitoring cfg)
                (CollectSpeedMetric (Some p) rand) 1 2
                (collect_one (enable_temperature_monitoring cfg)
                   (CollectTemperatureMetric (Some p) rand) 0 (stack, k)))
      as [_ Hwrite]; [stage_length Hlen | stage_length Hlen | lia |].
    rewrite Hwrite. split; intros E; rewrite E; [skip_collectors; reflexivity|].
    intros Hr. cbn [CollectSpeedMetric].
    rand_range Hrem Hr 15.
    unfold Qdiv; cbn [Qinv Qnum Qden]. split; lra.
  - rewrite collect_one_own by stage_length Hlen.
    split; intros E; rewrite E; [skip_collectors; reflexivity|]. intros Hr.
    cbn [CollectErrorRateMetric].
    rand_range Hrem Hr 100.
    unfold Qdiv; cbn [Qinv Qnum Qden]. split; lra.
  - rewrite collect_one_own by stage_length Hlen.
    split; intros E; rewrite E; [skip_collectors; reflexivity|]. intros Hr.
    cbn [CollectPowerConsumptionMetric].
    rand_range Hrem Hr 20.
    unfold Qdiv; cbn [Qinv Qnum Qden]. split; lra.
  - rewrite collect_one_own by stage_length Hlen.
    split; intros E; rewrite E; [skip_collectors; reflexivity|]. intros Hr.
    cbn [CollectVibrationMetric].
    rand_range Hrem Hr 50.
    unfold Qdiv; cbn [Qinv Qnum Qden]. split; lra.
  - rewrite collect_one_own by stage_length Hlen.
    split; intros E; rewrite E; [skip_collectors; reflexivity|]. intros Hr.
    cbn [CollectEMMetric].
    rand_range Hrem Hr 100.
    unfold Qdiv; cbn [Qinv Qnum Qden]. split; lra.
  - rewrite collect_one_own by stage_length Hlen.
    split; intros E; rewrite E; [skip_collectors; reflexivity|]. intros Hr.
    cbn [CollectCapacityUsageMetric].
    rand_range Hrem Hr 100.
    unfold Qdiv; cbn [Qinv Qnum Qden]. split; lra.
  - rewrite collect_one_own by stage_length Hlen.
    split; intros E; rewrite E; [skip_collectors; reflexivity|]. intros Hr.
    cbn [CollectSectorHealthMetric].
    rand_range Hrem Hr 5.
    unfold Qdiv; cbn [Qinv Qnum Qden]. split; lra.
Qed.

(** ** The collected values in the record *)

Lemma update_metric_fold_length new l : forall d,
  length (current_metrics (fold_left (update_metric new) l d))
  = length (current_metrics d).
Proof.
  induction l as [|a l IH]; intros d; cbn [fold_left]; [reflexivity|].
  rewrite IH. unfold update_metric. cbn. apply length_insert.
Qed.

Lemma update_metric_fold_untouched new l : forall d i,
  ~ In i l ->
  rd (current_metrics (fold_left (update_metric new) l d)) i
  = rd (current_metrics d) i.
Proof.
  induction l as [|a l IH]; intros d i Hn; cbn [fold_left]; [reflexivity|].
  rewrite IH by (intros H; apply Hn; right; exact H).
  unfold update_metric. cbn. apply rd_insert_ne.
  intros ->. apply Hn. left. reflexivity.
Qed.

Lemma update_metric_fold_current new l : forall d i,
  (i < length (current_metrics d))%nat ->
  In i l ->
  rd (current_metrics (fold_left (update_metric new) l d)) i = rd new i.
Proof.
  induction l as [|a l IH]; intros d i Hlen Hin; [destruct Hin|].
  cbn [fold_left]. destruct (in_dec Nat.eq_dec i l) as [Hl|Hl].
  - apply IH; [|exact Hl]. unfold update_metric. cbn.
    rewrite length_insert. exact Hlen.
  - destruct Hin as [->|Hin]; [|contradiction].
    rewrite update_metric_fold_untouched by exact Hl.
    unfold update_metric. cbn. apply rd_insert_eq, Hlen.
Qed.

Lemma apply_update_unfold g d s :
  let d1 := fold_left (update_metric (new_metrics s)) (seq 0 METRIC_COUNT) d in
  apply_update (g, d) s
  = fold_left (check_metric (alert_time s)) (seq 0 METRIC_COUNT)
      (g, set_counters (now s) (error_count d1) (warning_count d1)
                       (uint32_t_wrap (data_points d1 + 1)) d1).
Proof.
  intros d1. unfold apply_update, UpdateDriveMetrics, CheckForAlerts.
  fold d1.
  destruct (fold_left (check_metric (alert_time s)) (seq 0 METRIC_COUNT)
      (g, set_counters (now s) (error_count d1) (warning_count d1)
                       (uint32_t_wrap (data_points d1 + 1)) d1)) as [g' d'].
  reflexivity.
Qed.

Lemma apply_update_current_metrics g d s :
  current_metrics (snd (apply_update (g, d) s))
  = current_metrics (fold_left (update_metric (new_metrics s))
                               (seq 0 METRIC_COUNT) d).
Proof.
  rewrite apply_update_unfold. cbv zeta.
  generalize (fold_left (update_metric (new_metrics s)) (seq 0 METRIC_COUNT) d).
  intros d1.
  pose proof (check_metrics_fields (alert_time s) (seq 0 METRIC_COUNT) g
                (set_counters (now s) (error_count d1) (warning_count d1)
                         (uint32_t_wrap (data_points d1 + 1)) d1))
    as (_ & _ & _ & _ & H).
  cbv zeta in H. rewrite H. reflexivity.
Qed.

Lemma in_metric_range i : (i < METRIC_COUNT)%nat -> In i (seq 0 METRIC_COUNT).
Proof. intros Hi. apply in_seq. lia. Qed.

(** After [UpdateDriveMetrics] the current values are the sample. *)
Lemma apply_update_current g d s i :
  length (current_metrics d) = METRIC_COUNT ->
  (i < METRIC_COUNT)%nat ->
  rd (current_metrics (snd (apply_update (g, d) s))) i = rd (new_metrics s) i.
Proof.
  intros Hlen Hi. rewrite apply_update_current_metrics.
  apply update_metric_fold_current; [rewrite Hlen; exact Hi|].
  apply in_metric_range, Hi.
Qed.

(** X15: the value [UpdateDriveMetrics] stores as the current value of a
    metric whose collector is enabled lies in the range its collector
    simulates ([rand()] never returns a negative number): 35..54 for the
    temperature, 20..39 and 15..29 for the read and write speed, 0..0.099
    for the error rate, 2..3.9 for the power, 0..4.9 for the vibration,
    0..0.99 for the electromagnetic field, 0..99 for the capacity usage and
    95..99 for the sector health. *)
Theorem UpdateDriveMetrics_collected_range g d stack rand k t alert_time i :
  length stack = METRIC_COUNT ->
  length (current_metrics d) = METRIC_COUNT ->
  (i < METRIC_COUNT)%nat ->
  metric_enabled (g_monitor_config g) (metric_of_index i) = true ->
  (forall j, 0 <= rand j) ->
  let d' := snd (apply_update (g, d)
                   (collected_sample g (drive_path d) stack rand k t
                                     alert_time)) in
  (fst (simulated_range (metric_of_index i)) <= rd (current_metrics d') i
   <= snd (simulated_range (metric_of_index i)))%Q.
Proof.
  intros Hstack Hlen Hi Hen Hr d'. unfold d'.
  rewrite apply_update_current by assumption.
  unfold collected_sample. cbn [new_metrics].
  destruct (collect_new_metrics_entry (g_monitor_config g) (drive_path d)
              stack rand k i Hstack Hi) as (_ & _ & H).
  apply H; assumption.
Qed.

Lemma UpdateDriveMetrics_collected_range_witness :
  (35 <= rd (current_metrics (snd first_collected_update)) 0 <= 54)%Q.
Proof.
  apply (UpdateDriveMetrics_collected_range
           (run_calls started_engine) (new_drive_data "E:" 0)
           (constant_stack 777) (constant_rand 7) 0 5 (fun _ => 0) 0).
  - reflexivity.
  - reflexivity.
  - unfold METRIC_COUNT. cbn. lia.
  - reflexivity.
  - intros j. unfold constant_rand. lia.
Defined.

(** X16: for a metric whose collector is disabled the update loop still
    runs: the current value the record gets is what the local array
    [new_metrics] held at that index when [UpdateDriveMetrics] was
    entered, a value no collector has written. *)
Theorem UpdateDriveMetrics_disabled_metric g d stack rand k t alert_time i :
  length stack = METRIC_COUNT ->
  length (current_metrics d) = METRIC_COUNT ->
  (i < METRIC_COUNT)%nat ->
  metric_enabled (g_monitor_config g) (metric_of_index i) = false ->
  let d' := snd (apply_update (g, d)
                   (collected_sample g (drive_path d) stack rand k t
                                     alert_time)) in
  rd (current_metrics d') i = rd stack i.
Proof.
  intros Hstack Hlen Hi Hen d'. unfold d'.
  rewrite apply_update_current by assumption.
  unfold collected_sample. cbn [new_metrics].
  destruct (collect_new_metrics_entry (g_monitor_config g) (drive_path d)
              stack rand k i Hstack Hi) as (_ & H & _).
  apply H; assumption.
Qed.

Lemma UpdateDriveMetrics_disabled_metric_witness :
  rd (current_metrics (snd first_collected_update)) 5 = 777%Q.
Proof.
  apply (UpdateDriveMetrics_disabled_metric
           (run_calls started_engine) (new_drive_data "E:" 0)
           (constant_stack 777) (constant_rand 7) 0 5 (fun _ => 0) 5).
  - reflexivity.
  - reflexivity.
  - unfold METRIC_COUNT. cbn. lia.
  - reflexivity.
Defined.

(** ** Healthy readings that are reported as critical *)

Lemma metric_severity_critical g m v :
  (fmul (GetMetricThreshold m) (critical_threshold (g_monitor_config g))
   <= v)%Q ->
  metric_severity g m v = SeverityCritical.
Proof.
  intros H. unfold metric_severity, IsMetricCritical.
  rewrite (proj2 (fge_true _ _) H). reflexivity.
Qed.

Lemma count_severity_nonneg sev g d : 0 <= count_severity sev g d.
Proof. unfold count_severity. lia. Qed.

Lemma count_critical_lower g d :
  metric_severity g MONITOR_METRIC_READ_SPEED (rd (current_metrics d) 1)
  = SeverityCritical ->
  metric_severity g MONITOR_METRIC_WRITE_SPEED (rd (current_metrics d) 2)
  = SeverityCritical ->
  metric_severity g MONITOR_METRIC_SECTOR_HEALTH (rd (current_metrics d) 8)
  = SeverityCritical ->
  3 <= count_severity SeverityCritical g d.
Proof.
  intros H1 H2 H8. unfold count_severity.
  change (seq 0 METRIC_COUNT) with [0; 1; 2; 3; 4; 5; 6; 7; 8]%nat.
  cbn [List.filter metric_of_index]. rewrite H1, H2, H8.
  cbn [severity_eqb].
  repeat match goal with
         | |- context [severity_eqb ?a ?b] => destruct (severity_eqb a b)
         end; cbn [length]; lia.
Qed.

Lemma apply_update_counts g d s :
  engine_inv g ->
  g_monitor_initialized g = true ->
  0 <= error_count d -> error_count d + 9 < 2 ^ 32 ->
  0 <= warning_count d -> warning_count d + 9 < 2 ^ 32 ->
  let r := apply_update (g, d) s in
  error_count (snd r)
  = error_count d + count_severity SeverityCritical g (snd r) /\
  alert_count (g_monitor_context (fst r))
  = Z.min ALERT_CAPACITY
      (alert_count (g_monitor_context g)
       + count_severity SeverityCritical g (snd r)
       + count_severity SeverityWarning g (snd r)).
Proof.
  intros Hinv Hi He0 He Hw0 Hw r.
  assert (Hcur : current_metrics (snd r)
                 = current_metrics (fold_left (update_metric (new_metrics s))
                                              (seq 0 METRIC_COUNT) d))
    by apply apply_update_current_metrics.
  unfold count_severity. rewrite Hcur. clear Hcur.
  unfold r. rewrite apply_update_unfold. cbv zeta.
  destruct (update_metric_fold_fields (new_metrics s) (seq 0 METRIC_COUNT) d)
    as (_ & _ & _ & _ & F5 & F6).
  cbv zeta in F5, F6.
  generalize dependent (fold_left (update_metric (new_metrics s))
                                  (seq 0 METRIC_COUNT) d).
  intros d1 F5 F6.
  destruct Hinv as [_ _ _ Hac _].
  destruct (check_metrics_counts (alert_time s) (seq 0 METRIC_COUNT) g
              (set_counters (now s) (error_count d1) (warning_count d1)
                            (uint32_t_wrap (data_points d1 + 1)) d1) Hi Hac)
    as [Hcount Hrec].
  - cbn [error_count set_counters]. rewrite F5. exact He0.
  - cbn [error_count set_counters]. rewrite F5, length_seq. exact He.
  - cbn [warning_count set_counters]. rewrite F6. exact Hw0.
  - cbn [warning_count set_counters]. rewrite F6, length_seq. exact Hw.
  - cbn [current_metrics set_counters error_count warning_count] in Hcount, Hrec.
    rewrite Hrec, Hcount. cbn [error_count set_counters]. rewrite F5.
    split; reflexivity.
Qed.

(** X17: the breach test is "value >= limit" for every metric, also for
    those where a high value is the good one.  With the speed and sector
    collectors enabled and a critical multiplier of at most 1 (0.9 by
    default) every [UpdateDriveMetrics] finds the read speed, the write
    speed and the sector health Critical: it adds at least 3 to the
    [error_count] of the record and, while the log has room, at least 3
    alerts to the log. *)
Theorem UpdateDriveMetrics_healthy_readings_critical
    g d stack rand k t alert_time :
  engine_inv g ->
  g_monitor_initialized g = true ->
  enable_speed_monitoring (g_monitor_config g) = true ->
  enable_sector_monitoring (g_monitor_config g) = true ->
  (critical_threshold (g_monitor_config g) <= 1)%Q ->
  (forall j, 0 <= rand j) ->
  length stack = METRIC_COUNT ->
  length (current_metrics d) = METRIC_COUNT ->
  0 <= error_count d -> error_count d + 9 < 2 ^ 32 ->
  0 <= warning_count d -> warning_count d + 9 < 2 ^ 32 ->
  let r := apply_update (g, d)
             (collected_sample g (drive_path d) stack rand k t alert_time) in
  error_count d + 3 <= error_count (snd r) /\
  Z.min ALERT_CAPACITY (alert_count (g_monitor_context g) + 3)
  <= alert_count (g_monitor_context (fst r)).
Proof.
  intros Hinv Hi Hspeed Hsector Hcrit Hr Hstack Hlen He0 He Hw0 Hw r.
  destruct (apply_update_counts g d
              (collected_sample g (drive_path d) stack rand k t alert_time)
              Hinv Hi He0 He Hw0 Hw) as [Herr Hlog].
  fold r in Herr, Hlog.
  assert (Hrange : forall i, (i < METRIC_COUNT)%nat ->
            metric_enabled (g_monitor_config g) (metric_of_index i) = true ->
            (fst (simulated_range (metric_of_index i))
             <= rd (current_metrics (snd r)) i)%Q).
  { intros i Hlt Hen. unfold r.
    rewrite apply_update_current by assumption.
    unfold collected_sample. cbn [new_metrics].
    destruct (collect_new_metrics_entry (g_monitor_config g) (drive_path d)
                stack rand k i Hstack Hlt) as (_ & _ & H).
    apply H; assumption. }
  assert (H9 : forall i, (i < 9)%nat -> (i < METRIC_COUNT)%nat)
    by (intros i H; exact H).
  pose proof (Hrange 1%nat (H9 1%nat ltac:(lia)) Hspeed) as H1.
  pose proof (Hrange 2%nat (H9 2%nat ltac:(lia)) Hspeed) as H2.
  pose proof (Hrange 8%nat (H9 8%nat ltac:(lia)) Hsector) as H8.
  cbn [metric_of_index simulated_range fst] in H1, H2, H8.
  assert (Hcount : 3 <= count_severity SeverityCritical g (snd r)).
  { assert (Hlimit : forall b : Q,
              (0 <= b)%Q -> (float_round (b * 1) <= b)%Q ->
              (fmul b (critical_threshold (g_monitor_config g)) <= b)%Q).
    { intros b Hb Hfix. eapply Qle_trans; [|exact Hfix].
      apply fmul_le_r; assumption. }
    assert (L5 : (fmul 5 (critical_threshold (g_monitor_config g)) <= 5)%Q)
      by (apply Hlimit; vm_compute; discriminate).
    assert (L80 : (fmul 80 (critical_threshold (g_monitor_config g)) <= 80)%Q)
      by (apply Hlimit; vm_compute; discriminate).
    apply count_critical_lower; apply metric_severity_critical;
      cbn [GetMetricThreshold]; lra. }
  pose proof (count_severity_nonneg SeverityWarning g (snd r)) as Hwarn.
  rewrite Herr, Hlog. split; lia.
Qed.

Lemma UpdateDriveMetrics_healthy_readings_critical_witness :
  0 + 3 <= error_count (snd first_collected_update) /\
  Z.min ALERT_CAPACITY (0 + 3)
  <= alert_count (g_monitor_context (fst first_collected_update)).
Proof.
  apply (UpdateDriveMetrics_healthy_readings_critical
           (run_calls started_engine) (new_drive_data "E:" 0)
           (constant_stack 777) (constant_rand 7) 0 5 (fun _ => 0)).
  - apply reachable_inv, run_calls_reachable.
  - reflexivity.
  - reflexivity.
  - reflexivity.
  - vm_compute. discriminate.
  - intros j. unfold constant_rand. lia.
  - reflexivity.
  - reflexivity.
  - vm_compute. discriminate.
  - vm_compute. reflexivity.
  - vm_compute. discriminate.
  - vm_compute. reflexivity.
Defined.

End MonitorExtras.

Module PredictorExtras.
Import Predictor MonitorProofs.

(** ** The health score and the estimate *)

(** The two clamps that end [CalculateHealthScore]. *)
Lemma clamp_bounds (s b : Q) :
  (0 <= b <= 1)%Q -> (s <= b)%Q ->
  (0 <= (if fgt (if flt s 0 then 0 else s) 1 then 1
         else (if flt s 0 then 0 else s)) <= b)%Q.
Proof.
  intros Hb Hs. destruct (flt s 0) eqn:E0.
  - replace (fgt 0 1) with false by reflexivity. lra.
  - apply flt_false in E0. destruct (fgt s 1) eqn:E1.
    + apply fgt_true in E1. lra.
    + lra.
Qed.

Lemma clamp_unit (s : Q) :
  (0 <= (if fgt (if flt s 0 then 0 else s) 1 then 1
         else (if flt s 0 then 0 else s)) <= 1)%Q.
Proof.
  destruct (flt s 0) eqn:E0.
  - replace (fgt 0 1) with false by reflexivity. lra.
  - apply flt_false in E0. destruct (fgt s 1) eqn:E1; [lra|].
    apply fgt_false in E1. lra.
Qed.

Lemma ratio_nonneg (a b : Z) :
  0 <= a -> 0 < b -> (0 <= inject_Z a / inject_Z b)%Q.
Proof.
  intros Ha Hb. apply Qle_shift_div_l.
  - change 0%Q with (inject_Z 0). rewrite <- Zlt_Qlt. exact Hb.
  - rewrite Qmult_0_l. change 0%Q with (inject_Z 0). rewrite <- Zle_Qle.
    exact Ha.
Qed.

(** X18: whatever the sample (a null pointer included), the health score
    lies between 0 and 1 and the estimate of the remaining life is one of
    730, 365, 182, 91 and 30 days. *)
Theorem CalculateHealthScore_range metrics :
  (0 <= CalculateHealthScore metrics <= 1)%Q /\
  In (EstimateDaysRemaining metrics) [730; 365; 182; 91; 30].
Proof.
  split.
  - destruct metrics as [m|]; [|cbn; lra].
    unfold CalculateHealthScore. cbv zeta. apply clamp_unit.
  - unfold EstimateDaysRemaining. cbv zeta.
    generalize (CalculateHealthScore metrics). intros s.
    destruct (fgt s (8 # 10)); [vm_compute; auto 10|].
    destruct (fgt s (6 # 10)); [vm_compute; auto 10|].
    destruct (fgt s (4 # 10)); [vm_compute; auto 10|].
    destruct (fgt s (2 # 10)); vm_compute; auto 10.
Qed.

(** X19: a sample that reports a bad sector scores at most 0.6, whatever
    its other fields, so that the estimate is at most 182 days. *)
Theorem bad_sectors_cap_estimate m :
  0 < bad_sectors m ->
  0 <= error_count m -> 0 <= retry_count m ->
  (CalculateHealthScore (Some m) <= 6 # 10)%Q /\
  EstimateDaysRemaining (Some m) <= 182.
Proof.
  intros Hb He Hr.
  assert (Hscore : (CalculateHealthScore (Some m) <= 6 # 10)%Q).
  { unfold CalculateHealthScore. cbv zeta.
    rewrite (proj2 (Z.ltb_lt 0 (bad_sectors m)) Hb).
    apply clamp_bounds; [lra|].
    destruct (0 <? total_writes m) eqn:Ew.
    - apply Z.ltb_lt in Ew.
      pose proof (ratio_nonneg _ _ He Ew) as Her.
      pose proof (ratio_nonneg _ _ Hr Ew) as Hrr.
      revert Her Hrr.
      generalize (inject_Z (error_count m) / inject_Z (total_writes m))%Q.
      generalize (inject_Z (retry_count m) / inject_Z (total_writes m))%Q.
      intros rr er Her Hrr.
      repeat match goal with
             | |- context [if ?c then _ else _] => destruct c
             end; lra.
    - repeat match goal with
             | |- context [if ?c then _ else _] => destruct c
             end; lra. }
  split; [exact Hscore|].
  unfold EstimateDaysRemaining. cbv zeta. revert Hscore.
  generalize (CalculateHealthScore (Some m)). intros s Hs.
  rewrite (proj2 (fgt_false s (8 # 10))) by lra.
  rewrite (proj2 (fgt_false s (6 # 10))) by lra.
  destruct (fgt s (4 # 10)); [vm_compute; discriminate|].
  destruct (fgt s (2 # 10)); vm_compute; discriminate.
Qed.

Lemma bad_sectors_cap_estimate_witness :
  (CalculateHealthScore (Some bad_sector_sample) <= 6 # 10)%Q /\
  EstimateDaysRemaining (Some bad_sector_sample) <= 182.
Proof.
  apply (bad_sectors_cap_estimate bad_sector_sample); vm_compute;
    (reflexivity || discriminate).
Defined.

(** ** The network *)

Lemma sigmoid_bounds (expf : Q -> Q) x :
  (forall y, 0 <= expf y)%Q -> (0 <= sigmoid expf x <= 1)%Q.
Proof.
  intros H. unfold sigmoid. pose proof (H (- x)%Q) as He. split.
  - apply Qle_shift_div_l; lra.
  - apply Qle_shift_div_r; lra.
Qed.

(** X20: as long as [expf] returns no negative number, the output of the
    network is a probability: it lies between 0 and 1 for every network
    and every sample, null pointers included. *)
Theorem PredictWithNeuralNetwork_range (expf : Q -> Q) nn metrics :
  (forall y, 0 <= expf y)%Q ->
  (0 <= PredictWithNeuralNetwork expf nn metrics <= 1)%Q.
Proof.
  intros H. unfold PredictWithNeuralNetwork.
  destruct nn as [nn|]; [|lra]. destruct metrics as [m|]; [|lra].
  cbv zeta. apply sigmoid_bounds, H.
Qed.

Lemma PredictWithNeuralNetwork_range_witness :
  (0 <= PredictWithNeuralNetwork unit_expf (Some zero_network)
          (Some good_sample) <= 1)%Q.
Proof.
  apply (PredictWithNeuralNetwork_range unit_expf (Some zero_network)
           (Some good_sample)).
  intros y. unfold unit_expf. lra.
Defined.

(** ** The verdict *)

Section Verdict.

Variable expf : Q -> Q.
Variable app_data_dir : string.
Variable static_sprintf : nat -> string -> string.
Variable fs : file_system.
Variable nn : neural_network_t.




End Verdict.

(** ** The network before it is initialised *)







(** ** Recording a sample *)

Section Recording.

Variable app_data_dir : string.
Variable static_sprintf : nat -> string -> string.

Lemma LoadUSBHealthData_written p c (fs : file_system) :
  LoadUSBHealthData app_data_dir static_sprintf
    (write_file (health_data_file app_data_dir static_sprintf p) c fs)
    (Some p) = c.
Proof.
  unfold LoadUSBHealthData, write_file. rewrite String.eqb_refl. reflexivity.
Qed.

Lemma RecordUSBHealthMetrics_saved p m clock (fs : file_system) :
  let r := RecordUSBHealthMetrics app_data_dir static_sprintf (Some p)
             (Some m) clock true true fs in
  snd r = true /\
  LoadUSBHealthData app_data_dir static_sprintf (fst r) (Some p)
  = Some (add_metrics
            (LoadUSBHealthData app_data_dir static_sprintf fs (Some p))
            m clock).
Proof.
  unfold RecordUSBHealthMetrics, SaveUSBHealthData. cbn [fst snd].
  split; [reflexivity|]. apply LoadUSBHealthData_written.
Qed.

Lemma max_points : Z.to_nat HEALTH_DATA_POINTS_MAX = 1000%nat.
Proof. reflexivity. Qed.

Lemma shift_metrics_length ms :
  length ms = Z.to_nat HEALTH_DATA_POINTS_MAX ->
  length (shift_metrics ms) = Z.to_nat HEALTH_DATA_POINTS_MAX.
Proof.
  intros H. unfold shift_metrics. cbv zeta.
  rewrite length_app, length_take, !length_drop, H.
  unfold HEALTH_DATA_POINTS_MAX. lia.
Qed.

Lemma shift_metrics_lookup (ms : list usb_health_metrics_t) i :
  length ms = Z.to_nat HEALTH_DATA_POINTS_MAX ->
  (i < Z.to_nat (HEALTH_DATA_POINTS_MAX - 1))%nat ->
  shift_metrics ms !! i = ms !! S i.
Proof.
  intros H Hi. unfold shift_metrics. cbv zeta.
  rewrite lookup_app_l
    by (rewrite length_take, length_drop, H;
        unfold HEALTH_DATA_POINTS_MAX in *; lia).
  rewrite lookup_take_lt by exact Hi.
  rewrite lookup_drop. reflexivity.
Qed.

(** The sample [RecordUSBHealthMetrics] stores: the given one but for its
    time stamp. *)
Lemma with_timestamp_fields t m :
  let e := with_timestamp t m in
  (timestamp e = t /\
   total_writes e = total_writes m /\
   total_reads e = total_reads m /\
   error_count e = error_count m /\
   retry_count e = retry_count m /\
   bad_sectors e = bad_sectors m /\
   write_speed_avg e = write_speed_avg m /\
   read_speed_avg e = read_speed_avg m /\
   temperature_avg e = temperature_avg m /\
   power_cycles e = power_cycles m /\
   hours_used e = hours_used m).
Proof. repeat split. Qed.

Lemma RecordUSBHealthMetrics_first_effect p m clock (fs : file_system) :
  LoadUSBHealthData app_data_dir static_sprintf fs (Some p) = None ->
  let r := RecordUSBHealthMetrics app_data_dir static_sprintf (Some p)
             (Some m) clock true true fs in
  snd r = true /\
  exists c,
    LoadUSBHealthData app_data_dir static_sprintf (fst r) (Some p) = Some c /\
    metrics_count c = 1 /\
    metrics c !! 0%nat = Some (with_timestamp (clock 1%nat) m) /\
    first_seen c = clock 0%nat /\ last_updated c = clock 2%nat /\
    drive_model c = "Unknown"%string /\
    drive_manufacturer c = "Unknown"%string.
Proof.
  intros Hload r.
  destruct (RecordUSBHealthMetrics_saved p m clock fs) as [Hret Hsaved].
  fold r in Hret, Hsaved. split; [exact Hret|].
  rewrite Hload in Hsaved. eexists. split; [exact Hsaved|].
  split; [reflexivity|]. split; [reflexivity|].
  split; [reflexivity|]. split; [reflexivity|]. split; reflexivity.
Qed.

(** X24: recording a sample for a drive that has no readable health file
    starts a new history: the call returns TRUE and the file then holds
    one sample, whose time stamp is the second clock reading and whose
    other fields are those of the given sample; the first reading is
    [first_seen], the third [last_updated], and model and manufacturer are
    "Unknown". *)
Theorem RecordUSBHealthMetrics_first_sample p m clock (fs : file_system) :
  LoadUSBHealthData app_data_dir static_sprintf fs (Some p) = None ->
  let r := RecordUSBHealthMetrics app_data_dir static_sprintf (Some p)
             (Some m) clock true true fs in
  snd r = true /\
  exists c e,
    LoadUSBHealthData app_data_dir static_sprintf (fst r) (Some p) = Some c /\
    metrics_count c = 1 /\
    metrics c !! 0%nat = Some e /\
    (timestamp e = clock 1%nat /\
     total_writes e = total_writes m /\
     total_reads e = total_reads m /\
     error_count e = error_count m /\
     retry_count e = retry_count m /\
     bad_sectors e = bad_sectors m /\
     write_speed_avg e = write_speed_avg m /\
     read_speed_avg e = read_speed_avg m /\
     temperature_avg e = temperature_avg m /\
     power_cycles e = power_cycles m /\
     hours_used e = hours_used m) /\
    first_seen c = clock 0%nat /\ last_updated c = clock 2%nat /\
    drive_model c = "Unknown"%string /\
    drive_manufacturer c = "Unknown"%string.
Proof.
  intros Hload r.
  destruct (RecordUSBHealthMetrics_first_effect p m clock fs Hload)
    as (Hret & c & Hc & Hn & He & Hrest).
  split; [exact Hret|]. exists c, (with_timestamp (clock 1%nat) m).
  split; [exact Hc|]. split; [exact Hn|]. split; [exact He|].
  split; [apply with_timestamp_fields | exact Hrest].
Qed.

Lemma RecordUSBHealthMetrics_appends_effect p m clock (fs : file_system) c :
  LoadUSBHealthData app_data_dir static_sprintf fs (Some p) = Some c ->
  0 <= metrics_count c < HEALTH_DATA_POINTS_MAX ->
  length (metrics c) = Z.to_nat HEALTH_DATA_POINTS_MAX ->
  let r := RecordUSBHealthMetrics app_data_dir static_sprintf (Some p)
             (Some m) clock true true fs in
  snd r = true /\
  exists c',
    LoadUSBHealthData app_data_dir static_sprintf (fst r) (Some p)
    = Some c' /\
    metrics_count c' = metrics_count c + 1 /\
    metrics c' !! Z.to_nat (metrics_count c)
    = Some (with_timestamp (clock 0%nat) m) /\
    (forall i, i <> Z.to_nat (metrics_count c) ->
               metrics c' !! i = metrics c !! i) /\
    first_seen c' = first_seen c /\ last_updated c' = clock 1%nat.
Proof.
  intros Hload Hcount Hlen r.
  destruct (RecordUSBHealthMetrics_saved p m clock fs) as [Hret Hsaved].
  fold r in Hret, Hsaved. split; [exact Hret|].
  rewrite Hload in Hsaved. eexists. split; [exact Hsaved|].
  unfold add_metrics.
  rewrite (proj2 (Z.ltb_lt _ _) (proj2 Hcount)).
  cbn [metrics metrics_count first_seen last_updated with_metrics
       with_last_updated].
  split.
  { apply uint32_t_wrap_small. unfold HEALTH_DATA_POINTS_MAX in Hcount. lia. }
  split.
  { apply list_lookup_insert_eq. rewrite Hlen.
    unfold HEALTH_DATA_POINTS_MAX in *. lia. }
  split.
  { intros i Hi. apply list_lookup_insert_ne. congruence. }
  split; reflexivity.
Qed.

(** X25: recording a sample for a drive whose history has room appends
    it: the call returns TRUE, the count grows by one, the new entry has
    the first clock reading as its time stamp and the other fields of the
    given sample, every other entry and [first_seen] are kept, and
    [last_updated] is the second clock reading. *)
Theorem RecordUSBHealthMetrics_appends p m clock (fs : file_system) c :
  LoadUSBHealthData app_data_dir static_sprintf fs (Some p) = Some c ->
  0 <= metrics_count c < HEALTH_DATA_POINTS_MAX ->
  length (metrics c) = Z.to_nat HEALTH_DATA_POINTS_MAX ->
  let r := RecordUSBHealthMetrics app_data_dir static_sprintf (Some p)
             (Some m) clock true true fs in
  snd r = true /\
  exists c' e,
    LoadUSBHealthData app_data_dir static_sprintf (fst r) (Some p)
    = Some c' /\
    metrics_count c' = metrics_count c + 1 /\
    metrics c' !! Z.to_nat (metrics_count c) = Some e /\
    (timestamp e = clock 0%nat /\
     total_writes e = total_writes m /\
     total_reads e = total_reads m /\
     error_count e = error_count m /\
     retry_count e = retry_count m /\
     bad_sectors e = bad_sectors m /\
     write_speed_avg e = write_speed_avg m /\
     read_speed_avg e = read_speed_avg m /\
     temperature_avg e = temperature_avg m /\
     power_cycles e = power_cycles m /\
     hours_used e = hours_used m) /\
    (forall i, i <> Z.to_nat (metrics_count c) ->
               metrics c' !! i = metrics c !! i) /\
    first_seen c' = first_seen c /\ last_updated c' = clock 1%nat.
Proof.
  intros Hload Hcount Hlen r.
  destruct (RecordUSBHealthMetrics_appends_effect p m clock fs c Hload Hcount
              Hlen) as (Hret & c' & Hc & Hn & He & Hrest).
  split; [exact Hret|]. exists c', (with_timestamp (clock 0%nat) m).
  split; [exact Hc|]. split; [exact Hn|]. split; [exact He|].
  split; [apply with_timestamp_fields | exact Hrest].
Qed.

Lemma RecordUSBHealthMetrics_full_effect p m clock (fs : file_system) c :
  LoadUSBHealthData app_data_dir static_sprintf fs (Some p) = Some c ->
  HEALTH_DATA_POINTS_MAX <= metrics_count c ->
  length (metrics c) = Z.to_nat HEALTH_DATA_POINTS_MAX ->
  let r := RecordUSBHealthMetrics app_data_dir static_sprintf (Some p)
             (Some m) clock true true fs in
  snd r = true /\
  exists c',
    LoadUSBHealthData app_data_dir static_sprintf (fst r) (Some p)
    = Some c' /\
    metrics_count c' = metrics_count c /\
    length (metrics c') = Z.to_nat HEALTH_DATA_POINTS_MAX /\
    metrics c' !! Z.to_nat (HEALTH_DATA_POINTS_MAX - 1)
    = Some (with_timestamp (clock 0%nat) m) /\
    (forall i, (i < Z.to_nat (HEALTH_DATA_POINTS_MAX - 1))%nat ->
               metrics c' !! i = metrics c !! S i) /\
    first_seen c' = first_seen c /\ last_updated c' = clock 1%nat.
Proof.
  intros Hload Hcount Hlen r.
  destruct (RecordUSBHealthMetrics_saved p m clock fs) as [Hret Hsaved].
  fold r in Hret, Hsaved. split; [exact Hret|].
  rewrite Hload in Hsaved. eexists. split; [exact Hsaved|].
  unfold add_metrics.
  rewrite (proj2 (Z.ltb_ge _ _) Hcount).
  cbn [metrics metrics_count first_seen last_updated with_metrics
       with_last_updated].
  pose proof (shift_metrics_length (metrics c) Hlen) as Hshift.
  split; [reflexivity|]. split.
  { rewrite length_insert. exact Hshift. }
  split.
  { apply list_lookup_insert_eq. rewrite Hshift.
    unfold HEALTH_DATA_POINTS_MAX. lia. }
  split.
  { intros i Hi. rewrite list_lookup_insert_ne by lia.
    apply shift_metrics_lookup; assumption. }
  split; reflexivity.
Qed.

(** X26: when the history is full, recording drops its oldest sample:
    the call returns TRUE, the count stays, every entry moves down by one
    place and the last entry has the first clock reading as its time
    stamp and the other fields of the given sample. *)
Theorem RecordUSBHealthMetrics_full_history p m clock (fs : file_system) c :
  LoadUSBHealthData app_data_dir static_sprintf fs (Some p) = Some c ->
  HEALTH_DATA_POINTS_MAX <= metrics_count c ->
  length (metrics c) = Z.to_nat HEALTH_DATA_POINTS_MAX ->
  let r := RecordUSBHealthMetrics app_data_dir static_sprintf (Some p)
             (Some m) clock true true fs in
  snd r = true /\
  exists c' e,
    LoadUSBHealthData app_data_dir static_sprintf (fst r) (Some p)
    = Some c' /\
    metrics_count c' = metrics_count c /\
    length (metrics c') = Z.to_nat HEALTH_DATA_POINTS_MAX /\
    metrics c' !! Z.to_nat (HEALTH_DATA_POINTS_MAX - 1) = Some e /\
    (timestamp e = clock 0%nat /\
     total_writes e = total_writes m /\
     total_reads e = total_reads m /\
     error_count e = error_count m /\
     retry_count e = retry_count m /\
     bad_sectors e = bad_sectors m /\
     write_speed_avg e = write_speed_avg m /\
     read_speed_avg e = read_speed_avg m /\
     temperature_avg e = temperature_avg m /\
     power_cycles e = power_cycles m /\
     hours_used e = hours_used m) /\
    (forall i, (i < Z.to_nat (HEALTH_DATA_POINTS_MAX - 1))%nat ->
               metrics c' !! i = metrics c !! S i) /\
    first_seen c' = first_seen c /\ last_updated c' = clock 1%nat.
Proof.
  intros Hload Hcount Hlen r.
  destruct (RecordUSBHealthMetrics_full_effect p m clock fs c Hload Hcount
              Hlen) as (Hret & c' & Hc & Hn & Hl & He & Hrest).
  split; [exact Hret|]. exists c', (with_timestamp (clock 0%nat) m).
  split; [exact Hc|]. split; [exact Hn|]. split; [exact Hl|].
  split; [exact He|].
  split; [apply with_timestamp_fields | exact Hrest].
Qed.

(** X27: after a sample was recorded for a drive (whose file, if there is
    one, holds a well-formed history), [PredictUSBHealth] for that drive
    judges exactly that sample: the failure probability is the output of
    the network and the estimate the one of [EstimateDaysRemaining] for
    the recorded sample with its time stamp. *)
Theorem RecordUSBHealthMetrics_then_predict (expf : Q -> Q) nn p m clock
    (fs : file_system) old :
  (LoadUSBHealthData app_data_dir static_sprintf fs (Some p) = None \/
   exists c,
     LoadUSBHealthData app_data_dir static_sprintf fs (Some p) = Some c /\
     0 <= metrics_count c <= HEALTH_DATA_POINTS_MAX /\
     length (metrics c) = Z.to_nat HEALTH_DATA_POINTS_MAX) ->
  let fs' := fst (RecordUSBHealthMetrics app_data_dir static_sprintf
                    (Some p) (Some m) clock true true fs) in
  exists t q,
    PredictUSBHealth expf app_data_dir static_sprintf fs' nn (Some p)
                     (Some old) = (Some q, true) /\
    failure_probability q
    = PredictWithNeuralNetwork expf (Some nn) (Some (with_timestamp t m)) /\
    days_remaining q = EstimateDaysRemaining (Some (with_timestamp t m)).
Proof.
  intros Hfs fs'.
  assert (Hrecent : exists t c',
            LoadUSBHealthData app_data_dir static_sprintf fs' (Some p)
            = Some c' /\
            metrics_count c' <> 0 /\
            metrics c' !! Z.to_nat (metrics_count c' - 1)
            = Some (with_timestamp t m)).
  { destruct Hfs as [Hnone | (c & Hsome & Hcount & Hlen)].
    - destruct (RecordUSBHealthMetrics_first_effect p m clock fs Hnone)
        as (_ & c' & Hload & Hc & Hm & _).
      exists (clock 1%nat), c'. split; [exact Hload|].
      rewrite Hc. split; [discriminate | exact Hm].
    - destruct (Z.ltb_spec (metrics_count c) HEALTH_DATA_POINTS_MAX)
        as [Hroom | Hfull].
      + destruct (RecordUSBHealthMetrics_appends_effect p m clock fs c Hsome
                    (conj (proj1 Hcount) Hroom) Hlen)
          as (_ & c' & Hload & Hc & Hm & _).
        exists (clock 0%nat), c'. split; [exact Hload|].
        rewrite Hc. split; [lia|].
        replace (metrics_count c + 1 - 1) with (metrics_count c) by lia.
        exact Hm.
      + destruct (RecordUSBHealthMetrics_full_effect p m clock fs c Hsome
                    Hfull Hlen)
          as (_ & c' & Hload & Hc & _ & Hm & _).
        exists (clock 0%nat), c'. split; [exact Hload|].
        rewrite Hc. replace (metrics_count c) with HEALTH_DATA_POINTS_MAX
          by lia.
        split; [discriminate | exact Hm]. }
  destruct Hrecent as (t & c' & Hload & Hne & Hm).
  exists t. unfold PredictUSBHealth. rewrite Hload.
  rewrite (proj2 (Z.eqb_neq _ _) Hne). cbv zeta. rewrite Hm.
  eexists. split; [reflexivity|]. split; reflexivity.
Qed.

(** X28: a sample is lost when the file cannot be written.  If the file
    cannot be opened [RecordUSBHealthMetrics] returns FALSE and changes
    nothing; if it was opened and the write fails it returns FALSE and
    the drive has no readable history any more, whatever it had before;
    the files of other names are untouched in all cases. *)
Theorem RecordUSBHealthMetrics_write_failure p m clock (fs : file_system)
    write_ok :
  RecordUSBHealthMetrics app_data_dir static_sprintf (Some p) (Some m)
                         clock false write_ok fs = (fs, false) /\
  let r := RecordUSBHealthMetrics app_data_dir static_sprintf (Some p)
             (Some m) clock true false fs in
  snd r = false /\
  LoadUSBHealthData app_data_dir static_sprintf (fst r) (Some p) = None /\
  forall name open_ok,
    name <> health_data_file app_data_dir static_sprintf p ->
    fst (RecordUSBHealthMetrics app_data_dir static_sprintf (Some p)
           (Some m) clock open_ok write_ok fs) name = fs name.
Proof.
  split; [reflexivity|]. cbv zeta. split; [reflexivity|]. split.
  - unfold RecordUSBHealthMetrics, SaveUSBHealthData. cbn [fst].
    apply LoadUSBHealthData_written.
  - intros name open_ok Hname.
    unfold RecordUSBHealthMetrics, SaveUSBHealthData.
    destruct open_ok; [|reflexivity].
    destruct write_ok; cbn [fst]; unfold write_file;
      rewrite (proj2 (String.eqb_neq _ _) Hname); reflexivity.
Qed.

(** X29: the health file is named after the first character of the path
    alone, so two paths that begin alike are one drive to the predictor:
    they load the same history, get the same prediction, and a sample
    recorded for one is recorded for the other. *)
Theorem history_keyed_by_first_character (expf : Q -> Q) nn p q :
  String.get 0 p = String.get 0 q ->
  forall (fs : file_system),
    LoadUSBHealthData app_data_dir static_sprintf fs (Some p)
    = LoadUSBHealthData app_data_dir static_sprintf fs (Some q) /\
    (forall old,
       PredictUSBHealth expf app_data_dir static_sprintf fs nn (Some p)
                        (Some old)
       = PredictUSBHealth expf app_data_dir static_sprintf fs nn (Some q)
                          (Some old)) /\
    (forall m clock open_ok write_ok,
       RecordUSBHealthMetrics app_data_dir static_sprintf (Some p) (Some m)
                              clock open_ok write_ok fs
       = RecordUSBHealthMetrics app_data_dir static_sprintf (Some q) (Some m)
                                clock open_ok write_ok fs).
Proof.
  intros Hfirst fs.
  assert (Hname : health_data_file app_data_dir static_sprintf p
                  = health_data_file app_data_dir static_sprintf q).
  { unfold health_data_file.
    destruct p as [|a p], q as [|b q]; try discriminate; [reflexivity|].
    cbn in Hfirst. inversion Hfirst. reflexivity. }
  assert (Hload : LoadUSBHealthData app_data_dir static_sprintf fs (Some p)
                  = LoadUSBHealthData app_data_dir static_sprintf fs (Some q))
    by (unfold LoadUSBHealthData; rewrite Hname; reflexivity).
  split; [exact Hload|]. split.
  - intros old. unfold PredictUSBHealth. rewrite Hload. reflexivity.
  - intros m clock open_ok write_ok.
    unfold RecordUSBHealthMetrics, SaveUSBHealthData. cbv zeta.
    rewrite Hload, Hname. reflexivity.
Qed.

End Recording.

Lemma RecordUSBHealthMetrics_first_sample_witness :
  let r := RecordUSBHealthMetrics "C:\data" plain_sprintf (Some "E:"%string)
             (Some good_sample) late_clock true true no_files in
  snd r = true /\
  exists c e,
    LoadUSBHealthData "C:\data" plain_sprintf (fst r) (Some "E:"%string)
    = Some c /\
    metrics_count c = 1 /\
    metrics c !! 0%nat = Some e /\
    (timestamp e = late_clock 1%nat /\
     total_writes e = total_writes good_sample /\
     total_reads e = total_reads good_sample /\
     error_count e = error_count good_sample /\
     retry_count e = retry_count good_sample /\
     bad_sectors e = bad_sectors good_sample /\
     write_speed_avg e = write_speed_avg good_sample /\
     read_speed_avg e = read_speed_avg good_sample /\
     temperature_avg e = temperature_avg good_sample /\
     power_cycles e = power_cycles good_sample /\
     hours_used e = hours_used good_sample) /\
    first_seen c = late_clock 0%nat /\ last_updated c = late_clock 2%nat /\
    drive_model c = "Unknown"%string /\
    drive_manufacturer c = "Unknown"%string.
Proof.
  apply (RecordUSBHealthMetrics_first_sample "C:\data" plain_sprintf "E:"
           good_sample late_clock no_files).
  reflexivity.
Defined.

Lemma RecordUSBHealthMetrics_appends_witness :
  let c := add_metrics None good_sample Z.of_nat in
  let r := RecordUSBHealthMetrics "C:\data" plain_sprintf (Some "E:"%string)
             (Some bad_sector_sample) late_clock true true recorded_files in
  snd r = true /\
  exists c' e,
    LoadUSBHealthData "C:\data" plain_sprintf (fst r) (Some "E:"%string)
    = Some c' /\
    metrics_count c' = metrics_count c + 1 /\
    metrics c' !! Z.to_nat (metrics_count c) = Some e /\
    (timestamp e = late_clock 0%nat /\
     total_writes e = total_writes bad_sector_sample /\
     total_reads e = total_reads bad_sector_sample /\
     error_count e = error_count bad_sector_sample /\
     retry_count e = retry_count bad_sector_sample /\
     bad_sectors e = bad_sectors bad_sector_sample /\
     write_speed_avg e = write_speed_avg bad_sector_sample /\
     read_speed_avg e = read_speed_avg bad_sector_sample /\
     temperature_avg e = temperature_avg bad_sector_sample /\
     power_cycles e = power_cycles bad_sector_sample /\
     hours_used e = hours_used bad_sector_sample) /\
    (forall i, i <> Z.to_nat (metrics_count c) ->
               metrics c' !! i = metrics c !! i) /\
    first_seen c' = first_seen c /\ last_updated c' = late_clock 1%nat.
Proof.
  apply (RecordUSBHealthMetrics_appends "C:\data" plain_sprintf "E:"
           bad_sector_sample late_clock recorded_files
           (add_metrics None good_sample Z.of_nat)).
  - reflexivity.
  - vm_compute. split; [discriminate | reflexivity].
  - reflexivity.
Defined.

Lemma RecordUSBHealthMetrics_full_history_witness :
  let r := RecordUSBHealthMetrics "C:\data" plain_sprintf (Some "E:"%string)
             (Some bad_sector_sample) late_clock true true full_files in
  snd r = true /\
  exists c' e,
    LoadUSBHealthData "C:\data" plain_sprintf (fst r) (Some "E:"%string)
    = Some c' /\
    metrics_count c' = metrics_count full_context /\
    length (metrics c') = Z.to_nat HEALTH_DATA_POINTS_MAX /\
    metrics c' !! Z.to_nat (HEALTH_DATA_POINTS_MAX - 1) = Some e /\
    (timestamp e = late_clock 0%nat /\
     total_writes e = total_writes bad_sector_sample /\
     total_reads e = total_reads bad_sector_sample /\
     error_count e = error_count bad_sector_sample /\
     retry_count e = retry_count bad_sector_sample /\
     bad_sectors e = bad_sectors bad_sector_sample /\
     write_speed_avg e = write_speed_avg bad_sector_sample /\
     read_speed_avg e = read_speed_avg bad_sector_sample /\
     temperature_avg e = temperature_avg bad_sector_sample /\
     power_cycles e = power_cycles bad_sector_sample /\
     hours_used e = hours_used bad_sector_sample) /\
    (forall i, (i < Z.to_nat (HEALTH_DATA_POINTS_MAX - 1))%nat ->
               metrics c' !! i = metrics full_context !! S i) /\
    first_seen c' = first_seen full_context /\
    last_updated c' = late_clock 1%nat.
Proof.
  apply (RecordUSBHealthMetrics_full_history "C:\data" plain_sprintf "E:"
           bad_sector_sample late_clock full_files full_context).
  - reflexivity.
  - vm_compute. discriminate.
  - reflexivity.
Defined.

Lemma RecordUSBHealthMetrics_then_predict_witness :
  let fs' := fst (RecordUSBHealthMetrics "C:\data" plain_sprintf
                    (Some "E:"%string) (Some good_sample) Z.of_nat true true
                    no_files) in
  exists t q,
    PredictUSBHealth unit_expf "C:\data" plain_sprintf fs' zero_network
                     (Some "E:"%string) (Some zero_prediction)
    = (Some q, true) /\
    failure_probability q
    = PredictWithNeuralNetwork unit_expf (Some zero_network)
                               (Some (with_timestamp t good_sample)) /\
    days_remaining q
    = EstimateDaysRemaining (Some (with_timestamp t good_sample)).
Proof.
  apply (RecordUSBHealthMetrics_then_predict "C:\data" plain_sprintf
           unit_expf zero_network "E:" good_sample Z.of_nat no_files
           zero_prediction).
  left. reflexivity.
Defined.

Lemma history_keyed_by_first_character_witness :
  LoadUSBHealthData "C:\data" plain_sprintf recorded_files
                    (Some "E:"%string)
  = LoadUSBHealthData "C:\data" plain_sprintf recorded_files
                      (Some "E:\backup"%string).
Proof.
  exact (proj1 (history_keyed_by_first_character "C:\data" plain_sprintf
                  unit_expf zero_network "E:" "E:\backup" eq_refl
                  recorded_files)).
Defined.

End PredictorExtras.

Module DNAExtras.
Import DNA.

Lemma byte_at_map (g : nat -> Z) n i :
  (i < n)%nat -> byte_at (map g (seq 0 n)) i = g i.
Proof.
  intros H. unfold byte_at. rewrite list_lookup_fmap, lookup_seq_lt by exact H.
  reflexivity.
Qed.

Lemma memcmp_eq_spec a b n :
  memcmp_eq a b n = true <->
  forall i, (i < n)%nat -> byte_at a i = byte_at b i.
Proof.
  unfold memcmp_eq. rewrite forallb_forall. split.
  - intros H i Hi. apply Z.eqb_eq, H, in_seq. lia.
  - intros H i Hi. apply Z.eqb_eq, H. apply in_seq in Hi. lia.
Qed.

Lemma GenerateDNASignature_lower_half f bytes :
  (forall i, (i < USB_DNA_SIGNATURE_SIZE)%nat ->
             byte_at bytes i = byte_at (fingerprint f) i) ->
  GenerateDNASignature (Some (set_fingerprint bytes f))
  = GenerateDNASignature (Some f).
Proof.
  intros H. unfold GenerateDNASignature. f_equal.
  apply map_ext_in. intros i Hi. apply in_seq in Hi.
  cbn [fingerprint set_fingerprint].
  assert (Hmod : (i mod USB_DNA_FINGERPRINT_SIZE)%nat = i).
  { apply Nat.mod_small. unfold USB_DNA_FINGERPRINT_SIZE.
    unfold USB_DNA_SIGNATURE_SIZE in Hi. lia. }
  rewrite Hmod, H by lia. reflexivity.
Qed.

(** X30: a fingerprint signed with [GenerateDNASignature] passes
    [VerifyUSBDNAFingerprint], and it still passes after any byte of the
    second half of the fingerprint (index 32 and above) was changed: the
    signature covers the first 32 of the 64 bytes only. *)
Theorem VerifyUSBDNAFingerprint_covers_half f s i b :
  GenerateDNASignature (Some f) = Some s ->
  (USB_DNA_SIGNATURE_SIZE <= i)%nat ->
  VerifyUSBDNAFingerprint (Some (set_signature s f)) = true /\
  VerifyUSBDNAFingerprint
    (Some (set_fingerprint (<[i := b]> (fingerprint f)) (set_signature s f)))
  = true.
Proof.
  intros Hs Hi.
  assert (Hsigned : GenerateDNASignature (Some (set_signature s f)) = Some s)
    by exact Hs.
  assert (Hself : memcmp_eq s s USB_DNA_SIGNATURE_SIZE = true)
    by (apply memcmp_eq_spec; reflexivity).
  split.
  - unfold VerifyUSBDNAFingerprint. rewrite Hsigned. exact Hself.
  - unfold VerifyUSBDNAFingerprint.
    rewrite (GenerateDNASignature_lower_half (set_signature s f)).
    + rewrite Hsigned. exact Hself.
    + intros j Hj. cbn [fingerprint set_signature]. unfold byte_at.
      rewrite list_lookup_insert_ne by lia. reflexivity.
Qed.

Lemma VerifyUSBDNAFingerprint_covers_half_witness :
  let s := default [] (GenerateDNASignature (Some counting_fingerprint)) in
  VerifyUSBDNAFingerprint (Some (set_signature s counting_fingerprint))
  = true /\
  VerifyUSBDNAFingerprint
    (Some (set_fingerprint (<[40%nat := 255]> (fingerprint counting_fingerprint))
                           (set_signature s counting_fingerprint)))
  = true.
Proof.
  apply (VerifyUSBDNAFingerprint_covers_half counting_fingerprint
           (default [] (GenerateDNASignature (Some counting_fingerprint)))
           40%nat 255).
  - reflexivity.
  - unfold USB_DNA_SIGNATURE_SIZE. lia.
Defined.

End DNAExtras.
